(** * SAE Bakery SOP API: stock ledger, master data and code generator

    A shallow embedding of [src/main.py] and [src/schemas.py].

    Conventions of the embedding.
    - A Python [str] is a [string]; a character stands for a code point
      below 256, so that [\d] is exactly [0-9] and the byte order of the
      store's string comparison is the code-point order of [String.compare].
    - A pydantic [float] is an IEEE 754 binary64 number, the primitive
      [float] of [PrimFloat]: Python's [float] and the store's double.
      Addition rounds to nearest even, [<] is false on NaN, and [-0] and
      the infinities are values like the others.
    - A collection of the document store is the list of its documents in
      insertion order; [find_one] returns the first match.
    - An endpoint is a computation in a state-and-exception monad over the
      database: [raise HTTPException(...)] stops the endpoint and hands back
      the database as it is at that point. *)

From Stdlib Require Import List String Ascii Bool Arith ZArith NArith.
From Stdlib Require Import QArith Floats DecimalString Lia.
From Stdlib Require DecimalN DecimalPos Uint63.
Import ListNotations.

Open Scope string_scope.

(** ** Python helpers *)

Module Py.

(** [c in "0123456789"], which is [\d] on code points below 256. *)
Definition isdigit (c : ascii) : bool :=
  let n := N_of_ascii c in (48 <=? n)%N && (n <=? 57)%N.

(** One character of [str.lower()] on code points below 256. *)
Definition lower_char (c : ascii) : ascii :=
  let n := N_of_ascii c in
  if ((65 <=? n) && (n <=? 90) || (192 <=? n) && (n <=? 214)
      || (216 <=? n) && (n <=? 222))%N
  then ascii_of_N (n + 32) else c.

Fixpoint lower (s : string) : string :=
  match s with
  | EmptyString => EmptyString
  | String c s' => String (lower_char c) (lower s')
  end.

(** [x or y] on strings, [None] and the empty string being falsy. *)
Definition or_else (x : option string) (y : string) : string :=
  match x with
  | None | Some EmptyString => y
  | Some s => s
  end.

Fixpoint zeros (n : nat) : string :=
  match n with
  | O => EmptyString
  | S n' => String "0" (zeros n')
  end.

(** [s.zfill(width)] for a string of digits (no sign). *)
Definition zfill (width : Z) (s : string) : string :=
  zeros (Z.to_nat width - String.length s) ++ s.

(** [str(n)] for a non-negative integer. *)
Definition str (n : N) : string := NilZero.string_of_uint (N.to_uint n).

Definition digit_value (c : ascii) : N := (N_of_ascii c - 48)%N.

(** [int(s)] for a string of decimal digits. *)
Definition int (s : string) : N :=
  fold_left (fun acc c => (10 * acc + digit_value c)%N)
            (list_ascii_of_string s) 0%N.

Fixpoint take_while {A} (p : A -> bool) (l : list A) : list A :=
  match l with
  | [] => []
  | x :: l' => if p x then x :: take_while p l' else []
  end.

Definition newline : ascii := "010"%char.

(** Where [$] can match without [re.MULTILINE]: at the end of the string
    and just before a newline that is its last character.  The argument is
    the string reversed. *)
Definition before_dollar (r : list ascii) : list ascii :=
  match r with
  | c :: r' => if Ascii.eqb c newline then r' else r
  | [] => []
  end.

(** [re.search(r"(\d+)$", s)]: [None] when there is no match, otherwise
    group 1, the longest run of digits that ends where [$] matches. *)
Definition re_search_digits_dollar (s : string) : option string :=
  match take_while isdigit (before_dollar (rev (list_ascii_of_string s))) with
  | [] => None
  | ds => Some (string_of_list_ascii (rev ds))
  end.

(** The characters that are not literal in a regular expression of the
    store (PCRE). *)
Definition metachar (c : ascii) : bool :=
  existsb (Ascii.eqb c) (list_ascii_of_string "\^$.[]|()?*+{}").

Definition literal (p : string) : bool :=
  forallb (fun c => negb (metachar c)) (list_ascii_of_string p).

End Py.

(** ** Schemas ([src/schemas.py]) *)

Module Users.
Record t := mk
  { email : string; password_hash : string; name : string;
    role : string; is_active : bool }.
End Users.

Module Barang.
Record t := mk
  { kode_barang : string; nama_barang : string; satuan : string;
    harga_beli_default : float; kategori : string }.
End Barang.

Module Supplier.
Record t := mk
  { kode_supplier : string; nama_supplier : string;
    alamat : option string; nomor_hp : option string }.
End Supplier.

Module Customer.
Record t := mk
  { kode_customer : string; nama_customer : string;
    alamat : option string; nomor_hp : option string }.
End Customer.

Module PembelianItem.
Record t := mk
  { kode_barang : string; nama_barang : string; satuan : string;
    qty : float; harga_beli : float }.
End PembelianItem.

Module Pembelian.
Record t := mk
  { nomor_faktur : string; tanggal : string; kode_supplier : string;
    supplier_name : option string; keterangan : option string;
    items : list PembelianItem.t; grand_total : float }.
End Pembelian.

Module BarangMasuk.
Record t := mk
  { tanggal : string; kode_barang : string; nama_barang : string;
    satuan : string; qty : float; catatan : option string }.
End BarangMasuk.

Module BarangKeluar.
Record t := mk
  { tanggal : string; kode_barang : string; nama_barang : string;
    satuan : string; qty : float; catatan : option string }.
End BarangKeluar.

Module PenjualanItem.
Record t := mk
  { kode_barang : string; nama_barang : string; satuan : string;
    qty : float; harga_jual : float }.
End PenjualanItem.

Module Penjualan.
Record t := mk
  { nomor_penjualan : string; tanggal : string; kode_customer : string;
    customer_name : option string; keterangan : option string;
    items : list PenjualanItem.t; grand_total : float }.
End Penjualan.

(** A document of the [stock] collection.  It has no schema class: its
    fields are those written by the [update_one] calls of the transaction
    endpoints. *)
Module Stock.
Record t := mk
  { kode_barang : string; stok : float; satuan : string;
    nama_barang : string }.
End Stock.

(** ** The database *)

(** [db]: one list of documents per collection that [src/main.py] names.
    The stock-out collection keeps the spelling of the source. *)
Record DB := mkDB
  { users : list Users.t;
    barang : list Barang.t;
    supplier : list Supplier.t;
    customer : list Customer.t;
    pembelian : list Pembelian.t;
    barangmasuk : list BarangMasuk.t;
    barngkeluar : list BarangKeluar.t;
    penjualan : list Penjualan.t;
    stock : list Stock.t }.

Definition empty_db : DB := mkDB [] [] [] [] [] [] [] [] [].

(** [collection(name)]: a handle on one collection of the database. *)
Record Coll (D : Type) := mkColl
  { docs : DB -> list D;
    put : list D -> DB -> DB }.
Arguments docs {D} _ _.
Arguments put {D} _ _ _.

Definition c_users : Coll Users.t :=
  mkColl _ users (fun l d =>
    mkDB l (barang d) (supplier d) (customer d) (pembelian d)
         (barangmasuk d) (barngkeluar d) (penjualan d) (stock d)).
Definition c_barang : Coll Barang.t :=
  mkColl _ barang (fun l d =>
    mkDB (users d) l (supplier d) (customer d) (pembelian d)
         (barangmasuk d) (barngkeluar d) (penjualan d) (stock d)).
Definition c_supplier : Coll Supplier.t :=
  mkColl _ supplier (fun l d =>
    mkDB (users d) (barang d) l (customer d) (pembelian d)
         (barangmasuk d) (barngkeluar d) (penjualan d) (stock d)).
Definition c_customer : Coll Customer.t :=
  mkColl _ customer (fun l d =>
    mkDB (users d) (barang d) (supplier d) l (pembelian d)
         (barangmasuk d) (barngkeluar d) (penjualan d) (stock d)).
Definition c_pembelian : Coll Pembelian.t :=
  mkColl _ pembelian (fun l d =>
    mkDB (users d) (barang d) (supplier d) (customer d) l
         (barangmasuk d) (barngkeluar d) (penjualan d) (stock d)).
Definition c_barangmasuk : Coll BarangMasuk.t :=
  mkColl _ barangmasuk (fun l d =>
    mkDB (users d) (barang d) (supplier d) (customer d) (pembelian d)
         l (barngkeluar d) (penjualan d) (stock d)).
Definition c_barngkeluar : Coll BarangKeluar.t :=
  mkColl _ barngkeluar (fun l d =>
    mkDB (users d) (barang d) (supplier d) (customer d) (pembelian d)
         (barangmasuk d) l (penjualan d) (stock d)).
Definition c_penjualan : Coll Penjualan.t :=
  mkColl _ penjualan (fun l d =>
    mkDB (users d) (barang d) (supplier d) (customer d) (pembelian d)
         (barangmasuk d) (barngkeluar d) l (stock d)).
Definition c_stock : Coll Stock.t :=
  mkColl _ stock (fun l d =>
    mkDB (users d) (barang d) (supplier d) (customer d) (pembelian d)
         (barangmasuk d) (barngkeluar d) (penjualan d) l).

(** ** Endpoints as computations *)

Record HTTPException := mkHTTPException
  { status_code : Z; detail : string }.

(** A computation reads and writes the database and either raises or
    returns.  The database of the result is the one the store is left with,
    also when the computation raises. *)
Definition M (A : Type) : Type := DB -> DB * (HTTPException + A).

Definition ret {A} (a : A) : M A := fun db => (db, inr a).

Definition raise {A} (e : HTTPException) : M A := fun db => (db, inl e).

Definition bind {A B} (m : M A) (k : A -> M B) : M B :=
  fun db =>
    match m db with
    | (db', inr a) => k a db'
    | (db', inl e) => (db', inl e)
    end.

Declare Scope endpoint_scope.
Delimit Scope endpoint_scope with endpoint.
Notation "x <- m ;; k" := (bind m (fun x => k))
  (at level 100, m at next level, right associativity) : endpoint_scope.
Notation "m ;; k" := (bind m (fun _ => k))
  (at level 100, right associativity) : endpoint_scope.
Open Scope endpoint_scope.

(** [for x in l: f(x)] *)
Fixpoint for_each {A} (f : A -> M unit) (l : list A) : M unit :=
  match l with
  | [] => ret tt
  | x :: l' => f x ;; for_each f l'
  end.

(** ** The document store *)

(** [collection(c).find_one(filter)]: the first document that matches, or
    [None]. *)
Definition find_one {D} (c : Coll D) (filter : D -> bool) : M (option D) :=
  fun db => (db, inr (find filter (docs c db))).

(** Modelled from the spec: [create_document] of [database.py], which is not
    part of the sources; it persists the record in the named collection
    (section 4.4: "persist the transaction record").  The record is stored as
    given, after the documents already there. *)
Definition create_document {D} (c : Coll D) (data : D) : M unit :=
  fun db => (put c (docs c db ++ [data]) db, inr tt).

(** [{"$inc": {"stok": delta}}] applied to the first document whose
    [kode_barang] is [kode]; [None] when no document matches.  The store
    adds the two doubles. *)
Fixpoint inc_first (kode : string) (delta : float) (l : list Stock.t)
  : option (list Stock.t) :=
  match l with
  | [] => None
  | s :: l' =>
      if Stock.kode_barang s =? kode
      then Some (Stock.mk (Stock.kode_barang s) (Stock.stok s + delta)%float
                          (Stock.satuan s) (Stock.nama_barang s) :: l')
      else option_map (cons s) (inc_first kode delta l')
  end.

(** [update_one({"kode_barang": kode},
                {"$inc": {"stok": delta},
                 "$setOnInsert": {"satuan": satuan, "nama_barang": nama}},
                upsert=True)] on the documents of a collection.  Without a
    match the store inserts the document made of the equality filter, the
    increment applied to a missing field and the [$setOnInsert] fields. *)
Definition upsert_inc (kode : string) (delta : float) (satuan nama : string)
    (l : list Stock.t) : list Stock.t :=
  match inc_first kode delta l with
  | Some l' => l'
  | None => l ++ [Stock.mk kode delta satuan nama]
  end.

Definition update_one_stock (kode : string) (delta : float)
    (satuan nama : string) : M unit :=
  fun db =>
    (put c_stock (upsert_inc kode delta satuan nama (docs c_stock db)) db,
     inr tt).

(** ** Master data ([src/main.py], lines 149-206) *)

Definition create_barang (data : Barang.t) (current : Users.t) : M string :=
  if negb (Users.role current =? "admin") then
    raise (mkHTTPException 403 "Hanya admin yang bisa membuat master data")
  else
    found <- find_one c_barang
      (fun d => Barang.kode_barang d =? Barang.kode_barang data) ;;
    match found with
    | Some _ => raise (mkHTTPException 400 "Kode barang sudah ada")
    | None =>
        create_document c_barang data ;;
        ret "Barang dibuat"
    end.

Definition create_supplier (data : Supplier.t) (current : Users.t)
  : M string :=
  if negb (Users.role current =? "admin") then
    raise (mkHTTPException 403 "Hanya admin yang bisa membuat master data")
  else
    found <- find_one c_supplier
      (fun d => Supplier.kode_supplier d =? Supplier.kode_supplier data) ;;
    match found with
    | Some _ => raise (mkHTTPException 400 "Kode supplier sudah ada")
    | None =>
        create_document c_supplier data ;;
        ret "Supplier dibuat"
    end.

Definition create_customer (data : Customer.t) (current : Users.t)
  : M string :=
  if negb (Users.role current =? "admin") then
    raise (mkHTTPException 403 "Hanya admin yang bisa membuat master data")
  else
    found <- find_one c_customer
      (fun d => Customer.kode_customer d =? Customer.kode_customer data) ;;
    match found with
    | Some _ => raise (mkHTTPException 400 "Kode customer sudah ada")
    | None =>
        create_document c_customer data ;;
        ret "Customer dibuat"
    end.

(** ** Transactions ([src/main.py], lines 267-340) *)

(** The body of the validation loop of [create_pembelian]. *)
Definition pembelian_check_item (it : PembelianItem.t) : M unit :=
  br <- find_one c_barang
    (fun d => Barang.kode_barang d =? PembelianItem.kode_barang it) ;;
  match br with
  | None =>
      raise (mkHTTPException 400
        ("Barang " ++ PembelianItem.kode_barang it ++ " tidak ditemukan"))
  | Some _ => ret tt
  end.

(** The body of the stock loop of [create_pembelian]. *)
Definition pembelian_apply_item (it : PembelianItem.t) : M unit :=
  update_one_stock (PembelianItem.kode_barang it) (PembelianItem.qty it)
    (PembelianItem.satuan it) (PembelianItem.nama_barang it).

Definition create_pembelian (data : Pembelian.t) (current : Users.t)
  : M string :=
  sup <- find_one c_supplier
    (fun d => Supplier.kode_supplier d =? Pembelian.kode_supplier data) ;;
  match sup with
  | None => raise (mkHTTPException 400 "Supplier tidak ditemukan")
  | Some _ =>
      for_each pembelian_check_item (Pembelian.items data) ;;
      create_document c_pembelian data ;;
      for_each pembelian_apply_item (Pembelian.items data) ;;
      ret "Pembelian disimpan"
  end.

Definition create_barang_masuk (data : BarangMasuk.t) (current : Users.t)
  : M string :=
  br <- find_one c_barang
    (fun d => Barang.kode_barang d =? BarangMasuk.kode_barang data) ;;
  match br with
  | None => raise (mkHTTPException 400 "Barang tidak ditemukan")
  | Some _ =>
      create_document c_barangmasuk data ;;
      update_one_stock (BarangMasuk.kode_barang data) (BarangMasuk.qty data)
        (BarangMasuk.satuan data) (BarangMasuk.nama_barang data) ;;
      ret "Barang masuk disimpan"
  end.

(** [st and st.get("stok", 0) < qty], with Python's [<] on two floats:
    false as soon as one of them is NaN. *)
Definition insufficient (st : option Stock.t) (qty : float) : bool :=
  match st with
  | Some s => (Stock.stok s <? qty)%float
  | None => false
  end.

Definition create_barang_keluar (data : BarangKeluar.t) (current : Users.t)
  : M string :=
  br <- find_one c_barang
    (fun d => Barang.kode_barang d =? BarangKeluar.kode_barang data) ;;
  match br with
  | None => raise (mkHTTPException 400 "Barang tidak ditemukan")
  | Some _ =>
      st <- find_one c_stock
        (fun d => Stock.kode_barang d =? BarangKeluar.kode_barang data) ;;
      if insufficient st (BarangKeluar.qty data) then
        raise (mkHTTPException 400 "Stok tidak mencukupi")
      else
        create_document c_barngkeluar data ;;
        update_one_stock (BarangKeluar.kode_barang data)
          (- BarangKeluar.qty data)%float
          (BarangKeluar.satuan data) (BarangKeluar.nama_barang data) ;;
        ret "Barang keluar disimpan"
  end.

(** The body of the validation loop of [create_penjualan]. *)
Definition penjualan_check_item (it : PenjualanItem.t) : M unit :=
  br <- find_one c_barang
    (fun d => Barang.kode_barang d =? PenjualanItem.kode_barang it) ;;
  match br with
  | None =>
      raise (mkHTTPException 400
        ("Barang " ++ PenjualanItem.kode_barang it ++ " tidak ditemukan"))
  | Some _ =>
      st <- find_one c_stock
        (fun d => Stock.kode_barang d =? PenjualanItem.kode_barang it) ;;
      if insufficient st (PenjualanItem.qty it) then
        raise (mkHTTPException 400
          ("Stok " ++ PenjualanItem.kode_barang it ++ " tidak mencukupi"))
      else ret tt
  end.

(** The body of the stock loop of [create_penjualan]. *)
Definition penjualan_apply_item (it : PenjualanItem.t) : M unit :=
  update_one_stock (PenjualanItem.kode_barang it) (- PenjualanItem.qty it)%float
    (PenjualanItem.satuan it) (PenjualanItem.nama_barang it).

Definition create_penjualan (data : Penjualan.t) (current : Users.t)
  : M string :=
  cust <- find_one c_customer
    (fun d => Customer.kode_customer d =? Penjualan.kode_customer data) ;;
  match cust with
  | None => raise (mkHTTPException 400 "Customer tidak ditemukan")
  | Some _ =>
      for_each penjualan_check_item (Penjualan.items data) ;;
      create_document c_penjualan data ;;
      for_each penjualan_apply_item (Penjualan.items data) ;;
      ret "Penjualan disimpan"
  end.

(** ** Requests and traces *)

(** The POST requests that write to the database, each with the body and
    the caller that [get_current_user] resolved. *)
Inductive request :=
| PostBarang (data : Barang.t) (current : Users.t)
| PostSupplier (data : Supplier.t) (current : Users.t)
| PostCustomer (data : Customer.t) (current : Users.t)
| PostPembelian (data : Pembelian.t) (current : Users.t)
| PostBarangMasuk (data : BarangMasuk.t) (current : Users.t)
| PostBarangKeluar (data : BarangKeluar.t) (current : Users.t)
| PostPenjualan (data : Penjualan.t) (current : Users.t).

Definition handle (r : request) : M string :=
  match r with
  | PostBarang data current => create_barang data current
  | PostSupplier data current => create_supplier data current
  | PostCustomer data current => create_customer data current
  | PostPembelian data current => create_pembelian data current
  | PostBarangMasuk data current => create_barang_masuk data current
  | PostBarangKeluar data current => create_barang_keluar data current
  | PostPenjualan data current => create_penjualan data current
  end.

(** The database after a computation, and whether it returned. *)
Definition db_after {A} (m : M A) (db : DB) : DB := fst (m db).

Definition accepted {A} (m : M A) (db : DB) : bool :=
  match snd (m db) with
  | inr _ => true
  | inl _ => false
  end.

Definition error_of {A} (m : M A) (db : DB) : option HTTPException :=
  match snd (m db) with
  | inr _ => None
  | inl e => Some e
  end.

(** The database after a sequence of requests served one after the other. *)
Fixpoint run (rs : list request) (db : DB) : DB :=
  match rs with
  | [] => db
  | r :: rs' => run rs' (db_after (handle r) db)
  end.

(** ** The stock ledger as the reports read it *)

(** [find_one({"kode_barang": kode})] on the documents of the ledger. *)
Definition entry_in (l : list Stock.t) (kode : string) : option Stock.t :=
  find (fun d => Stock.kode_barang d =? kode) l.

Definition entry_of (db : DB) (kode : string) : option Stock.t :=
  entry_in (stock db) kode.

(** [stok] of the ledger entry of an item, 0 without an entry. *)
Definition stok_in (l : list Stock.t) (kode : string) : float :=
  match entry_in l kode with
  | Some s => Stock.stok s
  | None => 0%float
  end.

Definition stok_of (db : DB) (kode : string) : float :=
  stok_in (stock db) kode.

(** Whether the item master holds a record with this code. *)
Definition barang_exists (db : DB) (kode : string) : bool :=
  existsb (fun d => Barang.kode_barang d =? kode) (barang db).

Definition supplier_exists (db : DB) (kode : string) : bool :=
  existsb (fun d => Supplier.kode_supplier d =? kode) (supplier db).

Definition customer_exists (db : DB) (kode : string) : bool :=
  existsb (fun d => Customer.kode_customer d =? kode) (customer db).

(** A ledger document after [$inc] of [stok] by [d] with [upsert=True] and
    [$setOnInsert] of [satuan] and [nama]: an entry keeps its code, unit
    and name and has [d] added to its quantity; without an entry the
    document is made of the code, [d] and the two snapshot fields. *)
Definition bump (kode : string) (d : float) (satuan nama : string)
    (e : option Stock.t) : Stock.t :=
  match e with
  | Some s =>
      Stock.mk (Stock.kode_barang s) (Stock.stok s + d)%float
               (Stock.satuan s) (Stock.nama_barang s)
  | None => Stock.mk kode d satuan nama
  end.

(** The quantity of an entry after the deltas [ds] were added to it one
    after the other, each addition rounding as the store's [$inc] does;
    [None] stands for no entry, which the first delta creates. *)
Definition add_deltas (start : option float) (ds : list float)
  : option float :=
  fold_left
    (fun a d => Some match a with Some x => (x + d)%float | None => d end)
    ds start.

(** What the lines of one request add to the ledger quantity of an item
    when the request is accepted, line by line in the order of the stock
    loop: plus [qty] per purchase or stock-in line on the item, minus [qty]
    per stock-out or sale line on it. *)
Definition deltas (kode : string) (r : request) : list float :=
  match r with
  | PostPembelian data _ =>
      map PembelianItem.qty
        (filter (fun it => PembelianItem.kode_barang it =? kode)
                (Pembelian.items data))
  | PostBarangMasuk data _ =>
      if BarangMasuk.kode_barang data =? kode then [BarangMasuk.qty data]
      else []
  | PostBarangKeluar data _ =>
      if BarangKeluar.kode_barang data =? kode
      then [(- BarangKeluar.qty data)%float] else []
  | PostPenjualan data _ =>
      map (fun it => (- PenjualanItem.qty it)%float)
        (filter (fun it => PenjualanItem.kode_barang it =? kode)
                (Penjualan.items data))
  | _ => []
  end.

(** Whether every request of a trace is accepted, each request being served
    on the database its predecessors left. *)
Fixpoint all_accepted (rs : list request) (db : DB) : bool :=
  match rs with
  | [] => true
  | r :: rs' =>
      accepted (handle r) db && all_accepted rs' (db_after (handle r) db)
  end.

(** The deltas of the requests of a trace that were accepted, in the order
    in which the stock loops applied them. *)
Fixpoint accepted_deltas (kode : string) (rs : list request) (db : DB)
  : list float :=
  match rs with
  | [] => []
  | r :: rs' =>
      (if accepted (handle r) db then deltas kode r else [])
      ++ accepted_deltas kode rs' (db_after (handle r) db)
  end.

(** The real number that a double stands for; [None] for NaN and the
    infinities. *)
Definition exact (x : float) : option Q :=
  match Prim2SF x with
  | S754_zero _ => Some 0%Q
  | S754_finite s m e =>
      let v := if (0 <=? e)%Z then (Z.pos m * 2 ^ e # 1)%Q
               else (Z.pos m # Z.to_pos (2 ^ (- e)))%Q in
      Some (if s then (- v)%Q else v)
  | _ => None
  end.

(** The algebraic sum of a list of doubles: their sum as real numbers,
    without rounding; [None] when one of them is NaN or infinite. *)
Fixpoint algebraic_sum (l : list float) : option Q :=
  match l with
  | [] => Some 0%Q
  | x :: l' =>
      match exact x, algebraic_sum l' with
      | Some a, Some b => Some (Qred (a + b))
      | _, _ => None
      end
  end.

(** ** Code generator ([src/main.py], lines 134-147 and 398-422) *)

Definition opt_strings {D} (f : D -> option string) (l : list D)
  : list string :=
  flat_map (fun d => match f d with Some s => [s] | None => [] end) l.

(** The values of field [f] over the documents of collection [c] that hold a
    string there.  A field that is absent, null or not a string matches no
    [$regex] filter, and a collection the endpoints never write to has no
    documents. *)
Definition field_strings (db : DB) (c f : string) : list string :=
  if c =? "users" then
    if f =? "email" then map Users.email (users db)
    else if f =? "password_hash" then map Users.password_hash (users db)
    else if f =? "name" then map Users.name (users db)
    else if f =? "role" then map Users.role (users db)
    else []
  else if c =? "barang" then
    if f =? "kode_barang" then map Barang.kode_barang (barang db)
    else if f =? "nama_barang" then map Barang.nama_barang (barang db)
    else if f =? "satuan" then map Barang.satuan (barang db)
    else if f =? "kategori" then map Barang.kategori (barang db)
    else []
  else if c =? "supplier" then
    if f =? "kode_supplier" then map Supplier.kode_supplier (supplier db)
    else if f =? "nama_supplier" then map Supplier.nama_supplier (supplier db)
    else if f =? "alamat" then opt_strings Supplier.alamat (supplier db)
    else if f =? "nomor_hp" then opt_strings Supplier.nomor_hp (supplier db)
    else []
  else if c =? "customer" then
    if f =? "kode_customer" then map Customer.kode_customer (customer db)
    else if f =? "nama_customer" then map Customer.nama_customer (customer db)
    else if f =? "alamat" then opt_strings Customer.alamat (customer db)
    else if f =? "nomor_hp" then opt_strings Customer.nomor_hp (customer db)
    else []
  else if c =? "pembelian" then
    if f =? "nomor_faktur" then map Pembelian.nomor_faktur (pembelian db)
    else if f =? "tanggal" then map Pembelian.tanggal (pembelian db)
    else if f =? "kode_supplier" then
      map Pembelian.kode_supplier (pembelian db)
    else if f =? "supplier_name" then
      opt_strings Pembelian.supplier_name (pembelian db)
    else if f =? "keterangan" then
      opt_strings Pembelian.keterangan (pembelian db)
    else []
  else if c =? "barangmasuk" then
    if f =? "tanggal" then map BarangMasuk.tanggal (barangmasuk db)
    else if f =? "kode_barang" then
      map BarangMasuk.kode_barang (barangmasuk db)
    else if f =? "nama_barang" then
      map BarangMasuk.nama_barang (barangmasuk db)
    else if f =? "satuan" then map BarangMasuk.satuan (barangmasuk db)
    else if f =? "catatan" then opt_strings BarangMasuk.catatan (barangmasuk db)
    else []
  else if c =? "barngkeluar" then
    if f =? "tanggal" then map BarangKeluar.tanggal (barngkeluar db)
    else if f =? "kode_barang" then
      map BarangKeluar.kode_barang (barngkeluar db)
    else if f =? "nama_barang" then
      map BarangKeluar.nama_barang (barngkeluar db)
    else if f =? "satuan" then map BarangKeluar.satuan (barngkeluar db)
    else if f =? "catatan" then
      opt_strings BarangKeluar.catatan (barngkeluar db)
    else []
  else if c =? "penjualan" then
    if f =? "nomor_penjualan" then
      map Penjualan.nomor_penjualan (penjualan db)
    else if f =? "tanggal" then map Penjualan.tanggal (penjualan db)
    else if f =? "kode_customer" then
      map Penjualan.kode_customer (penjualan db)
    else if f =? "customer_name" then
      opt_strings Penjualan.customer_name (penjualan db)
    else if f =? "keterangan" then
      opt_strings Penjualan.keterangan (penjualan db)
    else []
  else if c =? "stock" then
    if f =? "kode_barang" then map Stock.kode_barang (stock db)
    else if f =? "satuan" then map Stock.satuan (stock db)
    else if f =? "nama_barang" then map Stock.nama_barang (stock db)
    else []
  else [].

(** The first value in descending order, as [sort=[(f, -1)]] selects it. *)
Fixpoint last_sorted (l : list string) : option string :=
  match l with
  | [] => None
  | v :: l' =>
      match last_sorted l' with
      | Some w => if String.leb v w then Some w else Some v
      | None => Some v
      end
  end.

(** [find_one({f: {"$regex": "^" + prefix}}, sort=[(f, -1)])[f]] on the
    values of the field.  The pattern is modelled for a prefix without
    metacharacters, where it matches the values that begin with the prefix;
    [None] stands for a pattern outside this fragment. *)
Definition find_last_with_prefix (prefix : string) (values : list string)
  : option (option string) :=
  if Py.literal prefix
  then Some (last_sorted (filter (String.prefix prefix) values))
  else None.

(** The number that follows the one read from the last code. *)
Definition next_num (last : option string) : N :=
  match last with
  | None => 1
  | Some v =>
      match Py.re_search_digits_dollar v with
      | Some g => Py.int g + 1
      | None => 1
      end
  end%N.

Definition next_code (prefix : string) (pad : Z) (field coll : option string)
    (db : DB) : option string :=
  let c := Py.or_else coll (Py.lower prefix) in
  let f := Py.or_else field ("kode_" ++ c) in
  match find_last_with_prefix prefix (field_strings db c f) with
  | Some last => Some (prefix ++ Py.zfill pad (Py.str (next_num last)))
  | None => None
  end.

Definition autocode_barang (db : DB) : option string :=
  next_code "KODE-" 3 (Some "kode_barang") (Some "barang") db.



Definition autocode_invoice (db : DB) : option string :=
  next_code "INV-" 3 (Some "nomor_faktur") (Some "pembelian") db.

Definition autocode_sales (db : DB) : option string :=
  next_code "SL-" 3 (Some "nomor_penjualan") (Some "penjualan") db.

(** ** Vocabulary of the statements *)

(** The first [Some] that [f] gives along a list. *)
Fixpoint first_some {A B} (f : A -> option B) (l : list A) : option B :=
  match l with
  | [] => None
  | x :: l' =>
      match f x with
      | Some b => Some b
      | None => first_some f l'
      end
  end.

(** What the validation loop of [create_pembelian] raises on one line. *)
Definition pembelian_item_error (db : DB) (it : PembelianItem.t)
  : option HTTPException :=
  error_of (pembelian_check_item it) db.

(** What the validation loop of [create_penjualan] raises on one line. *)
Definition penjualan_item_error (db : DB) (it : PenjualanItem.t)
  : option HTTPException :=
  error_of (penjualan_check_item it) db.

(** Whether the validation loop of [create_penjualan] lets a line pass, on
    the database as it is when the request arrives. *)
Definition line_passes (db : DB) (it : PenjualanItem.t) : bool :=
  barang_exists db (PenjualanItem.kode_barang it)
  && negb (insufficient (entry_of db (PenjualanItem.kode_barang it))
                        (PenjualanItem.qty it)).

(** The ledger after the stock loop of [create_pembelian]. *)
Definition apply_pembelian (items : list PembelianItem.t)
    (l : list Stock.t) : list Stock.t :=
  fold_left
    (fun l it =>
       upsert_inc (PembelianItem.kode_barang it) (PembelianItem.qty it)
         (PembelianItem.satuan it) (PembelianItem.nama_barang it) l)
    items l.

(** The ledger after the stock loop of [create_penjualan]. *)
Definition apply_penjualan (items : list PenjualanItem.t)
    (l : list Stock.t) : list Stock.t :=
  fold_left
    (fun l it =>
       upsert_inc (PenjualanItem.kode_barang it) (- PenjualanItem.qty it)%float
         (PenjualanItem.satuan it) (PenjualanItem.nama_barang it) l)
    items l.

(** The error classes of section 7 of the spec that the claims name, read
    off the status and the message of the exception. *)
Definition is_insufficient_stock (e : HTTPException) : bool :=
  (status_code e =? 400)%Z && String.prefix "Stok " (detail e).

Definition is_conflict (e : HTTPException) : bool :=
  (status_code e =? 400)%Z && String.prefix "Kode " (detail e).

Definition is_forbidden (e : HTTPException) : bool :=
  (status_code e =? 403)%Z.

(** A sum of doubles, added from left to right from 0. *)
Definition fsum (l : list float) : float := fold_left PrimFloat.add l 0%float.

(** The sum over the lines of quantity times unit price. *)
Definition pembelian_lines_total (data : Pembelian.t) : float :=
  fsum (map (fun it => (PembelianItem.qty it * PembelianItem.harga_beli it)%float)
             (Pembelian.items data)).

Definition penjualan_lines_total (data : Penjualan.t) : float :=
  fsum (map (fun it => (PenjualanItem.qty it * PenjualanItem.harga_jual it)%float)
             (Penjualan.items data)).

(** Every entry of the ledger is on an item of the item master. *)
Definition ledger_in_master (db : DB) : bool :=
  forallb (fun s => barang_exists db (Stock.kode_barang s)) (stock db).

(** The run of digits at the very end of a string, as the comment of
    [next_code] describes what it extracts ("Extract trailing digits"). *)
Definition trailing_digits (s : string) : string :=
  string_of_list_ascii
    (rev (Py.take_while Py.isdigit (rev (list_ascii_of_string s)))).


(** ** Sample data *)

(** The double of an integer of at most 63 bits. *)
Definition fl (z : Z) : float :=
  if (z <? 0)%Z then (- of_uint63 (Uint63.of_Z (- z)))%float
  else of_uint63 (Uint63.of_Z z).

Definition admin : Users.t :=
  Users.mk "admin@sae-bakery.local" "hash" "Admin" "admin" true.

Definition staff : Users.t :=
  Users.mk "staff@saebakery.com" "hash" "Staff" "staff" true.

Definition tepung : Barang.t :=
  Barang.mk "KODE-001" "Tepung" "Kg" (fl 12000) "Bahan Baku".

Definition gula : Barang.t :=
  Barang.mk "KODE-002" "Gula" "Kg" (fl 15000) "Bahan Baku".

Definition sup1 : Supplier.t := Supplier.mk "SUP001" "Toko Sumber" None None.

Definition sup2 : Supplier.t := Supplier.mk "SUP002" "Toko Baru" None None.

(** A record with the code of [sup1] and another name. *)
Definition sup1_again : Supplier.t :=
  Supplier.mk "SUP001" "Toko Lain" None None.

Definition cus1 : Customer.t := Customer.mk "CUS001" "Ibu Ani" None None.

(** Two items, one supplier, one customer, nothing in stock. *)
Definition master_db : DB :=
  mkDB [admin; staff] [tepung; gula] [sup1] [cus1] [] [] [] [] [].

Definition tepung_5 : Stock.t := Stock.mk "KODE-001" (fl 5) "Kg" "Tepung".

(** [master_db] with 5 Kg of [tepung] in the ledger. *)
Definition stocked_db : DB := put c_stock [tepung_5] master_db.

Definition keluar_tepung (q : Z) : BarangKeluar.t :=
  BarangKeluar.mk "2024-01-06" "KODE-001" "Tepung" "Kg" (fl q) None.

(** A stock-out whose quantity is NaN, as the JSON literal [NaN] gives. *)
Definition keluar_nan : BarangKeluar.t :=
  BarangKeluar.mk "2024-01-06" "KODE-001" "Tepung" "Kg" nan None.

Definition masuk_tepung (q : Z) : BarangMasuk.t :=
  BarangMasuk.mk "2024-01-07" "KODE-001" "Tepung" "Kg" (fl q) None.

Definition jual_line (kode : string) (q : Z) : PenjualanItem.t :=
  PenjualanItem.mk kode "Tepung" "Kg" (fl q) (fl 20000).

Definition jual (customer : string) (lines : list PenjualanItem.t)
  : Penjualan.t :=
  Penjualan.mk "SL-001" "2024-01-08" customer None None lines (fl 0).

(** [master_db] after a stock-out of 5 of an item without a ledger entry:
    the entry of the item holds -5. *)
Definition overdrawn_db : DB :=
  db_after (create_barang_keluar (keluar_tepung 5) staff) master_db.

Definition beli_tepung_gula : Pembelian.t :=
  Pembelian.mk "INV-001" "2024-01-05" "SUP001" None None
    [PembelianItem.mk "KODE-001" "Tepung" "Kg" (fl 10) (fl 12000);
     PembelianItem.mk "KODE-002" "Gula" "Kg" (fl 4) (fl 15000)]
    (fl 180000).

(** A purchase, a stock-out, a sale of two lines on one item and a
    stock-in. *)
Definition sample_trace : list request :=
  [PostPembelian beli_tepung_gula staff;
   PostBarangKeluar (keluar_tepung 3) staff;
   PostPenjualan (jual "CUS001" [jual_line "KODE-001" 2;
                                 jual_line "KODE-001" 1]) staff;
   PostBarangMasuk (masuk_tepung 1) staff].

(** Two stock-ins of one item, of 2^53 and of 1. *)
Definition big_trace : list request :=
  [PostBarangMasuk (masuk_tepung (2 ^ 53)) staff;
   PostBarangMasuk (masuk_tepung 1) staff].

(** A purchase and a sale whose second line names an unknown item. *)
Definition beli_unknown : Pembelian.t :=
  Pembelian.mk "INV-002" "2024-01-09" "SUP001" None None
    [PembelianItem.mk "KODE-001" "Tepung" "Kg" (fl 10) (fl 12000);
     PembelianItem.mk "KODE-999" "Ragi" "Gram" (fl 1) (fl 500)]
    (fl 120500).

Definition jual_unknown : Penjualan.t :=
  jual "CUS001" [jual_line "KODE-001" 2; jual_line "KODE-999" 1].

(** A sale of more than the ledger holds, to a customer that is not in the
    customer master. *)
Definition jual_stranger : Penjualan.t :=
  jual "CUS999" [jual_line "KODE-001" 10].

(** A sale to a known customer whose second line asks for more than the
    ledger holds. *)
Definition jual_too_much : Penjualan.t :=
  jual "CUS001" [jual_line "KODE-001" 2; jual_line "KODE-001" 10].

(** A sale of two lines, of 7 and of 2, on one item. *)
Definition jual_seven_two : Penjualan.t :=
  jual "CUS001" [jual_line "KODE-001" 7; jual_line "KODE-001" 2].

(** [master_db] with 2^53 Kg of [tepung] in the ledger. *)
Definition big_db : DB :=
  put c_stock [Stock.mk "KODE-001" (fl (2 ^ 53)) "Kg" "Tepung"] master_db.

(** A sale of two lines of 3 on the item of which the ledger holds 5. *)
Definition jual_twice : Penjualan.t :=
  jual "CUS001" [jual_line "KODE-001" 3; jual_line "KODE-001" 3].

(** A purchase of 10 at 12000 with a stated total of 1. *)
Definition beli_wrong_total : Pembelian.t :=
  Pembelian.mk "INV-003" "2024-01-10" "SUP001" None None
    [PembelianItem.mk "KODE-001" "Tepung" "Kg" (fl 10) (fl 12000)]
    (fl 1).

(** A sale of 2 at 20000 with a stated total of 0. *)
Definition jual_wrong_total : Penjualan.t :=
  jual "CUS001" [jual_line "KODE-001" 2].

(** A purchase of one line with quantity -3. *)
Definition beli_negative : Pembelian.t :=
  Pembelian.mk "INV-004" "2024-01-11" "SUP001" None None
    [PembelianItem.mk "KODE-001" "Tepung" "Kg" (fl (-3)) (fl 12000)]
    (fl (-36000)).

(** An item code that ends in a line feed, as a JSON body can carry it. *)
Definition kode_newline : string := "KODE-005" ++ String Py.newline "".

Definition roti_newline : Barang.t :=
  Barang.mk kode_newline "Roti" "Pcs" (fl 5000) "Barang Jadi".

(** The database after [POST /api/barang] of [roti_newline] by the admin on
    the empty database. *)
Definition newline_db : DB :=
  db_after (create_barang roti_newline admin) empty_db.

(** ** Vocabulary of the trace properties *)

(** The item codes of the ledger entries, in the order of the collection. *)
Definition ledger_codes (db : DB) : list string :=
  map Stock.kode_barang (stock db).

Definition body_barang (r : request) : option Barang.t :=
  match r with PostBarang d _ => Some d | _ => None end.

Definition body_supplier (r : request) : option Supplier.t :=
  match r with PostSupplier d _ => Some d | _ => None end.

Definition body_customer (r : request) : option Customer.t :=
  match r with PostCustomer d _ => Some d | _ => None end.

Definition body_pembelian (r : request) : option Pembelian.t :=
  match r with PostPembelian d _ => Some d | _ => None end.

Definition body_barang_masuk (r : request) : option BarangMasuk.t :=
  match r with PostBarangMasuk d _ => Some d | _ => None end.

Definition body_barang_keluar (r : request) : option BarangKeluar.t :=
  match r with PostBarangKeluar d _ => Some d | _ => None end.

Definition body_penjualan (r : request) : option Penjualan.t :=
  match r with PostPenjualan d _ => Some d | _ => None end.

(** The bodies that [sel] picks among the requests of a trace that were
    accepted, in the order of the trace. *)
Fixpoint accepted_bodies {D} (sel : request -> option D)
    (rs : list request) (db : DB) : list D :=
  match rs with
  | [] => []
  | r :: rs' =>
      (if accepted (handle r) db
       then match sel r with Some d => [d] | None => [] end
       else [])
      ++ accepted_bodies sel rs' (db_after (handle r) db)
  end.

(** The codes of the three master collections are pairwise different. *)
Definition master_codes_unique (db : DB) : Prop :=
  NoDup (map Barang.kode_barang (barang db))
  /\ NoDup (map Supplier.kode_supplier (supplier db))
  /\ NoDup (map Customer.kode_customer (customer db)).

(** The body of one request, when [sel] picks it and it was accepted. *)
Definition step_body {D} (sel : request -> option D) (r : request) (db : DB)
  : list D :=
  if accepted (handle r) db
  then match sel r with Some d => [d] | None => [] end
  else [].

(** Two ledger documents with the same item code, name and unit. *)
Definition same_snapshot (s s' : Stock.t) : Prop :=
  Stock.kode_barang s' = Stock.kode_barang s
  /\ Stock.nama_barang s' = Stock.nama_barang s
  /\ Stock.satuan s' = Stock.satuan s.

(** ** Authentication ([src/main.py], lines 36-132) *)

(** The claims of a token that the endpoints write and read. *)
Module Payload.
Record t := mk { sub : option string; role : option string }.
End Payload.

Module Token.
Record t := mk { access_token : string; token_type : string }.
End Token.

(** The body of a login request as the endpoint receives it, that is,
    after FastAPI has validated it: [email] is an [EmailStr] in the source,
    so the string is one that email-validator accepted (a body with another
    string is answered with 422 before [login] runs).  Which strings those
    are is outside this model: the record takes any string, and the
    statements about [login] hold for each of them. *)
Module LoginRequest.
Record t := mk { email : string; password : string }.
End LoginRequest.

(** The body of a registration request after validation; [email] as in
    [LoginRequest]. *)

Module RegisterRequest.
Record t := mk
  { email : string; password : string; name : string; role : string }.
End RegisterRequest.

(** What the endpoints take from passlib and python-jose:
    [pwd_context.hash(password)] with the salt it draws,
    [pwd_context.verify(plain, hashed)],
    [jwt.encode(data, SECRET_KEY, algorithm=ALGORITHM)] and
    [jwt.decode(token, SECRET_KEY, algorithms=[ALGORITHM])], [None] when it
    raises [JWTError]. *)
Record Crypto := mkCrypto
  { pwd_hash : string -> string -> string;
    pwd_verify : string -> string -> bool;
    jwt_encode : Payload.t -> string;
    jwt_decode : string -> option Payload.t }.

Definition verify_password (c : Crypto) (plain_password hashed_password : string)
  : bool :=
  pwd_verify c plain_password hashed_password.

Definition get_password_hash (c : Crypto) (salt password : string) : string :=
  pwd_hash c salt password.

Definition create_access_token (c : Crypto) (data : Payload.t) : string :=
  jwt_encode c data.

Definition get_current_user (c : Crypto) (token : option string)
  : M Users.t :=
  match token with
  | None | Some EmptyString =>
      raise (mkHTTPException 401 "Not authenticated")
  | Some t =>
      match jwt_decode c t with
      | None => raise (mkHTTPException 401 "Invalid token")
      | Some payload =>
          match Payload.sub payload with
          | None => raise (mkHTTPException 401 "Invalid token")
          | Some email =>
              user <- find_one c_users (fun d => Users.email d =? email) ;;
              match user with
              | None => raise (mkHTTPException 401 "User not found")
              | Some u => ret u
              end
          end
      end
  end.

Definition require_admin (user : Users.t) : M unit :=
  if negb (Users.role user =? "admin")
  then raise (mkHTTPException 403 "Admin only")
  else ret tt.

(** The document that [ensure_admin] inserts, without its two timestamps. *)
Definition seeded_admin (c : Crypto) (salt : string) : Users.t :=
  Users.mk "admin@sae-bakery.local" (get_password_hash c salt "admin123")
           "Admin" "admin" true.

(** The startup hook: [count_documents({"role": "admin"}) == 0] guards
    [insert_one]. *)
Definition ensure_admin (c : Crypto) (salt : string) (db : DB) : DB :=
  if Nat.eqb
       (List.length (filter (fun d => Users.role d =? "admin") (users db))) 0
  then put c_users (users db ++ [seeded_admin c salt]) db
  else db.

Definition login (c : Crypto) (req : LoginRequest.t) : M Token.t :=
  user <- find_one c_users
    (fun d => Users.email d =? LoginRequest.email req) ;;
  match user with
  | None => raise (mkHTTPException 401 "Email atau password salah")
  | Some u =>
      if negb (verify_password c (LoginRequest.password req)
                               (Users.password_hash u))
      then raise (mkHTTPException 401 "Email atau password salah")
      else
        ret (Token.mk
               (create_access_token c
                  (Payload.mk (Some (LoginRequest.email req))
                              (Some (Users.role u))))
               "bearer")
  end.

(** An exception of an endpoint: an [HTTPException], or the
    [ValidationError] of a schema class, which the endpoints do not catch. *)
Inductive Exn :=
| Http (e : HTTPException)
| ValidationError.

(** [Users(email=..., password_hash=..., name=..., role=..., is_active=...)]
    as [register] calls it.  The [email] is the one of the validated
    request, which the [EmailStr] of [Users] accepts again, so the
    [pattern] of [role] is the one constraint that can still fail. *)
Definition new_Users (email password_hash name role : string)
    (is_active : bool) : option Users.t :=
  if (role =? "admin") || (role =? "staff")
  then Some (Users.mk email password_hash name role is_active)
  else None.

Definition register (c : Crypto) (salt : string) (req : RegisterRequest.t)
    (current : Users.t) (db : DB) : DB * (Exn + string) :=
  match require_admin current db with
  | (db1, inl e) => (db1, inl (Http e))
  | (db1, inr _) =>
      match find_one c_users
              (fun d => Users.email d =? RegisterRequest.email req) db1 with
      | (db2, inl e) => (db2, inl (Http e))
      | (db2, inr (Some _)) =>
          (db2, inl (Http (mkHTTPException 400 "Email sudah terdaftar")))
      | (db2, inr None) =>
          match new_Users (RegisterRequest.email req)
                  (get_password_hash c salt (RegisterRequest.password req))
                  (RegisterRequest.name req) (RegisterRequest.role req) true
          with
          | None => (db2, inl ValidationError)
          | Some doc =>
              match create_document c_users doc db2 with
              | (db3, inl e) => (db3, inl (Http e))
              | (db3, inr _) => (db3, inr "User berhasil dibuat")
              end
          end
      end
  end.

(** *** A toy instance of the libraries, for examples *)

(** A string written character by character, each after a [c], and closed
    by a full stop, in front of [k]. *)
Fixpoint toy_enc (s k : string) : string :=
  match s with
  | EmptyString => String "." k
  | String ch s' => String "c" (String ch (toy_enc s' k))
  end.

Fixpoint toy_dec (t : string) : option (string * string) :=
  match t with
  | EmptyString => None
  | String m t1 =>
      if Ascii.eqb m "." then Some (EmptyString, t1)
      else if Ascii.eqb m "c" then
        match t1 with
        | EmptyString => None
        | String ch rest =>
            match toy_dec rest with
            | Some (s, k) => Some (String ch s, k)
            | None => None
            end
        end
      else None
  end.

Definition toy_enc_opt (o : option string) (k : string) : string :=
  match o with
  | None => String "N" k
  | Some s => String "S" (toy_enc s k)
  end.

Definition toy_dec_opt (t : string) : option (option string * string) :=
  match t with
  | EmptyString => None
  | String m t1 =>
      if Ascii.eqb m "N" then Some (None, t1)
      else if Ascii.eqb m "S" then
        match toy_dec t1 with
        | Some (s, k) => Some (Some s, k)
        | None => None
        end
      else None
  end.

Definition toy_crypto : Crypto :=
  mkCrypto
    (fun salt password => toy_enc salt password)
    (fun plain hashed =>
       match toy_dec hashed with
       | Some (_, k) => k =? plain
       | None => false
       end)
    (fun p => toy_enc_opt (Payload.sub p) (toy_enc_opt (Payload.role p) ""))
    (fun t =>
       match toy_dec_opt t with
       | Some (sub, k) =>
           match toy_dec_opt k with
           | Some (role, EmptyString) => Some (Payload.mk sub role)
           | _ => None
           end
       | None => None
       end).

Definition register_baker : RegisterRequest.t :=
  RegisterRequest.mk "baker@saebakery.com" "roti123" "Baker" "staff".

(** [master_db] after the admin has registered the baker. *)
Definition baker_db : DB :=
  fst (register toy_crypto "salt" register_baker admin master_db).

(** ** Listings, search and reports ([src/main.py], lines 160-265 and
    342-396)

    The rows are modelled without their [id], the string of [_id]. *)

(** [{"$regex": pattern, "$options": "i"}] as the store evaluates it: the
    matcher of the pattern, [None] when the pattern does not compile. *)
Definition Regex : Type := string -> option (string -> bool).

(** [{"$or": [{f: {"$regex": p, "$options": "i"}},
              {g: {"$regex": p, "$options": "i"}}]}] *)
Definition or_regex {D} (re : Regex) (p : string) (f g : D -> string)
  : option (D -> bool) :=
  match re p with
  | Some m => Some (fun d => m (f d) || m (g d))
  | None => None
  end.

(** The filter of the list endpoints: [{}] unless [q] is a non-empty
    string. *)
Definition q_filter {D} (re : Regex) (q : option string) (f g : D -> string)
  : option (D -> bool) :=
  match q with
  | None | Some EmptyString => Some (fun _ => true)
  | Some p => or_regex re p f g
  end.

(** [cursor.skip(skip).limit(limit)] on the matching documents, for
    arguments from 0 to the greatest 64-bit integer, [limit] 0 standing for
    no limit.  [None] stands for arguments outside this range, where the
    driver raises or asks the store for a single batch. *)
Definition skip_limit {D} (skip limit : Z) (l : list D) : option (list D) :=
  if ((skip <? 0) || (limit <? 0) || (2 ^ 63 <=? skip) || (2 ^ 63 <=? limit))%Z
  then None
  else
    let rest := skipn (Z.to_nat skip) l in
    Some (if (limit =? 0)%Z then rest else firstn (Z.to_nat limit) rest).

Definition list_barang (re : Regex) (q : option string) (page size : Z)
    (db : DB) : option (list Barang.t) :=
  match q_filter re q Barang.nama_barang Barang.kode_barang with
  | Some filt =>
      skip_limit ((page - 1) * size)%Z size (filter filt (barang db))
  | None => None
  end.

Definition list_supplier (re : Regex) (q : option string) (page size : Z)
    (db : DB) : option (list Supplier.t) :=
  match q_filter re q Supplier.nama_supplier Supplier.kode_supplier with
  | Some filt =>
      skip_limit ((page - 1) * size)%Z size (filter filt (supplier db))
  | None => None
  end.

Definition list_customer (re : Regex) (q : option string) (page size : Z)
    (db : DB) : option (list Customer.t) :=
  match q_filter re q Customer.nama_customer Customer.kode_customer with
  | Some filt =>
      skip_limit ((page - 1) * size)%Z size (filter filt (customer db))
  | None => None
  end.



(** A row of [barang_search]. *)
Module BarangRow.
Record t := mk
  { nama_barang : string; kode_barang : string; satuan : string;
    harga_beli_default : float }.
End BarangRow.



(** [{field: value}] when the query parameter is a non-empty string, no
    condition otherwise. *)
Definition equals_if_given (param : option string) (value : string) : bool :=
  match param with
  | None | Some EmptyString => true
  | Some p => value =? p
  end.

(** [{field: {"$regex": p, "$options": "i"}}] when the query parameter is a
    non-empty string, no condition otherwise. *)
Definition regex_if_given (re : Regex) (param : option string)
  : option (string -> bool) :=
  match param with
  | None | Some EmptyString => Some (fun _ => true)
  | Some p => re p
  end.

Definition laporan_pembelian (tanggal supplier : option string) (db : DB)
  : list Pembelian.t :=
  filter (fun d => equals_if_given tanggal (Pembelian.tanggal d)
                   && equals_if_given supplier (Pembelian.kode_supplier d))
         (pembelian db).

Definition laporan_masuk (re : Regex) (tanggal nama : option string)
    (db : DB) : option (list BarangMasuk.t) :=
  match regex_if_given re nama with
  | Some m =>
      Some (filter (fun d => equals_if_given tanggal (BarangMasuk.tanggal d)
                             && m (BarangMasuk.nama_barang d))
                   (barangmasuk db))
  | None => None
  end.

Definition laporan_keluar (re : Regex) (tanggal nama : option string)
    (db : DB) : option (list BarangKeluar.t) :=
  match regex_if_given re nama with
  | Some m =>
      Some (filter (fun d => equals_if_given tanggal (BarangKeluar.tanggal d)
                             && m (BarangKeluar.nama_barang d))
                   (barngkeluar db))
  | None => None
  end.

Definition laporan_penjualan (tanggal customer : option string) (db : DB)
  : list Penjualan.t :=
  filter (fun d => equals_if_given tanggal (Penjualan.tanggal d)
                   && equals_if_given customer (Penjualan.kode_customer d))
         (penjualan db).

(** A row of [laporan_stock]. *)
Module StockRow.
Record t := mk
  { kode_barang : string; nama_barang : string; stok_total : float;
    satuan : string }.
End StockRow.

Definition laporan_stock (db : DB) : list StockRow.t :=
  map (fun d => StockRow.mk (Stock.kode_barang d) (Stock.nama_barang d)
                            (Stock.stok d) (Stock.satuan d))
      (stock db).

(** The pages 1 to [n] of a listing, one after the other; [None] when one
    of them fails. *)
Fixpoint walk_pages {D} (page : Z -> option (list D)) (n : nat)
  : option (list D) :=
  match n with
  | O => Some []
  | S n' =>
      match walk_pages page n', page (Z.of_nat n) with
      | Some l, Some p => Some (l ++ p)%list
      | _, _ => None
      end
  end.

(** A matcher for examples: the pattern is a plain substring, compared
    without regard to the case of ASCII letters. *)
Fixpoint contains (p s : string) : bool :=
  String.prefix p s
  || match s with
     | EmptyString => false
     | String _ s' => contains p s'
     end.

Definition toy_regex : Regex :=
  fun p => Some (fun s => contains (Py.lower p) (Py.lower s)).

(** Whether a string consists of decimal digits. *)
Definition all_digits (s : string) : bool :=
  forallb Py.isdigit (list_ascii_of_string s).


(** The step of [int] on one more digit. *)
Definition int_step (acc : N) (c : ascii) : N :=
  (10 * acc + Py.digit_value c)%N.

(** * Properties *)

(** ** The store *)

Lemma find_existsb {A} (p : A -> bool) (l : list A) :
  existsb p l = match find p l with Some _ => true | None => false end.
Proof.
  induction l as [|x l IH]; simpl; [reflexivity|].
  destruct (p x); simpl; [reflexivity | exact IH].
Qed.

Lemma put_stock_same (db : DB) : put c_stock (stock db) db = db.
Proof. destruct db; reflexivity. Qed.

Lemma put_stock_twice (l l' : list Stock.t) (db : DB) :
  put c_stock l (put c_stock l' db) = put c_stock l db.
Proof. reflexivity. Qed.

(** ** Order of doubles *)

Lemma SFcompare_antisym (a b : spec_float) :
  SFcompare b a = option_map CompOpp (SFcompare a b).
Proof.
  destruct a as [sa|sa| |sa ma ea], b as [sb|sb| |sb mb eb];
    try destruct sa; try destruct sb; simpl; try reflexivity;
    rewrite (Z.compare_antisym ea eb);
    destruct (ea ?= eb)%Z; simpl; try reflexivity;
    change (Pos.compare_cont Eq mb ma) with (Pos.compare mb ma);
    change (Pos.compare_cont Eq ma mb) with (Pos.compare ma mb);
    rewrite (Pos.compare_antisym ma mb);
    destruct (Pos.compare ma mb); reflexivity.
Qed.

Lemma ltb_irrefl (x : float) : (x <? x)%float = false.
Proof.
  rewrite FloatAxioms.ltb_spec. unfold SFltb.
  pose proof (SFcompare_antisym (Prim2SF x) (Prim2SF x)) as H.
  destruct (SFcompare (Prim2SF x) (Prim2SF x)) as [[| |]|];
    try reflexivity; discriminate.
Qed.

Lemma ltb_neq (x y : float) : (x <? y)%float = true -> x <> y.
Proof. intros H E. subst y. rewrite ltb_irrefl in H. discriminate. Qed.

Lemma leb_not_ltb (q x : float) :
  (q <=? x)%float = true -> (x <? q)%float = false.
Proof.
  rewrite FloatAxioms.leb_spec, FloatAxioms.ltb_spec. unfold SFleb, SFltb.
  rewrite (SFcompare_antisym (Prim2SF q) (Prim2SF x)).
  destruct (SFcompare (Prim2SF q) (Prim2SF x)) as [[| |]|]; simpl;
    try reflexivity; discriminate.
Qed.

Lemma opp_pos (q : float) : (q <? 0)%float = true -> (0 <? - q)%float = true.
Proof.
  rewrite !FloatAxioms.ltb_spec, FloatAxioms.opp_spec.
  change (Prim2SF 0) with (S754_zero false).
  destruct (Prim2SF q) as [s|s| |s m e]; try destruct s; simpl;
    try discriminate; reflexivity.
Qed.

(** [x < y] is false when [y <= 0 <= x]; NaN satisfies neither
    hypothesis. *)
Lemma ltb_nonneg_nonpos (x q : float) :
  (0 <=? x)%float = true -> (q <=? 0)%float = true ->
  (x <? q)%float = false.
Proof.
  rewrite !FloatAxioms.leb_spec, FloatAxioms.ltb_spec.
  change (Prim2SF 0) with (S754_zero false).
  destruct (Prim2SF x) as [sx|sx| |sx mx ex],
           (Prim2SF q) as [sq|sq| |sq mq eq0];
    try destruct sx; try destruct sq; simpl;
    try discriminate; try reflexivity.
Qed.

(** ** The ledger adjustment *)

Lemma upsert_inc_cons_other kode delta satuan nama s l :
  (Stock.kode_barang s =? kode) = false ->
  upsert_inc kode delta satuan nama (s :: l)
  = s :: upsert_inc kode delta satuan nama l.
Proof.
  intro H. unfold upsert_inc. simpl. rewrite H.
  destruct (inc_first kode delta l); reflexivity.
Qed.

Lemma inc_first_none kode delta l :
  inc_first kode delta l = None <-> entry_in l kode = None.
Proof.
  unfold entry_in.
  induction l as [|s l IH]; simpl; [tauto|].
  destruct (Stock.kode_barang s =? kode); [split; discriminate|].
  destruct (inc_first kode delta l); simpl.
  - split; [discriminate|]. intro H. apply IH in H. discriminate.
  - split; intros _; [apply IH|]; reflexivity.
Qed.

(** The entry of [k] after an adjustment of [kode]. *)
Lemma entry_in_upsert_inc kode delta satuan nama l k :
  entry_in (upsert_inc kode delta satuan nama l) k
  = if kode =? k then
      match entry_in l kode with
      | Some s => Some (Stock.mk (Stock.kode_barang s)
                                 (Stock.stok s + delta)%float
                                 (Stock.satuan s) (Stock.nama_barang s))
      | None => Some (Stock.mk kode delta satuan nama)
      end
    else entry_in l k.
Proof.
  induction l as [|s l IH].
  - unfold upsert_inc, entry_in. simpl.
    destruct (kode =? k); reflexivity.
  - destruct (Stock.kode_barang s =? kode) eqn:Hs.
    + apply String.eqb_eq in Hs. subst kode.
      unfold upsert_inc, entry_in. simpl.
      rewrite String.eqb_refl. simpl.
      destruct (Stock.kode_barang s =? k); reflexivity.
    + rewrite upsert_inc_cons_other by exact Hs.
      unfold entry_in in *. simpl. rewrite Hs.
      destruct (Stock.kode_barang s =? k) eqn:Hk.
      * apply String.eqb_eq in Hk. subst k.
        rewrite String.eqb_sym, Hs. reflexivity.
      * exact IH.
Qed.

Lemma entry_in_upsert_bump kode delta satuan nama l k :
  entry_in (upsert_inc kode delta satuan nama l) k
  = if kode =? k
    then Some (bump kode delta satuan nama (entry_in l k))
    else entry_in l k.
Proof.
  rewrite entry_in_upsert_inc.
  destruct (kode =? k) eqn:Hk; [|reflexivity].
  apply String.eqb_eq in Hk. subst k.
  destruct (entry_in l kode); reflexivity.
Qed.

Lemma add_deltas_app start ds ds' :
  add_deltas start (ds ++ ds') = add_deltas (add_deltas start ds) ds'.
Proof. unfold add_deltas. apply fold_left_app. Qed.

Lemma stok_bump kode d satuan nama e :
  Some (Stock.stok (bump kode d satuan nama e))
  = add_deltas (option_map Stock.stok e) [d].
Proof. destruct e; reflexivity. Qed.

(** ** Loops *)

(** A loop whose body leaves the database alone stops at the first element
    on which the body raises, with the database untouched. *)
Lemma for_each_check {A} (f : A -> M unit) (l : list A) (db : DB) :
  (forall x d, fst (f x d) = d) ->
  for_each f l db
  = (db, match first_some (fun x => error_of (f x) db) l with
         | Some e => inl e
         | None => inr tt
         end).
Proof.
  intro Hpure. induction l as [|x l IH]; simpl; [reflexivity|].
  unfold bind, error_of. specialize (Hpure x db).
  destruct (f x db) as [d [e|[]]]; simpl in *; subst d.
  - reflexivity.
  - exact IH.
Qed.

Lemma for_each_update_one {A} (k : A -> string) (q : A -> float)
    (s n : A -> string) (l : list A) (db : DB) :
  for_each (fun it => update_one_stock (k it) (q it) (s it) (n it)) l db
  = (put c_stock
       (fold_left (fun st it => upsert_inc (k it) (q it) (s it) (n it) st)
                  l (stock db)) db,
     inr tt).
Proof.
  revert db. induction l as [|x l IH]; intro db; cbn [for_each fold_left].
  - unfold ret. rewrite put_stock_same. reflexivity.
  - unfold bind at 1. unfold update_one_stock at 1.
    rewrite IH. reflexivity.
Qed.

(** The entry of an item after a stock loop: the lines on the item bump
    its entry one after the other, the other lines leave it alone. *)
Lemma entry_in_fold {A} (k : A -> string) (q : A -> float)
    (s n : A -> string) (l : list A) (st : list Stock.t) (kode : string) :
  entry_in (fold_left (fun st it => upsert_inc (k it) (q it) (s it) (n it) st)
                      l st) kode
  = fold_left (fun e it => Some (bump (k it) (q it) (s it) (n it) e))
              (filter (fun it => k it =? kode) l) (entry_in st kode).
Proof.
  revert st. induction l as [|x l IH]; intro st; simpl; [reflexivity|].
  rewrite IH, entry_in_upsert_bump.
  destruct (k x =? kode); reflexivity.
Qed.

Lemma stok_fold_bump {A} (k : A -> string) (q : A -> float)
    (s n : A -> string) (l : list A) (e : option Stock.t) :
  option_map Stock.stok
    (fold_left (fun e it => Some (bump (k it) (q it) (s it) (n it) e)) l e)
  = add_deltas (option_map Stock.stok e) (map q l).
Proof.
  revert e. induction l as [|x l IH]; intro e; simpl; [reflexivity|].
  rewrite IH. simpl. destruct e; reflexivity.
Qed.

Lemma stok_entry_fold {A} (k : A -> string) (q : A -> float)
    (s n : A -> string) (l : list A) (st : list Stock.t) (kode : string) :
  option_map Stock.stok
    (entry_in (fold_left
                 (fun st it => upsert_inc (k it) (q it) (s it) (n it) st)
                 l st) kode)
  = add_deltas (option_map Stock.stok (entry_in st kode))
               (map q (filter (fun it => k it =? kode) l)).
Proof. rewrite entry_in_fold. apply stok_fold_bump. Qed.

(** ** Equations of the endpoints *)

Lemma pembelian_item_error_eq db it :
  pembelian_item_error db it
  = if barang_exists db (PembelianItem.kode_barang it) then None
    else Some (mkHTTPException 400
           ("Barang " ++ PembelianItem.kode_barang it ++ " tidak ditemukan")).
Proof.
  unfold pembelian_item_error, error_of, pembelian_check_item, bind,
    find_one, barang_exists.
  rewrite find_existsb. simpl.
  destruct (find _ (barang db)); reflexivity.
Qed.

Lemma penjualan_item_error_eq db it :
  penjualan_item_error db it
  = if barang_exists db (PenjualanItem.kode_barang it) then
      if insufficient (entry_of db (PenjualanItem.kode_barang it))
                      (PenjualanItem.qty it)
      then Some (mkHTTPException 400
             ("Stok " ++ PenjualanItem.kode_barang it ++ " tidak mencukupi"))
      else None
    else Some (mkHTTPException 400
           ("Barang " ++ PenjualanItem.kode_barang it ++ " tidak ditemukan")).
Proof.
  unfold penjualan_item_error, error_of, penjualan_check_item, bind,
    find_one, barang_exists, entry_of, entry_in.
  rewrite find_existsb. simpl.
  destruct (find _ (barang db)); [|reflexivity].
  destruct (insufficient _ _); reflexivity.
Qed.

Lemma pembelian_check_item_pure it d : fst (pembelian_check_item it d) = d.
Proof.
  unfold pembelian_check_item, bind, find_one. simpl.
  destruct (find _ (barang d)); reflexivity.
Qed.

Lemma penjualan_check_item_pure it d : fst (penjualan_check_item it d) = d.
Proof.
  unfold penjualan_check_item, bind, find_one. simpl.
  destruct (find _ (barang d)); [|reflexivity].
  destruct (insufficient _ _); reflexivity.
Qed.

Lemma create_pembelian_eq data current db :
  create_pembelian data current db
  = if supplier_exists db (Pembelian.kode_supplier data) then
      match first_some (pembelian_item_error db) (Pembelian.items data) with
      | Some e => (db, inl e)
      | None =>
          (put c_stock (apply_pembelian (Pembelian.items data) (stock db))
               (put c_pembelian (pembelian db ++ [data]) db),
           inr "Pembelian disimpan")
      end
    else (db, inl (mkHTTPException 400 "Supplier tidak ditemukan")).
Proof.
  unfold create_pembelian, supplier_exists. rewrite find_existsb.
  unfold bind at 1. unfold find_one at 1. simpl.
  destruct (find _ (supplier db)); [|reflexivity].
  unfold bind at 1.
  rewrite (for_each_check _ _ _ pembelian_check_item_pure).
  change (fun x => error_of (pembelian_check_item x) db)
    with (pembelian_item_error db).
  destruct (first_some _ _); [reflexivity|].
  unfold bind at 1. unfold create_document at 1.
  unfold bind at 1. unfold pembelian_apply_item.
  rewrite for_each_update_one. reflexivity.
Qed.

Lemma create_penjualan_eq data current db :
  create_penjualan data current db
  = if customer_exists db (Penjualan.kode_customer data) then
      match first_some (penjualan_item_error db) (Penjualan.items data) with
      | Some e => (db, inl e)
      | None =>
          (put c_stock (apply_penjualan (Penjualan.items data) (stock db))
               (put c_penjualan (penjualan db ++ [data]) db),
           inr "Penjualan disimpan")
      end
    else (db, inl (mkHTTPException 400 "Customer tidak ditemukan")).
Proof.
  unfold create_penjualan, customer_exists. rewrite find_existsb.
  unfold bind at 1. unfold find_one at 1. simpl.
  destruct (find _ (customer db)); [|reflexivity].
  unfold bind at 1.
  rewrite (for_each_check _ _ _ penjualan_check_item_pure).
  change (fun x => error_of (penjualan_check_item x) db)
    with (penjualan_item_error db).
  destruct (first_some _ _); [reflexivity|].
  unfold bind at 1. unfold create_document at 1.
  unfold bind at 1. unfold penjualan_apply_item.
  rewrite for_each_update_one. reflexivity.
Qed.

Lemma create_barang_masuk_eq data current db :
  create_barang_masuk data current db
  = if barang_exists db (BarangMasuk.kode_barang data) then
      (put c_stock
         (upsert_inc (BarangMasuk.kode_barang data) (BarangMasuk.qty data)
            (BarangMasuk.satuan data) (BarangMasuk.nama_barang data)
            (stock db))
         (put c_barangmasuk (barangmasuk db ++ [data]) db),
       inr "Barang masuk disimpan")
    else (db, inl (mkHTTPException 400 "Barang tidak ditemukan")).
Proof.
  unfold create_barang_masuk, barang_exists. rewrite find_existsb.
  unfold bind, find_one. simpl.
  destruct (find _ (barang db)); reflexivity.
Qed.

Lemma create_barang_keluar_eq data current db :
  create_barang_keluar data current db
  = if barang_exists db (BarangKeluar.kode_barang data) then
      if insufficient (entry_of db (BarangKeluar.kode_barang data))
                      (BarangKeluar.qty data)
      then (db, inl (mkHTTPException 400 "Stok tidak mencukupi"))
      else
        (put c_stock
           (upsert_inc (BarangKeluar.kode_barang data)
              (- BarangKeluar.qty data)%float
              (BarangKeluar.satuan data) (BarangKeluar.nama_barang data)
              (stock db))
           (put c_barngkeluar (barngkeluar db ++ [data]) db),
         inr "Barang keluar disimpan")
    else (db, inl (mkHTTPException 400 "Barang tidak ditemukan")).
Proof.
  unfold create_barang_keluar, barang_exists, entry_of, entry_in.
  rewrite find_existsb.
  unfold bind, find_one. simpl.
  destruct (find _ (barang db)); [|reflexivity].
  destruct (insufficient _ _); reflexivity.
Qed.

Lemma create_barang_eq data current db :
  create_barang data current db
  = if Users.role current =? "admin" then
      if barang_exists db (Barang.kode_barang data)
      then (db, inl (mkHTTPException 400 "Kode barang sudah ada"))
      else (put c_barang (barang db ++ [data]) db, inr "Barang dibuat")
    else (db, inl (mkHTTPException 403
                     "Hanya admin yang bisa membuat master data")).
Proof.
  unfold create_barang, barang_exists. rewrite find_existsb.
  destruct (Users.role current =? "admin"); [|reflexivity].
  unfold bind, find_one. simpl.
  destruct (find _ (barang db)); reflexivity.
Qed.

Lemma create_supplier_eq data current db :
  create_supplier data current db
  = if Users.role current =? "admin" then
      if supplier_exists db (Supplier.kode_supplier data)
      then (db, inl (mkHTTPException 400 "Kode supplier sudah ada"))
      else (put c_supplier (supplier db ++ [data]) db, inr "Supplier dibuat")
    else (db, inl (mkHTTPException 403
                     "Hanya admin yang bisa membuat master data")).
Proof.
  unfold create_supplier, supplier_exists. rewrite find_existsb.
  destruct (Users.role current =? "admin"); [|reflexivity].
  unfold bind, find_one. simpl.
  destruct (find _ (supplier db)); reflexivity.
Qed.

Lemma create_customer_eq data current db :
  create_customer data current db
  = if Users.role current =? "admin" then
      if customer_exists db (Customer.kode_customer data)
      then (db, inl (mkHTTPException 400 "Kode customer sudah ada"))
      else (put c_customer (customer db ++ [data]) db, inr "Customer dibuat")
    else (db, inl (mkHTTPException 403
                     "Hanya admin yang bisa membuat master data")).
Proof.
  unfold create_customer, customer_exists. rewrite find_existsb.
  destruct (Users.role current =? "admin"); [|reflexivity].
  unfold bind, find_one. simpl.
  destruct (find _ (customer db)); reflexivity.
Qed.

Lemma first_some_none {A B} (f : A -> option B) (l : list A) :
  first_some f l = None <-> forall x, In x l -> f x = None.
Proof.
  induction l as [|x l IH]; simpl.
  - split; [intros _ y []|reflexivity].
  - destruct (f x) eqn:Hx.
    + split; [discriminate|]. intro H.
      rewrite (H x (or_introl eq_refl)) in Hx. discriminate.
    + rewrite IH. split.
      * intros H y [<-|Hy]; [exact Hx | exact (H y Hy)].
      * intros H y Hy. exact (H y (or_intror Hy)).
Qed.

Lemma first_some_in {A B} (f : A -> option B) (l : list A) (b : B) :
  first_some f l = Some b -> exists x, In x l /\ f x = Some b.
Proof.
  induction l as [|x l IH]; simpl; [discriminate|].
  destruct (f x) eqn:Hx.
  - intro H. injection H as <-. exists x. split; [left; reflexivity|exact Hx].
  - intro H. destruct (IH H) as [y [Hy Hfy]].
    exists y. split; [right; exact Hy|exact Hfy].
Qed.

(** ** Rejection leaves the database alone *)

Ltac case_cond :=
  match goal with
  | |- context [Users.role ?c =? ?s] => destruct (Users.role c =? s) eqn:?
  | |- context [barang_exists ?d ?k] => destruct (barang_exists d k) eqn:?
  | |- context [supplier_exists ?d ?k] => destruct (supplier_exists d k) eqn:?
  | |- context [customer_exists ?d ?k] => destruct (customer_exists d k) eqn:?
  | |- context [insufficient ?o ?q] => destruct (insufficient o q) eqn:?
  | |- context [first_some ?f ?l] => destruct (first_some f l) eqn:?
  end.

Ltac endpoint_eq :=
  first [ rewrite create_barang_eq | rewrite create_supplier_eq
        | rewrite create_customer_eq | rewrite create_pembelian_eq
        | rewrite create_barang_masuk_eq | rewrite create_barang_keluar_eq
        | rewrite create_penjualan_eq ].

Lemma rejected_unchanged (r : request) (db : DB) :
  accepted (handle r) db = false -> db_after (handle r) db = db.
Proof.
  unfold accepted, db_after.
  destruct r as [d c|d c|d c|d c|d c|d c|d c]; simpl handle; endpoint_eq;
    repeat case_cond; simpl; intro H; reflexivity || discriminate.
Qed.

(** ** One request and the ledger *)

Lemma step_stok (r : request) (db : DB) (kode : string) :
  option_map Stock.stok (entry_of (db_after (handle r) db) kode)
  = add_deltas (option_map Stock.stok (entry_of db kode))
               (if accepted (handle r) db then deltas kode r else []).
Proof.
  unfold accepted, db_after, entry_of.
  destruct r as [d c|d c|d c|d c|d c|d c|d c]; simpl handle; endpoint_eq;
    repeat case_cond; cbn [fst snd deltas add_deltas fold_left stock put
                           c_stock c_barang c_supplier c_customer
                           c_pembelian c_barangmasuk c_barngkeluar
                           c_penjualan];
    try reflexivity.
  - unfold apply_pembelian.
    apply (stok_entry_fold PembelianItem.kode_barang PembelianItem.qty).
  - rewrite entry_in_upsert_bump.
    destruct (BarangMasuk.kode_barang d =? kode); [|reflexivity].
    cbn [option_map]. rewrite stok_bump. reflexivity.
  - rewrite entry_in_upsert_bump.
    destruct (BarangKeluar.kode_barang d =? kode); [|reflexivity].
    cbn [option_map]. rewrite stok_bump. reflexivity.
  - unfold apply_penjualan.
    rewrite (stok_entry_fold PenjualanItem.kode_barang
               (fun it => (- PenjualanItem.qty it)%float)).
    reflexivity.
Qed.

Lemma run_stok (rs : list request) (db : DB) (kode : string) :
  option_map Stock.stok (entry_of (run rs db) kode)
  = add_deltas (option_map Stock.stok (entry_of db kode))
               (accepted_deltas kode rs db).
Proof.
  revert db. induction rs as [|r rs IH]; intro db; simpl; [reflexivity|].
  rewrite IH, step_stok, add_deltas_app. reflexivity.
Qed.

Lemma all_accepted_deltas (rs : list request) (db : DB) (kode : string) :
  all_accepted rs db = true ->
  accepted_deltas kode rs db = flat_map (deltas kode) rs.
Proof.
  revert db. induction rs as [|r rs IH]; intro db; simpl; [reflexivity|].
  intro H. apply andb_true_iff in H. destruct H as [Hr Hrs].
  rewrite Hr, (IH _ Hrs). reflexivity.
Qed.

Lemma stok_of_entry (db : DB) (kode : string) :
  stok_of db kode
  = match option_map Stock.stok (entry_of db kode) with
    | Some x => x
    | None => 0%float
    end.
Proof.
  unfold stok_of, stok_in, entry_of. destruct (entry_in _ _); reflexivity.
Qed.

(** ** The ledger is the running sum of the accepted deltas *)

Example sample_trace_accepted : all_accepted sample_trace master_db = true.
Proof. vm_compute. reflexivity. Qed.

Example sample_trace_stok :
  stok_of (run sample_trace master_db) "KODE-001" = fl 5.
Proof. vm_compute. reflexivity. Qed.

(** C1, counterexample.  Two stock-ins of 2^53 and of 1 of an item without
    a ledger entry are both accepted; the algebraic sum of the two deltas
    is 2^53 + 1, and the ledger holds 2^53: the second addition rounds. *)
Lemma C1_counterexample_rounded_sum :
  entry_of master_db "KODE-001" = None
  /\ all_accepted big_trace master_db = true
  /\ algebraic_sum (accepted_deltas "KODE-001" big_trace master_db)
     = Some (9007199254740993 # 1)%Q
  /\ exact (stok_of (run big_trace master_db) "KODE-001")
     = Some (9007199254740992 # 1)%Q.
Proof. repeat split; vm_compute; reflexivity. Qed.

(** C1, amended.  Starting from a database without a ledger entry for an
    item, after any sequence of requests the item has an entry exactly when
    an accepted line touched it, and its [stok] is the deltas of the
    accepted lines added one after the other in double arithmetic, in the
    order the lines were applied, the first delta creating the entry: plus
    [qty] per purchase or stock-in line on the item, minus [qty] per
    stock-out or sale line on it; without an entry the quantity reads as 0.
    When every request of the sequence was accepted these are the deltas of
    all of them. *)
Theorem C1_stok_is_running_sum_of_accepted_deltas
    (rs : list request) (db : DB) (kode : string) :
  entry_of db kode = None ->
  option_map Stock.stok (entry_of (run rs db) kode)
  = add_deltas None (accepted_deltas kode rs db)
  /\ stok_of (run rs db) kode
     = match add_deltas None (accepted_deltas kode rs db) with
       | Some x => x
       | None => 0%float
       end
  /\ (all_accepted rs db = true ->
      option_map Stock.stok (entry_of (run rs db) kode)
      = add_deltas None (flat_map (deltas kode) rs)).
Proof.
  intro Hnone.
  assert (Hsum : option_map Stock.stok (entry_of (run rs db) kode)
                 = add_deltas None (accepted_deltas kode rs db)).
  { rewrite run_stok, Hnone. reflexivity. }
  split; [exact Hsum|]. split.
  - rewrite stok_of_entry, Hsum. reflexivity.
  - intro Hall. rewrite Hsum, (all_accepted_deltas _ _ _ Hall). reflexivity.
Qed.

Lemma C1_stok_is_running_sum_of_accepted_deltas_witness :
  entry_of master_db "KODE-001" = None
  /\ option_map Stock.stok (entry_of (run sample_trace master_db) "KODE-001")
     = add_deltas None (flat_map (deltas "KODE-001") sample_trace).
Proof.
  split; [reflexivity|].
  apply (C1_stok_is_running_sum_of_accepted_deltas
           sample_trace master_db "KODE-001");
    reflexivity.
Defined.

(** ** Rejection before persistence *)

(** A sale with a line on which the validation loop raises is rejected
    with the database untouched. *)
Lemma penjualan_rejected data current db it :
  In it (Penjualan.items data) ->
  penjualan_item_error db it <> None ->
  accepted (create_penjualan data current) db = false
  /\ db_after (create_penjualan data current) db = db.
Proof.
  intros Hin Hfail. unfold accepted, db_after. rewrite create_penjualan_eq.
  destruct (customer_exists _ _); [|split; reflexivity].
  destruct (first_some _ _) eqn:Hfs; [split; reflexivity|].
  exfalso. rewrite first_some_none in Hfs. exact (Hfail (Hfs it Hin)).
Qed.

Lemma pembelian_rejected data current db it :
  In it (Pembelian.items data) ->
  pembelian_item_error db it <> None ->
  accepted (create_pembelian data current) db = false
  /\ db_after (create_pembelian data current) db = db.
Proof.
  intros Hin Hfail. unfold accepted, db_after. rewrite create_pembelian_eq.
  destruct (supplier_exists _ _); [|split; reflexivity].
  destruct (first_some _ _) eqn:Hfs; [split; reflexivity|].
  exfalso. rewrite first_some_none in Hfs. exact (Hfail (Hfs it Hin)).
Qed.

(** C3.  A purchase with a line whose item is not in the item master, and a
    sale with a line whose item is not in the item master or whose quantity
    exceeds the ledger quantity of an existing entry, is rejected, and the
    database is the one before the request: no transaction record is stored
    and no ledger entry is touched, whatever the other lines are. *)
Theorem C3_failing_line_rejects_all :
  (forall data current db it,
      In it (Pembelian.items data) ->
      barang_exists db (PembelianItem.kode_barang it) = false ->
      accepted (create_pembelian data current) db = false
      /\ db_after (create_pembelian data current) db = db)
  /\
  (forall data current db it,
      In it (Penjualan.items data) ->
      barang_exists db (PenjualanItem.kode_barang it) = false
      \/ insufficient (entry_of db (PenjualanItem.kode_barang it))
                      (PenjualanItem.qty it) = true ->
      accepted (create_penjualan data current) db = false
      /\ db_after (create_penjualan data current) db = db).
Proof.
  split; intros data current db it Hin Hfail.
  - apply (pembelian_rejected data current db it Hin).
    rewrite pembelian_item_error_eq, Hfail. discriminate.
  - apply (penjualan_rejected data current db it Hin).
    rewrite penjualan_item_error_eq.
    destruct Hfail as [Hfail|Hfail]; rewrite Hfail.
    + discriminate.
    + destruct (barang_exists _ _); discriminate.
Qed.

Lemma C3_failing_line_rejects_all_witness :
  (In (PembelianItem.mk "KODE-999" "Ragi" "Gram" (fl 1) (fl 500))
      (Pembelian.items beli_unknown)
   /\ barang_exists stocked_db "KODE-999" = false
   /\ accepted (create_pembelian beli_unknown staff) stocked_db = false
   /\ db_after (create_pembelian beli_unknown staff) stocked_db = stocked_db)
  /\
  (In (jual_line "KODE-999" 1) (Penjualan.items jual_unknown)
   /\ accepted (create_penjualan jual_unknown staff) stocked_db = false
   /\ db_after (create_penjualan jual_unknown staff) stocked_db = stocked_db).
Proof.
  split.
  - split; [right; left; reflexivity|]. split; [reflexivity|].
    apply (proj1 C3_failing_line_rejects_all beli_unknown staff stocked_db
             (PembelianItem.mk "KODE-999" "Ragi" "Gram" (fl 1) (fl 500))).
    + right; left; reflexivity.
    + reflexivity.
  - split; [right; left; reflexivity|].
    apply (proj2 C3_failing_line_rejects_all jual_unknown staff stocked_db
             (jual_line "KODE-999" 1)).
    + right; left; reflexivity.
    + left; reflexivity.
Defined.

(** ** The sufficiency check *)

Lemma prefix_empty (s : string) : String.prefix "" s = true.
Proof. destruct s; reflexivity. Qed.

Lemma insufficient_some (db : DB) (kode : string) (s : Stock.t) (q : float) :
  entry_of db kode = Some s -> (Stock.stok s <? q)%float = true ->
  insufficient (entry_of db kode) q = true.
Proof.
  intros He Hlt. rewrite He. exact Hlt.
Qed.

(** With every item of a sale in the item master, the first error of the
    validation loop, if any, is the stock error of one of the lines, and
    that line fails the sufficiency check. *)
Lemma penjualan_first_error_stok db items e :
  forallb (fun i => barang_exists db (PenjualanItem.kode_barang i)) items
  = true ->
  first_some (penjualan_item_error db) items = Some e ->
  exists it, In it items
    /\ insufficient (entry_of db (PenjualanItem.kode_barang it))
                    (PenjualanItem.qty it) = true
    /\ e = mkHTTPException 400
             ("Stok " ++ PenjualanItem.kode_barang it ++ " tidak mencukupi").
Proof.
  intros Hall Hfs. apply first_some_in in Hfs. destruct Hfs as [it [Hin He]].
  exists it. split; [exact Hin|].
  rewrite forallb_forall in Hall. specialize (Hall it Hin).
  rewrite penjualan_item_error_eq, Hall in He.
  destruct (insufficient _ _); [|discriminate].
  injection He as <-. split; reflexivity.
Qed.

(** C2 (amended).  A stock-out whose item has a ledger entry with [stok]
    below the requested quantity, and a sale with such a line, is rejected
    and leaves the database as it was.  The error is the stock error when
    the master-data checks pass: for a stock-out when the item is in the
    item master, for a sale when the customer exists and the item of every
    line is in the item master; the message then names a line of the sale
    that lacks stock, that is, one whose item has a ledger entry with
    [stok] below the quantity of the line. *)
Theorem C2_exceeding_quantity_rejected :
  (forall data current db s,
      entry_of db (BarangKeluar.kode_barang data) = Some s ->
      (Stock.stok s <? BarangKeluar.qty data)%float = true ->
      accepted (create_barang_keluar data current) db = false
      /\ db_after (create_barang_keluar data current) db = db
      /\ (barang_exists db (BarangKeluar.kode_barang data) = true ->
          error_of (create_barang_keluar data current) db
          = Some (mkHTTPException 400 "Stok tidak mencukupi")))
  /\
  (forall data current db it s,
      In it (Penjualan.items data) ->
      entry_of db (PenjualanItem.kode_barang it) = Some s ->
      (Stock.stok s <? PenjualanItem.qty it)%float = true ->
      accepted (create_penjualan data current) db = false
      /\ db_after (create_penjualan data current) db = db
      /\ (customer_exists db (Penjualan.kode_customer data) = true ->
          forallb (fun i => barang_exists db (PenjualanItem.kode_barang i))
                  (Penjualan.items data) = true ->
          exists e it' s',
            error_of (create_penjualan data current) db = Some e
            /\ is_insufficient_stock e = true
            /\ In it' (Penjualan.items data)
            /\ entry_of db (PenjualanItem.kode_barang it') = Some s'
            /\ (Stock.stok s' <? PenjualanItem.qty it')%float = true
            /\ e = mkHTTPException 400
                     ("Stok " ++ PenjualanItem.kode_barang it'
                              ++ " tidak mencukupi"))).
Proof.
  split.
  - intros data current db s He Hlt.
    pose proof (insufficient_some _ _ _ _ He Hlt) as Hins.
    unfold accepted, db_after, error_of. rewrite create_barang_keluar_eq.
    rewrite Hins.
    destruct (barang_exists _ _); simpl; repeat split;
      try reflexivity; discriminate.
  - intros data current db it s Hin He Hlt.
    pose proof (insufficient_some _ _ _ _ He Hlt) as Hins.
    assert (Herr : penjualan_item_error db it <> None).
    { rewrite penjualan_item_error_eq, Hins.
      destruct (barang_exists _ _); discriminate. }
    destruct (penjualan_rejected data current db it Hin Herr) as [Hacc Hdb].
    split; [exact Hacc|]. split; [exact Hdb|].
    intros Hcust Hall. unfold accepted, error_of in *.
    rewrite create_penjualan_eq, Hcust in *.
    destruct (first_some _ _) eqn:Hfs; simpl in Hacc; [|discriminate].
    destruct (penjualan_first_error_stok _ _ _ Hall Hfs)
      as [it' [Hin' [Hins' ->]]].
    destruct (entry_of db (PenjualanItem.kode_barang it')) as [s'|] eqn:He';
      [|discriminate].
    eexists; exists it', s'. simpl.
    split; [reflexivity|]. split; [apply prefix_empty|].
    split; [exact Hin'|]. split; [exact He'|].
    split; [exact Hins' | reflexivity].
Qed.

Lemma C2_exceeding_quantity_rejected_witness :
  (entry_of stocked_db "KODE-001" = Some tepung_5
   /\ (Stock.stok tepung_5 <? fl 10)%float = true
   /\ accepted (create_barang_keluar (keluar_tepung 10) staff) stocked_db
      = false
   /\ db_after (create_barang_keluar (keluar_tepung 10) staff) stocked_db
      = stocked_db
   /\ error_of (create_barang_keluar (keluar_tepung 10) staff) stocked_db
      = Some (mkHTTPException 400 "Stok tidak mencukupi"))
  /\
  (In (jual_line "KODE-001" 10) (Penjualan.items jual_too_much)
   /\ accepted (create_penjualan jual_too_much staff) stocked_db = false
   /\ db_after (create_penjualan jual_too_much staff) stocked_db
      = stocked_db
   /\ exists e it' s',
        error_of (create_penjualan jual_too_much staff) stocked_db = Some e
        /\ is_insufficient_stock e = true
        /\ In it' (Penjualan.items jual_too_much)
        /\ entry_of stocked_db (PenjualanItem.kode_barang it') = Some s'
        /\ (Stock.stok s' <? PenjualanItem.qty it')%float = true
        /\ e = mkHTTPException 400
                 ("Stok " ++ PenjualanItem.kode_barang it'
                          ++ " tidak mencukupi")).
Proof.
  assert (Hlt : (Stock.stok tepung_5 <? fl 10)%float = true)
    by reflexivity.
  split.
  - split; [reflexivity|]. split; [exact Hlt|].
    destruct (proj1 C2_exceeding_quantity_rejected
                (keluar_tepung 10) staff stocked_db tepung_5
                eq_refl Hlt) as [Hacc [Hdb Herr]].
    split; [exact Hacc|]. split; [exact Hdb|].
    apply Herr. reflexivity.
  - split; [right; left; reflexivity|].
    destruct (proj2 C2_exceeding_quantity_rejected
                jual_too_much staff stocked_db (jual_line "KODE-001" 10)
                tepung_5 (or_intror (or_introl eq_refl)) eq_refl Hlt)
      as [Hacc [Hdb Herr]].
    split; [exact Hacc|]. split; [exact Hdb|].
    apply Herr; reflexivity.
Defined.

(** C2 as stated fails: a sale line asks for 10 of an item whose ledger
    entry holds 5, and the sale is rejected, but with the error of the
    customer check, which runs first, not with the stock error. *)
Lemma C2_counterexample_unknown_customer :
  In (jual_line "KODE-001" 10) (Penjualan.items jual_stranger)
  /\ entry_of stocked_db "KODE-001" = Some tepung_5
  /\ (Stock.stok tepung_5 <? PenjualanItem.qty (jual_line "KODE-001" 10))%float = true
  /\ error_of (create_penjualan jual_stranger staff) stocked_db
     = Some (mkHTTPException 400 "Customer tidak ditemukan")
  /\ is_insufficient_stock (mkHTTPException 400 "Customer tidak ditemukan")
     = false.
Proof.
  split; [left; reflexivity|]. split; [reflexivity|].
  split; [reflexivity|].
  split; reflexivity.
Qed.

Lemma entry_of_after_upsert db db' kode delta satuan nama k :
  stock db' = stock db ->
  entry_of (put c_stock (upsert_inc kode delta satuan nama (stock db)) db') k
  = if kode =? k then
      match entry_of db kode with
      | Some s => Some (Stock.mk (Stock.kode_barang s)
                                 (Stock.stok s + delta)%float
                                 (Stock.satuan s) (Stock.nama_barang s))
      | None => Some (Stock.mk kode delta satuan nama)
      end
    else entry_of db k.
Proof.
  intros _. unfold entry_of. simpl. apply entry_in_upsert_inc.
Qed.

Lemma first_some_forallb {A B} (f : A -> option B) (l : list A) :
  (match first_some f l with Some _ => false | None => true end)
  = forallb (fun x => match f x with Some _ => false | None => true end) l.
Proof.
  induction l as [|x l IH]; simpl; [reflexivity|].
  destruct (f x); simpl; [reflexivity | exact IH].
Qed.

Lemma create_penjualan_accepted data current db :
  accepted (create_penjualan data current) db
  = customer_exists db (Penjualan.kode_customer data)
    && forallb (line_passes db) (Penjualan.items data).
Proof.
  unfold accepted. rewrite create_penjualan_eq.
  destruct (customer_exists _ _); [|reflexivity]. simpl andb.
  transitivity (match first_some (penjualan_item_error db)
                        (Penjualan.items data)
                with Some _ => false | None => true end).
  { destruct (first_some _ _); reflexivity. }
  rewrite first_some_forallb.
  induction (Penjualan.items data) as [|it l IH]; simpl; [reflexivity|].
  rewrite IH, penjualan_item_error_eq. unfold line_passes.
  destruct (barang_exists _ _); [|reflexivity].
  destruct (insufficient _ _); reflexivity.
Qed.

Lemma line_passes_no_entry db it :
  entry_of db (PenjualanItem.kode_barang it) = None ->
  line_passes db it = barang_exists db (PenjualanItem.kode_barang it).
Proof.
  intro H. unfold line_passes. rewrite H. simpl. apply andb_true_r.
Qed.

(** The entry of an item after an accepted sale: the lines on the item
    bump it one after the other. *)
Lemma penjualan_entry_after data current db kode :
  accepted (create_penjualan data current) db = true ->
  entry_of (db_after (create_penjualan data current) db) kode
  = fold_left
      (fun e it =>
         Some (bump (PenjualanItem.kode_barang it)
                    (- PenjualanItem.qty it)%float
                    (PenjualanItem.satuan it) (PenjualanItem.nama_barang it)
                    e))
      (filter (fun it => PenjualanItem.kode_barang it =? kode)
              (Penjualan.items data))
      (entry_of db kode).
Proof.
  unfold accepted, db_after, entry_of. rewrite create_penjualan_eq.
  destruct (customer_exists _ _); [|discriminate].
  destruct (first_some _ _); [discriminate|]. intros _.
  cbn [fst stock put c_stock c_penjualan]. unfold apply_penjualan.
  apply (entry_in_fold PenjualanItem.kode_barang
           (fun it => (- PenjualanItem.qty it)%float)).
Qed.

(** The entry of an item after an accepted purchase. *)
Lemma pembelian_entry_after data current db kode :
  accepted (create_pembelian data current) db = true ->
  entry_of (db_after (create_pembelian data current) db) kode
  = fold_left
      (fun e it =>
         Some (bump (PembelianItem.kode_barang it) (PembelianItem.qty it)
                    (PembelianItem.satuan it) (PembelianItem.nama_barang it)
                    e))
      (filter (fun it => PembelianItem.kode_barang it =? kode)
              (Pembelian.items data))
      (entry_of db kode).
Proof.
  unfold accepted, db_after, entry_of. rewrite create_pembelian_eq.
  destruct (supplier_exists _ _); [|discriminate].
  destruct (first_some _ _); [discriminate|]. intros _.
  cbn [fst stock put c_stock c_pembelian]. unfold apply_pembelian.
  apply (entry_in_fold PembelianItem.kode_barang PembelianItem.qty).
Qed.

(** Bumps of an existing entry add to its quantity and keep the rest. *)
Lemma fold_bump_some {A} (k : A -> string) (q : A -> float)
    (sat n : A -> string) (l : list A) (s : Stock.t) :
  fold_left (fun e it => Some (bump (k it) (q it) (sat it) (n it) e))
            l (Some s)
  = Some (Stock.mk (Stock.kode_barang s)
                   (fold_left (fun a it => (a + q it)%float) l (Stock.stok s))
                   (Stock.satuan s) (Stock.nama_barang s)).
Proof.
  revert s. induction l as [|x l IH]; intro s; simpl.
  - destruct s; reflexivity.
  - rewrite IH. reflexivity.
Qed.

(** C4, counterexample.  A sale of two lines, of 7 and of 2, on an item
    that is in the item master and has no ledger entry is accepted, and the
    entry that is created holds -9: minus the requested quantity of neither
    line. *)
Lemma C4_counterexample_two_lines :
  Penjualan.items jual_seven_two
  = [jual_line "KODE-001" 7; jual_line "KODE-001" 2]
  /\ barang_exists master_db "KODE-001" = true
  /\ entry_of master_db "KODE-001" = None
  /\ accepted (create_penjualan jual_seven_two staff) master_db = true
  /\ entry_of (db_after (create_penjualan jual_seven_two staff) master_db)
              "KODE-001"
     = Some (Stock.mk "KODE-001" (fl (-9)) "Kg" "Tepung")
  /\ fl (-9) <> (- PenjualanItem.qty (jual_line "KODE-001" 7))%float
  /\ fl (-9) <> (- PenjualanItem.qty (jual_line "KODE-001" 2))%float.
Proof.
  repeat split; try reflexivity; apply ltb_neq; reflexivity.
Qed.

(** C4 (amended).  A stock-out of an item that is in the item master and
    has no ledger entry is accepted whatever the quantity; the stock-out is
    stored and the ledger gets an entry for the item with [stok] equal to
    minus the quantity.  In a sale the validation of a line on such an item
    raises nothing, whatever the quantity, so a sale to a known customer
    whose lines are all on such items is accepted.  When a sale is accepted,
    an item without a ledger entry gets one from the first line of the sale
    on it, with minus the quantity and the name and unit of that line, and
    every later line of the sale on the item adds minus its quantity to the
    entry; a sale of one line leaves minus the quantity of the line. *)
Theorem C4_no_entry_skips_check :
  (forall data current db,
      barang_exists db (BarangKeluar.kode_barang data) = true ->
      entry_of db (BarangKeluar.kode_barang data) = None ->
      accepted (create_barang_keluar data current) db = true
      /\ barngkeluar (db_after (create_barang_keluar data current) db)
         = (barngkeluar db ++ [data])%list
      /\ entry_of (db_after (create_barang_keluar data current) db)
                  (BarangKeluar.kode_barang data)
         = Some (Stock.mk (BarangKeluar.kode_barang data)
                          (- BarangKeluar.qty data)%float
                          (BarangKeluar.satuan data)
                          (BarangKeluar.nama_barang data)))
  /\
  (forall it db,
      barang_exists db (PenjualanItem.kode_barang it) = true ->
      entry_of db (PenjualanItem.kode_barang it) = None ->
      penjualan_check_item it db = (db, inr tt))
  /\
  (forall data current db,
      customer_exists db (Penjualan.kode_customer data) = true ->
      (forall it, In it (Penjualan.items data) ->
         barang_exists db (PenjualanItem.kode_barang it) = true
         /\ entry_of db (PenjualanItem.kode_barang it) = None) ->
      accepted (create_penjualan data current) db = true)
  /\
  (forall data current db kode it rest,
      accepted (create_penjualan data current) db = true ->
      entry_of db kode = None ->
      filter (fun i => PenjualanItem.kode_barang i =? kode)
             (Penjualan.items data) = it :: rest ->
      entry_of (db_after (create_penjualan data current) db) kode
      = Some (Stock.mk kode
                (fold_left (fun a i => (a + - PenjualanItem.qty i)%float)
                           rest (- PenjualanItem.qty it)%float)
                (PenjualanItem.satuan it) (PenjualanItem.nama_barang it)))
  /\
  (forall data current db it,
      Penjualan.items data = [it] ->
      customer_exists db (Penjualan.kode_customer data) = true ->
      barang_exists db (PenjualanItem.kode_barang it) = true ->
      entry_of db (PenjualanItem.kode_barang it) = None ->
      accepted (create_penjualan data current) db = true
      /\ entry_of (db_after (create_penjualan data current) db)
                  (PenjualanItem.kode_barang it)
         = Some (Stock.mk (PenjualanItem.kode_barang it)
                          (- PenjualanItem.qty it)%float
                          (PenjualanItem.satuan it)
                          (PenjualanItem.nama_barang it))).
Proof.
  split; [|split; [|split; [|split]]].
  - intros data current db Hbr Hst.
    unfold accepted, db_after. rewrite create_barang_keluar_eq, Hbr, Hst.
    simpl insufficient. cbn [fst snd].
    split; [reflexivity|]. split; [reflexivity|].
    rewrite entry_of_after_upsert by reflexivity.
    rewrite String.eqb_refl, Hst. reflexivity.
  - intros it db Hbr Hst.
    pose proof (penjualan_item_error_eq db it) as He.
    rewrite Hbr, Hst in He. simpl in He.
    unfold penjualan_item_error, error_of in He.
    pose proof (penjualan_check_item_pure it db) as Hp.
    destruct (penjualan_check_item it db) as [d [e|[]]]; simpl in *.
    + discriminate.
    + subst d. reflexivity.
  - intros data current db Hcust Hall.
    rewrite create_penjualan_accepted, Hcust. simpl.
    apply forallb_forall. intros it Hin.
    destruct (Hall it Hin) as [Hbr Hst].
    rewrite (line_passes_no_entry _ _ Hst). exact Hbr.
  - intros data current db kode it rest Hacc Hst Hlines.
    rewrite (penjualan_entry_after _ _ _ _ Hacc), Hlines, Hst.
    cbn [fold_left bump].
    rewrite (fold_bump_some PenjualanItem.kode_barang
               (fun i => (- PenjualanItem.qty i)%float)).
    cbn [Stock.kode_barang Stock.stok Stock.satuan Stock.nama_barang].
    assert (Hk : PenjualanItem.kode_barang it = kode).
    { apply String.eqb_eq.
      assert (Hin : In it (filter
                             (fun i => PenjualanItem.kode_barang i =? kode)
                             (Penjualan.items data)))
        by (rewrite Hlines; left; reflexivity).
      apply filter_In in Hin. exact (proj2 Hin). }
    rewrite Hk. reflexivity.
  - intros data current db it Hitems Hcust Hbr Hst.
    unfold accepted, db_after.
    rewrite create_penjualan_eq, Hcust, Hitems. simpl first_some.
    rewrite penjualan_item_error_eq, Hbr, Hst. simpl insufficient.
    cbn [fst snd]. split; [reflexivity|].
    unfold apply_penjualan. simpl fold_left.
    rewrite entry_of_after_upsert by reflexivity.
    rewrite String.eqb_refl, Hst. reflexivity.
Qed.

Lemma C4_no_entry_skips_check_witness :
  barang_exists master_db "KODE-001" = true
  /\ entry_of master_db "KODE-001" = None
  /\ accepted (create_barang_keluar (keluar_tepung 1000000) staff) master_db
     = true
  /\ entry_of (db_after (create_barang_keluar (keluar_tepung 1000000) staff)
                        master_db) "KODE-001"
     = Some (Stock.mk "KODE-001" (- fl 1000000)%float "Kg" "Tepung")
  /\ penjualan_check_item (jual_line "KODE-001" 1000000) master_db
     = (master_db, inr tt)
  /\ accepted (create_penjualan jual_seven_two staff) master_db = true
  /\ entry_of (db_after (create_penjualan jual_seven_two staff) master_db)
              "KODE-001"
     = Some (Stock.mk "KODE-001" (- fl 7 + - fl 2)%float "Kg" "Tepung")
  /\ entry_of (db_after (create_penjualan jual_wrong_total staff) master_db)
              "KODE-001"
     = Some (Stock.mk "KODE-001" (- fl 2)%float "Kg" "Tepung").
Proof.
  split; [reflexivity|]. split; [reflexivity|].
  destruct (proj1 C4_no_entry_skips_check
              (keluar_tepung 1000000) staff master_db eq_refl eq_refl)
    as [Hacc [_ Hentry]].
  split; [exact Hacc|]. split; [exact Hentry|].
  split.
  { exact (proj1 (proj2 C4_no_entry_skips_check)
             (jual_line "KODE-001" 1000000) master_db eq_refl eq_refl). }
  assert (Hsale : accepted (create_penjualan jual_seven_two staff) master_db
                  = true).
  { apply (proj1 (proj2 (proj2 C4_no_entry_skips_check))
             jual_seven_two staff master_db eq_refl).
    intros it [<-|[<-|[]]]; split; reflexivity. }
  split; [exact Hsale|]. split.
  - exact (proj1 (proj2 (proj2 (proj2 C4_no_entry_skips_check)))
             jual_seven_two staff master_db "KODE-001"
             (jual_line "KODE-001" 7) [jual_line "KODE-001" 2]
             Hsale eq_refl eq_refl).
  - exact (proj2 (proj2 (proj2 (proj2 (proj2 C4_no_entry_skips_check)))
                    jual_wrong_total staff master_db
                    (jual_line "KODE-001" 2) eq_refl eq_refl eq_refl
                    eq_refl)).
Defined.

(** ** Lines of a sale are checked one by one *)

(** C5.  A sale is accepted exactly when its customer exists and every line
    passes on the database as it is before the sale, so lines on one item
    are never added up: a sale of two lines on one item that has a ledger
    entry, to a known customer, is accepted as soon as each of the two
    quantities is at most the ledger quantity, and leaves the ledger
    quantity less the first and then less the second.  There is such a
    sale, with two positive quantities that are each within a positive
    ledger quantity and together above it, that is accepted and leaves the
    ledger quantity of the item negative. *)
Theorem C5_repeated_item_oversells :
  (forall data current db,
      accepted (create_penjualan data current) db
      = customer_exists db (Penjualan.kode_customer data)
        && forallb (line_passes db) (Penjualan.items data))
  /\
  (forall data current db l1 l2 s,
      Penjualan.items data = [l1; l2] ->
      PenjualanItem.kode_barang l2 = PenjualanItem.kode_barang l1 ->
      customer_exists db (Penjualan.kode_customer data) = true ->
      barang_exists db (PenjualanItem.kode_barang l1) = true ->
      entry_of db (PenjualanItem.kode_barang l1) = Some s ->
      (PenjualanItem.qty l1 <=? Stock.stok s)%float = true ->
      (PenjualanItem.qty l2 <=? Stock.stok s)%float = true ->
      accepted (create_penjualan data current) db = true
      /\ stok_of (db_after (create_penjualan data current) db)
                 (PenjualanItem.kode_barang l1)
         = (Stock.stok s + - PenjualanItem.qty l1
            + - PenjualanItem.qty l2)%float)
  /\
  (exists data current db l1 l2 s,
      Penjualan.items data = [l1; l2]
      /\ PenjualanItem.kode_barang l2 = PenjualanItem.kode_barang l1
      /\ entry_of db (PenjualanItem.kode_barang l1) = Some s
      /\ (0 <? PenjualanItem.qty l1)%float = true
      /\ (0 <? PenjualanItem.qty l2)%float = true
      /\ (PenjualanItem.qty l1 <=? Stock.stok s)%float = true
      /\ (PenjualanItem.qty l2 <=? Stock.stok s)%float = true
      /\ (Stock.stok s <? PenjualanItem.qty l1 + PenjualanItem.qty l2)%float
         = true
      /\ accepted (create_penjualan data current) db = true
      /\ stok_of (db_after (create_penjualan data current) db)
                 (PenjualanItem.kode_barang l1) = fl (-1)
      /\ (stok_of (db_after (create_penjualan data current) db)
                  (PenjualanItem.kode_barang l1) <? 0)%float = true).
Proof.
  split; [exact create_penjualan_accepted|]. split.
  - intros data current db l1 l2 s Hitems Hk Hcust Hbr He H1 H2.
    assert (Hacc : accepted (create_penjualan data current) db = true).
    { rewrite create_penjualan_accepted, Hcust, Hitems. simpl.
      unfold line_passes. rewrite Hk, Hbr, He. simpl.
      rewrite (leb_not_ltb _ _ H1), (leb_not_ltb _ _ H2). reflexivity. }
    split; [exact Hacc|].
    rewrite stok_of_entry, (penjualan_entry_after _ _ _ _ Hacc), Hitems.
    cbn [filter]. rewrite Hk, String.eqb_refl, He. reflexivity.
  - exists jual_twice, staff, stocked_db,
      (jual_line "KODE-001" 3), (jual_line "KODE-001" 3), tepung_5.
    repeat split; reflexivity.
Qed.

Lemma C5_repeated_item_oversells_witness :
  accepted (create_penjualan jual_twice staff) stocked_db = true
  /\ stok_of (db_after (create_penjualan jual_twice staff) stocked_db)
             "KODE-001"
     = (fl 5 + - fl 3 + - fl 3)%float.
Proof.
  exact (proj1 (proj2 C5_repeated_item_oversells)
           jual_twice staff stocked_db
           (jual_line "KODE-001" 3) (jual_line "KODE-001" 3) tepung_5
           eq_refl eq_refl eq_refl eq_refl eq_refl eq_refl eq_refl).
Defined.

(** ** The adjustment creates the entry once and then only adds *)

Lemma upsert_inc_new kode delta satuan nama l :
  entry_in l kode = None ->
  upsert_inc kode delta satuan nama l
  = (l ++ [Stock.mk kode delta satuan nama])%list.
Proof.
  intro H. unfold upsert_inc.
  rewrite (proj2 (inc_first_none kode delta l) H). reflexivity.
Qed.

Lemma upsert_inc_split kode delta satuan nama l s :
  entry_in l kode = Some s ->
  exists l1 l2,
    l = (l1 ++ s :: l2)%list
    /\ entry_in l1 kode = None
    /\ upsert_inc kode delta satuan nama l
       = (l1 ++ Stock.mk (Stock.kode_barang s) (Stock.stok s + delta)%float
                         (Stock.satuan s) (Stock.nama_barang s) :: l2)%list.
Proof.
  induction l as [|x l IH]; [discriminate|].
  unfold entry_in. simpl.
  destruct (Stock.kode_barang x =? kode) eqn:Hx.
  - intro H. injection H as <-. exists [], l.
    split; [reflexivity|]. split; [reflexivity|].
    unfold upsert_inc. simpl. rewrite Hx. reflexivity.
  - intro H. destruct (IH H) as [l1 [l2 [Hl [Hnone Hup]]]].
    exists (x :: l1), l2. split; [rewrite Hl; reflexivity|]. split.
    + unfold entry_in in *. simpl. rewrite Hx. exact Hnone.
    + rewrite upsert_inc_cons_other by exact Hx. rewrite Hup. reflexivity.
Qed.

(** C8.  [update_one] with [$inc] and [$setOnInsert] on the ledger changes
    the [stock] collection only.  Without an entry for the item it appends
    one with the delta as [stok] and the name and unit of the caller.  With
    an entry it adds the delta to the [stok] of that entry and keeps the
    stored name and unit, whatever the caller passes, and every other
    document stays as it is. *)
Theorem C8_adjust_creates_or_increments
    (db : DB) (kode : string) (delta : float) (satuan nama : string) :
  let db' := db_after (update_one_stock kode delta satuan nama) db in
  put c_stock (stock db) db' = db
  /\ (entry_of db kode = None ->
      stock db' = (stock db ++ [Stock.mk kode delta satuan nama])%list)
  /\ (forall s, entry_of db kode = Some s ->
        entry_of db' kode
        = Some (Stock.mk (Stock.kode_barang s) (Stock.stok s + delta)%float
                         (Stock.satuan s) (Stock.nama_barang s))
        /\ exists l1 l2,
             stock db = (l1 ++ s :: l2)%list
             /\ entry_in l1 kode = None
             /\ stock db'
                = (l1 ++ Stock.mk (Stock.kode_barang s)
                                  (Stock.stok s + delta)%float
                                  (Stock.satuan s) (Stock.nama_barang s)
                      :: l2)%list).
Proof.
  unfold db_after, update_one_stock. cbn [fst docs].
  split; [|split].
  - rewrite put_stock_twice. apply put_stock_same.
  - intro H. simpl. apply upsert_inc_new. exact H.
  - intros s H. split.
    + rewrite entry_of_after_upsert by reflexivity.
      rewrite String.eqb_refl, H. reflexivity.
    + simpl. apply upsert_inc_split. exact H.
Qed.

Lemma C8_adjust_creates_or_increments_witness :
  (entry_of master_db "KODE-001" = None
   /\ stock (db_after (update_one_stock "KODE-001" (fl 2) "Gram" "Terigu")
                      master_db)
      = [Stock.mk "KODE-001" (fl 2) "Gram" "Terigu"])
  /\
  (entry_of stocked_db "KODE-001" = Some tepung_5
   /\ entry_of (db_after (update_one_stock "KODE-001" (fl 2) "Gram" "Terigu")
                         stocked_db) "KODE-001"
      = Some (Stock.mk "KODE-001" (fl 5 + fl 2)%float "Kg" "Tepung")).
Proof.
  split.
  - split; [reflexivity|].
    exact (proj1 (proj2 (C8_adjust_creates_or_increments
                           master_db "KODE-001" (fl 2) "Gram" "Terigu"))
             eq_refl).
  - split; [reflexivity|].
    exact (proj1 (proj2 (proj2 (C8_adjust_creates_or_increments
                                  stocked_db "KODE-001" (fl 2) "Gram" "Terigu"))
                    tepung_5 eq_refl)).
Defined.

(** ** Master data *)

(** C7 (amended).  For a caller whose role is [admin], each of the three
    create endpoints raises the duplicate-code error and leaves the database
    as it was when a record with the code exists in its collection, and
    otherwise appends the record to that collection and returns its message.
    For any other caller it raises 403 and leaves the database as it was. *)
Theorem C7_create_master_data :
  (forall data current db,
      (Users.role current = "admin" ->
       (barang_exists db (Barang.kode_barang data) = true ->
        create_barang data current db
        = (db, inl (mkHTTPException 400 "Kode barang sudah ada")))
       /\ (barang_exists db (Barang.kode_barang data) = false ->
           create_barang data current db
           = (put c_barang (barang db ++ [data]) db, inr "Barang dibuat")))
      /\ (Users.role current <> "admin" ->
          create_barang data current db
          = (db, inl (mkHTTPException 403
                        "Hanya admin yang bisa membuat master data"))))
  /\
  (forall data current db,
      (Users.role current = "admin" ->
       (supplier_exists db (Supplier.kode_supplier data) = true ->
        create_supplier data current db
        = (db, inl (mkHTTPException 400 "Kode supplier sudah ada")))
       /\ (supplier_exists db (Supplier.kode_supplier data) = false ->
           create_supplier data current db
           = (put c_supplier (supplier db ++ [data]) db,
              inr "Supplier dibuat")))
      /\ (Users.role current <> "admin" ->
          create_supplier data current db
          = (db, inl (mkHTTPException 403
                        "Hanya admin yang bisa membuat master data"))))
  /\
  (forall data current db,
      (Users.role current = "admin" ->
       (customer_exists db (Customer.kode_customer data) = true ->
        create_customer data current db
        = (db, inl (mkHTTPException 400 "Kode customer sudah ada")))
       /\ (customer_exists db (Customer.kode_customer data) = false ->
           create_customer data current db
           = (put c_customer (customer db ++ [data]) db,
              inr "Customer dibuat")))
      /\ (Users.role current <> "admin" ->
          create_customer data current db
          = (db, inl (mkHTTPException 403
                        "Hanya admin yang bisa membuat master data")))).
Proof.
  split; [|split]; intros data current db;
    [ rewrite create_barang_eq | rewrite create_supplier_eq
    | rewrite create_customer_eq ];
    (split;
     [ intros ->; simpl; split; intros ->; reflexivity
     | intro Hrole; apply String.eqb_neq in Hrole; rewrite Hrole;
       reflexivity ]).
Qed.

Lemma C7_create_master_data_witness :
  (Users.role admin = "admin"
   /\ supplier_exists master_db "SUP001" = true
   /\ create_supplier sup1_again admin master_db
      = (master_db, inl (mkHTTPException 400 "Kode supplier sudah ada"))
   /\ is_conflict (mkHTTPException 400 "Kode supplier sudah ada") = true)
  /\
  (supplier_exists master_db "SUP002" = false
   /\ create_supplier sup2 admin master_db
      = (put c_supplier [sup1; sup2] master_db, inr "Supplier dibuat")).
Proof.
  pose proof (proj1 (proj2 C7_create_master_data)) as H.
  split.
  - split; [reflexivity|]. split; [reflexivity|].
    split; [|reflexivity].
    exact (proj1 (proj1 (H sup1_again admin master_db) eq_refl) eq_refl).
  - split; [reflexivity|].
    exact (proj2 (proj1 (H sup2 admin master_db) eq_refl) eq_refl).
Defined.

(** C7 as stated fails for a caller who is not an admin: a supplier with a
    new code is not persisted, and a supplier with a code in use is refused
    with 403, which is not the duplicate-code error. *)
Lemma C7_counterexample_staff_caller :
  (supplier_exists master_db (Supplier.kode_supplier sup2) = false
   /\ accepted (create_supplier sup2 staff) master_db = false
   /\ db_after (create_supplier sup2 staff) master_db = master_db)
  /\
  (supplier_exists master_db (Supplier.kode_supplier sup1_again) = true
   /\ error_of (create_supplier sup1_again staff) master_db
      = Some (mkHTTPException 403 "Hanya admin yang bisa membuat master data")
   /\ is_forbidden
        (mkHTTPException 403 "Hanya admin yang bisa membuat master data")
      = true
   /\ is_conflict
        (mkHTTPException 403 "Hanya admin yang bisa membuat master data")
      = false).
Proof. repeat split. Qed.

(** ** Quantities need not be positive *)

Lemma insufficient_nonneg_ledger db kode q :
  (0 <=? stok_of db kode)%float = true -> (q <=? 0)%float = true ->
  insufficient (entry_of db kode) q = false.
Proof.
  unfold stok_of, stok_in, entry_of. intros Hst Hq.
  destruct (entry_in (stock db) kode) as [s|]; [|reflexivity].
  simpl. exact (ltb_nonneg_nonpos _ _ Hst Hq).
Qed.

Lemma create_pembelian_accepted data current db :
  accepted (create_pembelian data current) db
  = supplier_exists db (Pembelian.kode_supplier data)
    && forallb (fun it => barang_exists db (PembelianItem.kode_barang it))
               (Pembelian.items data).
Proof.
  unfold accepted. rewrite create_pembelian_eq.
  destruct (supplier_exists _ _); [|reflexivity]. simpl andb.
  transitivity (match first_some (pembelian_item_error db)
                        (Pembelian.items data)
                with Some _ => false | None => true end).
  { destruct (first_some _ _); reflexivity. }
  rewrite first_some_forallb.
  induction (Pembelian.items data) as [|it l IH]; simpl; [reflexivity|].
  rewrite IH, pembelian_item_error_eq.
  destruct (barang_exists _ _); reflexivity.
Qed.

(** C9 (amended).  No endpoint asks for a positive quantity.  A purchase or
    a stock-in that passes the master-data checks is accepted whatever the
    quantities, and every line adds its quantity to the ledger entry of its
    item as it is, a negative quantity too.  A stock-out or a sale that
    passes the master-data checks is accepted exactly when it also passes
    the sufficiency check; a quantity that is zero or negative passes it
    against a ledger quantity that is not negative (or absent), and a
    stock-out with a negative quantity then adds minus the quantity, which
    is positive, to the ledger quantity.  The additions are those of
    doubles. *)
Theorem C9_quantities_not_validated :
  (forall data current db,
      supplier_exists db (Pembelian.kode_supplier data) = true ->
      forallb (fun it => barang_exists db (PembelianItem.kode_barang it))
              (Pembelian.items data) = true ->
      accepted (create_pembelian data current) db = true
      /\ (forall kode,
            option_map Stock.stok
              (entry_of (db_after (create_pembelian data current) db) kode)
            = add_deltas (option_map Stock.stok (entry_of db kode))
                (map PembelianItem.qty
                   (filter (fun it => PembelianItem.kode_barang it =? kode)
                           (Pembelian.items data))))
      /\ (forall it s, Pembelian.items data = [it] ->
            entry_of db (PembelianItem.kode_barang it) = Some s ->
            stok_of (db_after (create_pembelian data current) db)
                    (PembelianItem.kode_barang it)
            = (Stock.stok s + PembelianItem.qty it)%float))
  /\
  (forall data current db,
      barang_exists db (BarangMasuk.kode_barang data) = true ->
      accepted (create_barang_masuk data current) db = true
      /\ option_map Stock.stok
           (entry_of (db_after (create_barang_masuk data current) db)
                     (BarangMasuk.kode_barang data))
         = add_deltas
             (option_map Stock.stok
                (entry_of db (BarangMasuk.kode_barang data)))
             [BarangMasuk.qty data])
  /\
  (forall data current db,
      barang_exists db (BarangKeluar.kode_barang data) = true ->
      (BarangKeluar.qty data <=? 0)%float = true ->
      (0 <=? stok_of db (BarangKeluar.kode_barang data))%float = true ->
      accepted (create_barang_keluar data current) db = true
      /\ option_map Stock.stok
           (entry_of (db_after (create_barang_keluar data current) db)
                     (BarangKeluar.kode_barang data))
         = add_deltas
             (option_map Stock.stok
                (entry_of db (BarangKeluar.kode_barang data)))
             [(- BarangKeluar.qty data)%float]
      /\ (forall s,
            entry_of db (BarangKeluar.kode_barang data) = Some s ->
            stok_of (db_after (create_barang_keluar data current) db)
                    (BarangKeluar.kode_barang data)
            = (Stock.stok s + - BarangKeluar.qty data)%float)
      /\ ((BarangKeluar.qty data <? 0)%float = true ->
          (0 <? - BarangKeluar.qty data)%float = true))
  /\
  (forall data current db,
      customer_exists db (Penjualan.kode_customer data) = true ->
      (forall it, In it (Penjualan.items data) ->
         barang_exists db (PenjualanItem.kode_barang it) = true
         /\ (PenjualanItem.qty it <=? 0)%float = true
         /\ (0 <=? stok_of db (PenjualanItem.kode_barang it))%float = true) ->
      accepted (create_penjualan data current) db = true)
  /\
  (forall data current db,
      accepted (create_barang_keluar data current) db
      = barang_exists db (BarangKeluar.kode_barang data)
        && negb (insufficient (entry_of db (BarangKeluar.kode_barang data))
                              (BarangKeluar.qty data)))
  /\
  (forall data current db,
      accepted (create_penjualan data current) db
      = customer_exists db (Penjualan.kode_customer data)
        && forallb (line_passes db) (Penjualan.items data)).
Proof.
  split; [|split; [|split; [|split; [|split]]]];
    [ | | | | | exact create_penjualan_accepted ].
  - intros data current db Hsup Hall.
    assert (Hacc : accepted (create_pembelian data current) db = true)
      by (rewrite create_pembelian_accepted, Hsup, Hall; reflexivity).
    split; [exact Hacc|]. split.
    + intro kode.
      pose proof (step_stok (PostPembelian data current) db kode) as Hstep.
      simpl handle in Hstep. rewrite Hacc in Hstep. exact Hstep.
    + intros it s Hitems He.
      rewrite stok_of_entry, (pembelian_entry_after _ _ _ _ Hacc), Hitems.
      cbn [filter]. rewrite String.eqb_refl, He. reflexivity.
  - intros data current db Hbr.
    assert (Hacc : accepted (create_barang_masuk data current) db = true).
    { unfold accepted. rewrite create_barang_masuk_eq, Hbr. reflexivity. }
    split; [exact Hacc|].
    pose proof (step_stok (PostBarangMasuk data current) db
                  (BarangMasuk.kode_barang data)) as Hstep.
    simpl handle in Hstep. rewrite Hacc in Hstep. rewrite Hstep.
    simpl deltas. rewrite String.eqb_refl. reflexivity.
  - intros data current db Hbr Hq Hst.
    assert (Hacc : accepted (create_barang_keluar data current) db = true).
    { unfold accepted. rewrite create_barang_keluar_eq, Hbr.
      rewrite (insufficient_nonneg_ledger _ _ _ Hst Hq). reflexivity. }
    split; [exact Hacc|].
    pose proof (step_stok (PostBarangKeluar data current) db
                  (BarangKeluar.kode_barang data)) as Hstep.
    simpl handle in Hstep. rewrite Hacc in Hstep.
    simpl deltas in Hstep. rewrite String.eqb_refl in Hstep.
    split; [exact Hstep|]. split.
    + intros s He. rewrite stok_of_entry, Hstep, He. reflexivity.
    + apply opp_pos.
  - intros data current db Hcust Hall.
    rewrite create_penjualan_accepted, Hcust. simpl.
    apply forallb_forall. intros it Hin.
    destruct (Hall it Hin) as [Hbr [Hq Hst]].
    unfold line_passes.
    rewrite Hbr, (insufficient_nonneg_ledger _ _ _ Hst Hq). reflexivity.
  - intros data current db. unfold accepted.
    rewrite create_barang_keluar_eq.
    destruct (barang_exists _ _); [|reflexivity].
    destruct (insufficient _ _); reflexivity.
Qed.

Lemma C9_quantities_not_validated_witness :
  (barang_exists stocked_db "KODE-001" = true
   /\ (BarangKeluar.qty (keluar_tepung (-2)) <? 0)%float = true
   /\ (0 <=? stok_of stocked_db "KODE-001")%float = true
   /\ accepted (create_barang_keluar (keluar_tepung (-2)) staff) stocked_db
      = true
   /\ stok_of (db_after (create_barang_keluar (keluar_tepung (-2)) staff)
                        stocked_db) "KODE-001"
      = (fl 5 + - fl (-2))%float
   /\ (0 <? - BarangKeluar.qty (keluar_tepung (-2)))%float = true)
  /\
  (accepted (create_pembelian beli_negative staff) stocked_db = true
   /\ stok_of (db_after (create_pembelian beli_negative staff) stocked_db)
              "KODE-001"
      = (fl 5 + fl (-3))%float).
Proof.
  assert (Hneg : (BarangKeluar.qty (keluar_tepung (-2)) <? 0)%float = true)
    by reflexivity.
  assert (Hle : (BarangKeluar.qty (keluar_tepung (-2)) <=? 0)%float = true)
    by reflexivity.
  assert (Hst : (0 <=? stok_of stocked_db "KODE-001")%float = true)
    by reflexivity.
  split.
  - split; [reflexivity|]. split; [exact Hneg|]. split; [exact Hst|].
    destruct (proj1 (proj2 (proj2 C9_quantities_not_validated))
                (keluar_tepung (-2)) staff stocked_db eq_refl Hle Hst)
      as [Hacc [_ [Hup Hpos]]].
    split; [exact Hacc|].
    split; [exact (Hup tepung_5 eq_refl) | exact (Hpos Hneg)].
  - destruct (proj1 C9_quantities_not_validated
                beli_negative staff stocked_db eq_refl eq_refl)
      as [Hacc [_ Hdown]].
    split; [exact Hacc|].
    exact (Hdown (PembelianItem.mk "KODE-001" "Tepung" "Kg" (fl (-3))
                                   (fl 12000)) tepung_5 eq_refl eq_refl).
Defined.

(** C9 as stated fails.  On a ledger that a stock-out of a never-stocked
    item has driven to -5, a stock-out of quantity 0 and one of quantity -1
    pass the master-data check and are rejected by the sufficiency check.
    And on a ledger quantity of 2^53, which is not negative, a stock-out of
    quantity -1 is accepted and leaves the quantity as it was: the sum
    2^53 + 1 rounds back to 2^53, so the stock does not increase. *)
Lemma C9_counterexample_overdrawn_ledger :
  (barang_exists overdrawn_db "KODE-001" = true
   /\ (stok_of overdrawn_db "KODE-001" <? 0)%float = true
   /\ error_of (create_barang_keluar (keluar_tepung 0) staff) overdrawn_db
      = Some (mkHTTPException 400 "Stok tidak mencukupi")
   /\ error_of (create_barang_keluar (keluar_tepung (-1)) staff) overdrawn_db
      = Some (mkHTTPException 400 "Stok tidak mencukupi"))
  /\
  ((0 <=? stok_of big_db "KODE-001")%float = true
   /\ (BarangKeluar.qty (keluar_tepung (-1)) <? 0)%float = true
   /\ accepted (create_barang_keluar (keluar_tepung (-1)) staff) big_db
      = true
   /\ stok_of (db_after (create_barang_keluar (keluar_tepung (-1)) staff)
                        big_db) "KODE-001"
      = stok_of big_db "KODE-001").
Proof. repeat split; vm_compute; reflexivity. Qed.

(** ** The stated total is stored as it comes *)

(** C10.  Whether a purchase or a sale is accepted does not depend on its
    [grand_total]: a purchase is accepted exactly when its supplier and the
    items of its lines exist, a sale exactly when its customer exists and
    its lines pass.  An accepted purchase or sale is appended to its
    collection as the caller sent it.  There are a purchase and a sale
    whose [grand_total] differs from the sum over the lines of quantity
    times unit price and that are accepted and stored with that total. *)
Theorem C10_grand_total_stored_as_supplied :
  (forall data current db,
      accepted (create_pembelian data current) db
      = supplier_exists db (Pembelian.kode_supplier data)
        && forallb (fun it => barang_exists db (PembelianItem.kode_barang it))
                   (Pembelian.items data))
  /\
  (forall data current db,
      accepted (create_pembelian data current) db = true ->
      pembelian (db_after (create_pembelian data current) db)
      = (pembelian db ++ [data])%list)
  /\
  (forall data current db,
      accepted (create_penjualan data current) db
      = customer_exists db (Penjualan.kode_customer data)
        && forallb (line_passes db) (Penjualan.items data))
  /\
  (forall data current db,
      accepted (create_penjualan data current) db = true ->
      penjualan (db_after (create_penjualan data current) db)
      = (penjualan db ++ [data])%list)
  /\
  (Pembelian.grand_total beli_wrong_total
   <> pembelian_lines_total beli_wrong_total
   /\ accepted (create_pembelian beli_wrong_total staff) stocked_db = true
   /\ pembelian (db_after (create_pembelian beli_wrong_total staff) stocked_db)
      = [beli_wrong_total])
  /\
  (Penjualan.grand_total jual_wrong_total
   <> penjualan_lines_total jual_wrong_total
   /\ accepted (create_penjualan jual_wrong_total staff) stocked_db = true
   /\ penjualan (db_after (create_penjualan jual_wrong_total staff) stocked_db)
      = [jual_wrong_total]).
Proof.
  split; [exact create_pembelian_accepted|].
  split.
  { intros data current db. unfold accepted, db_after.
    rewrite create_pembelian_eq.
    destruct (supplier_exists _ _); [|discriminate].
    destruct (first_some _ _); [discriminate|]. reflexivity. }
  split; [exact create_penjualan_accepted|].
  split.
  { intros data current db. unfold accepted, db_after.
    rewrite create_penjualan_eq.
    destruct (customer_exists _ _); [|discriminate].
    destruct (first_some _ _); [discriminate|]. reflexivity. }
  split.
  - split.
    + apply ltb_neq. reflexivity.
    + pose proof (create_pembelian_eq beli_wrong_total staff stocked_db) as E.
      unfold accepted, db_after. rewrite E. split; reflexivity.
  - split.
    + apply ltb_neq. reflexivity.
    + pose proof (create_penjualan_eq jual_wrong_total staff stocked_db) as E.
      unfold accepted, db_after. rewrite E. split; vm_compute; reflexivity.
Qed.

Lemma C10_grand_total_stored_as_supplied_witness :
  accepted (create_pembelian beli_wrong_total staff) stocked_db = true
  /\ pembelian (db_after (create_pembelian beli_wrong_total staff) stocked_db)
     = (pembelian stocked_db ++ [beli_wrong_total])%list
  /\ Pembelian.grand_total beli_wrong_total = fl 1.
Proof.
  assert (Hacc : accepted (create_pembelian beli_wrong_total staff) stocked_db
                 = true) by reflexivity.
  split; [exact Hacc|]. split; [|reflexivity].
  exact (proj1 (proj2 C10_grand_total_stored_as_supplied)
           beli_wrong_total staff stocked_db Hacc).
Defined.

(** ** Code generator *)

Example next_code_two_codes : autocode_barang master_db = Some "KODE-003".
Proof. reflexivity. Qed.

Example next_code_no_codes : autocode_barang empty_db = Some "KODE-001".
Proof. reflexivity. Qed.

Example next_code_no_digits :
  next_code "SUP" 3 (Some "nama_supplier") (Some "supplier")
    (put c_supplier [Supplier.mk "SUP001" "SUPER" None None] empty_db)
  = Some "SUP001".
Proof. reflexivity. Qed.

Example next_code_rollover :
  next_code "SUP" 3 (Some "kode_supplier") (Some "supplier")
    (put c_supplier [Supplier.mk "SUP999" "A" None None;
                     Supplier.mk "SUP1000" "B" None None] empty_db)
  = Some "SUP1000".
Proof. reflexivity. Qed.

(** C6 at a code that ends in a line feed.  The only stored code begins
    with the prefix and has no digit at its end, and [next_code] still
    reads 005 from it, because [$] also matches before a final line feed:
    the result is KODE-006 where a code without trailing digits is to give
    KODE-001. *)
Theorem C6_next_code_reads_digits_before_newline :
  barang newline_db = [roti_newline]
  /\ String.prefix "KODE-" kode_newline = true
  /\ trailing_digits kode_newline = ""
  /\ Py.re_search_digits_dollar kode_newline = Some "005"
  /\ autocode_barang newline_db = Some "KODE-006".
Proof. repeat split. Qed.

(** *** The last code in descending order *)

Lemma string_leb_trans (a b c : string) :
  String.leb a b = true -> String.leb b c = true -> String.leb a c = true.
Proof.
  unfold String.leb. revert b c.
  induction a as [|x a IH]; intros [|y b] [|z c]; simpl;
    try discriminate; try reflexivity.
  unfold Ascii.compare.
  destruct (N.compare_spec (N_of_ascii x) (N_of_ascii y)) as [Hxy|Hxy|Hxy];
    destruct (N.compare_spec (N_of_ascii y) (N_of_ascii z)) as [Hyz|Hyz|Hyz];
    destruct (N.compare_spec (N_of_ascii x) (N_of_ascii z)) as [Hxz|Hxz|Hxz];
    try discriminate; try reflexivity; try (exfalso; lia).
  apply IH.
Qed.

Lemma string_leb_refl (a : string) : String.leb a a = true.
Proof. destruct (String.leb_total a a); assumption. Qed.

(** [last_sorted] is the greatest value of the list. *)
Lemma last_sorted_greatest (l : list string) (m : string) :
  last_sorted l = Some m ->
  In m l /\ forall v, In v l -> String.leb v m = true.
Proof.
  revert m. induction l as [|x l IH]; simpl; [discriminate|].
  intros m. destruct (last_sorted l) as [w|] eqn:Hw.
  - destruct (IH w eq_refl) as [Hin Hmax].
    destruct (String.leb x w) eqn:Hxw; intro H; injection H as <-.
    + split; [right; exact Hin|].
      intros v [<-|Hv]; [exact Hxw | exact (Hmax v Hv)].
    + assert (Hwx : String.leb w x = true).
      { destruct (String.leb_total x w) as [H|H]; [congruence | exact H]. }
      split; [left; reflexivity|].
      intros v [<-|Hv]; [apply string_leb_refl|].
      exact (string_leb_trans _ _ _ (Hmax v Hv) Hwx).
  - intro H. injection H as <-. split; [left; reflexivity|].
    intros v [<-|Hv]; [apply string_leb_refl|].
    destruct l; [destruct Hv|]. simpl in Hw.
    destruct (last_sorted l); [destruct (String.leb s s0)|]; discriminate.
Qed.

Lemma last_sorted_none (l : list string) :
  last_sorted l = None <-> l = [].
Proof.
  destruct l as [|x l]; simpl; [tauto|].
  split; [|discriminate].
  destruct (last_sorted l); [destruct (String.leb x s)|]; discriminate.
Qed.

(** *** The digits that [next_code] reads *)

Lemma take_while_split {A} (p : A -> bool) (l : list A) :
  exists rest,
    l = (Py.take_while p l ++ rest)%list
    /\ match rest with [] => True | x :: _ => p x = false end.
Proof.
  induction l as [|x l [rest [Hl Hrest]]]; simpl.
  - exists []. split; [reflexivity | exact I].
  - destruct (p x) eqn:Hx.
    + exists rest. split; [simpl; rewrite <- Hl; reflexivity | exact Hrest].
    + exists (x :: l). split; [reflexivity | exact Hx].
Qed.

Lemma take_while_all {A} (p : A -> bool) (l : list A) :
  forallb p (Py.take_while p l) = true.
Proof.
  induction l as [|x l IH]; simpl; [reflexivity|].
  destruct (p x) eqn:Hx; simpl; [rewrite Hx; exact IH | reflexivity].
Qed.

Lemma string_of_list_ascii_app (l l' : list ascii) :
  string_of_list_ascii (l ++ l')
  = string_of_list_ascii l ++ string_of_list_ascii l'.
Proof.
  induction l as [|x l IH]; simpl; [reflexivity|]. rewrite IH. reflexivity.
Qed.

(** [trailing_digits s] is a run of digits that ends [s], and the character
    before it, if any, is not a digit. *)
Lemma trailing_digits_spec (s : string) :
  exists body : list ascii,
    s = string_of_list_ascii body ++ trailing_digits s
    /\ forallb Py.isdigit (list_ascii_of_string (trailing_digits s)) = true
    /\ match rev body with [] => True | c :: _ => Py.isdigit c = false end.
Proof.
  unfold trailing_digits.
  destruct (take_while_split Py.isdigit (rev (list_ascii_of_string s)))
    as [rest [Hl Hrest]].
  exists (rev rest). split; [|split].
  - rewrite <- string_of_list_ascii_app, <- rev_app_distr, <- Hl.
    rewrite rev_involutive. symmetry. apply string_of_list_ascii_of_string.
  - rewrite list_ascii_of_string_of_list_ascii.
    apply forallb_forall. intros c Hc. apply in_rev in Hc.
    revert c Hc. apply forallb_forall. apply take_while_all.
  - rewrite rev_involutive. exact Hrest.
Qed.




(** ** Databases that the endpoints can reach *)

Lemma forallb_upsert_inc (p : string -> bool) kode delta satuan nama l :
  forallb (fun s => p (Stock.kode_barang s)) l = true ->
  p kode = true ->
  forallb (fun s => p (Stock.kode_barang s))
          (upsert_inc kode delta satuan nama l) = true.
Proof.
  intros Hl Hk. induction l as [|s l IH].
  - unfold upsert_inc. simpl. rewrite Hk. reflexivity.
  - simpl in Hl. apply andb_true_iff in Hl. destruct Hl as [Hs Hl].
    destruct (Stock.kode_barang s =? kode) eqn:Hsk.
    + unfold upsert_inc. simpl. rewrite Hsk. simpl. rewrite Hs, Hl.
      reflexivity.
    + rewrite upsert_inc_cons_other by exact Hsk. simpl.
      rewrite Hs, (IH Hl). reflexivity.
Qed.

Lemma forallb_fold_upsert {A} (p : string -> bool) (k : A -> string)
    (q : A -> float) (s n : A -> string) (items : list A) (l : list Stock.t) :
  forallb (fun d => p (Stock.kode_barang d)) l = true ->
  (forall it, In it items -> p (k it) = true) ->
  forallb (fun d => p (Stock.kode_barang d))
          (fold_left (fun st it => upsert_inc (k it) (q it) (s it) (n it) st)
                     items l) = true.
Proof.
  revert l. induction items as [|it items IH]; intros l Hl Hitems; simpl.
  - exact Hl.
  - apply IH.
    + apply forallb_upsert_inc; [exact Hl|].
      apply Hitems. left. reflexivity.
    + intros it' Hin. apply Hitems. right. exact Hin.
Qed.

Lemma forallb_weaken {A} (p p' : A -> bool) (l : list A) :
  (forall x, p x = true -> p' x = true) ->
  forallb p l = true -> forallb p' l = true.
Proof.
  intros Himp H. apply forallb_forall. intros x Hx.
  apply Himp. revert x Hx. apply forallb_forall. exact H.
Qed.

(** Every writing endpoint keeps the ledger within the item master. *)
Lemma handle_ledger_in_master (r : request) (db : DB) :
  ledger_in_master db = true ->
  ledger_in_master (db_after (handle r) db) = true.
Proof.
  intro Hinv. unfold db_after.
  destruct r as [d c|d c|d c|d c|d c|d c|d c]; simpl handle; endpoint_eq;
    repeat case_cond; cbn [fst]; try exact Hinv.
  - unfold ledger_in_master, barang_exists in *. simpl.
    revert Hinv. apply forallb_weaken. intros s Hs.
    rewrite existsb_app, Hs. reflexivity.
  - unfold ledger_in_master in *. simpl.
    unfold apply_pembelian.
    apply (forallb_fold_upsert (barang_exists db)); [exact Hinv|].
    intros it Hin.
    match goal with
    | H : first_some _ _ = None |- _ =>
        rewrite first_some_none in H; specialize (H it Hin);
        rewrite pembelian_item_error_eq in H
    end.
    destruct (barang_exists db (PembelianItem.kode_barang it));
      [reflexivity | discriminate].
  - unfold ledger_in_master in *. simpl.
    apply (forallb_upsert_inc (barang_exists db)); assumption.
  - unfold ledger_in_master in *. simpl.
    apply (forallb_upsert_inc (barang_exists db)); assumption.
  - unfold ledger_in_master in *. simpl.
    unfold apply_penjualan.
    apply (forallb_fold_upsert (barang_exists db)); [exact Hinv|].
    intros it Hin.
    match goal with
    | H : first_some _ _ = None |- _ =>
        rewrite first_some_none in H; specialize (H it Hin);
        rewrite penjualan_item_error_eq in H
    end.
    destruct (barang_exists db (PenjualanItem.kode_barang it));
      [reflexivity | discriminate].
Qed.

Lemma run_ledger_in_master (rs : list request) (db : DB) :
  ledger_in_master db = true -> ledger_in_master (run rs db) = true.
Proof.
  revert db. induction rs as [|r rs IH]; intros db Hinv; simpl.
  - exact Hinv.
  - apply IH. apply handle_ledger_in_master. exact Hinv.
Qed.

Lemma entry_in_master (db : DB) (kode : string) (s : Stock.t) :
  ledger_in_master db = true ->
  entry_of db kode = Some s -> barang_exists db kode = true.
Proof.
  unfold ledger_in_master, entry_of, entry_in. intros Hinv He.
  apply find_some in He. destruct He as [Hin Hk].
  apply String.eqb_eq in Hk. subst kode.
  revert s Hin. apply forallb_forall. exact Hinv.
Qed.

(** On a database reached by the endpoints from one with an empty ledger, a
    stock-out above the ledger quantity of an existing entry raises the
    stock error: the entry shows that the item is in the item master. *)
Lemma stock_out_error_reachable (rs : list request) (db0 : DB)
    (data : BarangKeluar.t) (current : Users.t) (s : Stock.t) :
  stock db0 = [] ->
  entry_of (run rs db0) (BarangKeluar.kode_barang data) = Some s ->
  (Stock.stok s <? BarangKeluar.qty data)%float = true ->
  create_barang_keluar data current (run rs db0)
  = (run rs db0, inl (mkHTTPException 400 "Stok tidak mencukupi")).
Proof.
  intros H0 He Hlt.
  assert (Hinv : ledger_in_master (run rs db0) = true).
  { apply run_ledger_in_master. unfold ledger_in_master. rewrite H0.
    reflexivity. }
  rewrite create_barang_keluar_eq.
  rewrite (entry_in_master _ _ _ Hinv He).
  rewrite (insufficient_some _ _ _ _ He Hlt). reflexivity.
Qed.

(** * Further properties of the endpoints *)

(** ** One ledger entry per item *)

Lemma NoDup_snoc {A} (l : list A) (x : A) :
  NoDup l -> ~ In x l -> NoDup (l ++ [x]).
Proof.
  induction l as [|y l IH]; simpl; intros Hnd Hnin.
  - constructor; [intros []|constructor].
  - inversion Hnd as [|y' l' Hy Hl]; subst. constructor.
    + rewrite in_app_iff. intros [H|[H|[]]]; [exact (Hy H)|].
      apply Hnin. left. symmetry. exact H.
    + apply IH; [exact Hl|]. intro H. apply Hnin. right. exact H.
Qed.

Lemma entry_in_none_codes (l : list Stock.t) (kode : string) :
  entry_in l kode = None -> ~ In kode (map Stock.kode_barang l).
Proof.
  unfold entry_in. intros Hnone Hin. apply in_map_iff in Hin.
  destruct Hin as [s [Hs Hin]].
  pose proof (find_none _ _ Hnone s Hin) as H. simpl in H.
  rewrite Hs, String.eqb_refl in H. discriminate.
Qed.

Lemma codes_upsert_inc kode delta satuan nama l :
  map Stock.kode_barang (upsert_inc kode delta satuan nama l)
  = match entry_in l kode with
    | Some _ => map Stock.kode_barang l
    | None => (map Stock.kode_barang l ++ [kode])%list
    end.
Proof.
  induction l as [|s l IH].
  - reflexivity.
  - unfold entry_in in *. simpl.
    destruct (Stock.kode_barang s =? kode) eqn:Hs.
    + unfold upsert_inc. simpl. rewrite Hs. reflexivity.
    + rewrite upsert_inc_cons_other by exact Hs. simpl. rewrite IH.
      destruct (find _ l); reflexivity.
Qed.

Lemma NoDup_upsert_inc kode delta satuan nama l :
  NoDup (map Stock.kode_barang l) ->
  NoDup (map Stock.kode_barang (upsert_inc kode delta satuan nama l)).
Proof.
  intro H. rewrite codes_upsert_inc.
  destruct (entry_in l kode) eqn:He; [exact H|].
  apply NoDup_snoc; [exact H | apply entry_in_none_codes; exact He].
Qed.

Lemma NoDup_fold_upsert {A} (k : A -> string) (q : A -> float)
    (s n : A -> string) (items : list A) (l : list Stock.t) :
  NoDup (map Stock.kode_barang l) ->
  NoDup (map Stock.kode_barang
           (fold_left (fun st it => upsert_inc (k it) (q it) (s it) (n it) st)
                      items l)).
Proof.
  revert l. induction items as [|it items IH]; intros l H; simpl.
  - exact H.
  - apply IH. apply NoDup_upsert_inc. exact H.
Qed.

Lemma handle_ledger_codes_NoDup (r : request) (db : DB) :
  NoDup (ledger_codes db) ->
  NoDup (ledger_codes (db_after (handle r) db)).
Proof.
  intro H. unfold db_after, ledger_codes in *.
  destruct r as [d c|d c|d c|d c|d c|d c|d c]; simpl handle; endpoint_eq;
    repeat case_cond; cbn [fst]; try exact H; simpl.
  - apply NoDup_fold_upsert. exact H.
  - apply NoDup_upsert_inc. exact H.
  - apply NoDup_upsert_inc. exact H.
  - apply NoDup_fold_upsert. exact H.
Qed.

(** X1.  The endpoints never give an item a second ledger entry: when the
    item codes of the ledger are pairwise different, they still are after
    any sequence of requests. *)
Theorem X1_ledger_one_entry_per_item (rs : list request) (db : DB) :
  NoDup (ledger_codes db) -> NoDup (ledger_codes (run rs db)).
Proof.
  revert db. induction rs as [|r rs IH]; intros db H; simpl.
  - exact H.
  - apply IH. apply handle_ledger_codes_NoDup. exact H.
Qed.

Lemma X1_ledger_one_entry_per_item_witness :
  NoDup (ledger_codes master_db)
  /\ NoDup (ledger_codes (run sample_trace master_db)).
Proof.
  assert (H : NoDup (ledger_codes master_db)) by constructor.
  split; [exact H|].
  exact (X1_ledger_one_entry_per_item sample_trace master_db H).
Defined.

(** X2.  A ledger entry is always on an item of the item master: when this
    holds of a database, then after any sequence of requests every item code
    with a ledger entry is the code of a record of the item master. *)
Theorem X2_ledger_entries_are_master_items
    (rs : list request) (db : DB) (kode : string) (s : Stock.t) :
  ledger_in_master db = true ->
  entry_of (run rs db) kode = Some s ->
  barang_exists (run rs db) kode = true.
Proof.
  intros Hinv He.
  apply (entry_in_master _ _ s); [|exact He].
  apply run_ledger_in_master. exact Hinv.
Qed.

Lemma X2_ledger_entries_are_master_items_witness :
  ledger_in_master master_db = true
  /\ exists s,
       entry_of (run sample_trace master_db) "KODE-002" = Some s
       /\ barang_exists (run sample_trace master_db) "KODE-002" = true.
Proof.
  split; [reflexivity|].
  eexists. split; [reflexivity|].
  eapply (X2_ledger_entries_are_master_items sample_trace master_db "KODE-002");
    reflexivity.
Defined.

(** ** Codes of the master data stay unique *)

Lemma existsb_false_notin {D} (code : D -> string) (l : list D) (k : string) :
  existsb (fun d => code d =? k) l = false -> ~ In k (map code l).
Proof.
  intros Hex Hin. apply in_map_iff in Hin. destruct Hin as [d [Hd Hin]].
  assert (H : existsb (fun d => code d =? k) l = true).
  { apply existsb_exists. exists d. split; [exact Hin|].
    rewrite Hd. apply String.eqb_refl. }
  congruence.
Qed.

Lemma NoDup_codes_snoc {D} (code : D -> string) (l : list D) (d : D) :
  NoDup (map code l) ->
  existsb (fun x => code x =? code d) l = false ->
  NoDup (map code (l ++ [d])).
Proof.
  intros Hnd Hex. rewrite map_app. simpl.
  apply NoDup_snoc; [exact Hnd|]. apply existsb_false_notin. exact Hex.
Qed.

Lemma handle_master_codes_unique (r : request) (db : DB) :
  master_codes_unique db -> master_codes_unique (db_after (handle r) db).
Proof.
  intros [Hb [Hs Hc]]. unfold db_after, master_codes_unique.
  destruct r as [d c|d c|d c|d c|d c|d c|d c]; simpl handle; endpoint_eq;
    repeat case_cond; cbn [fst]; simpl; repeat split; try assumption.
  - apply NoDup_codes_snoc; assumption.
  - apply NoDup_codes_snoc; assumption.
  - apply NoDup_codes_snoc; assumption.
Qed.

(** X3.  The duplicate check of the three create endpoints keeps the codes
    of each master collection pairwise different through any sequence of
    requests. *)
Theorem X3_master_codes_stay_unique (rs : list request) (db : DB) :
  master_codes_unique db -> master_codes_unique (run rs db).
Proof.
  revert db. induction rs as [|r rs IH]; intros db H; simpl.
  - exact H.
  - apply IH. apply handle_master_codes_unique. exact H.
Qed.

Lemma X3_master_codes_stay_unique_witness :
  master_codes_unique master_db
  /\ master_codes_unique
       (run [PostSupplier sup1_again admin; PostSupplier sup2 admin;
             PostSupplier sup2 admin; PostBarang tepung admin]
            master_db).
Proof.
  assert (H : master_codes_unique master_db).
  { unfold master_codes_unique. simpl. repeat split;
      repeat (constructor; [simpl; intuition discriminate|]); constructor. }
  split; [exact H|].
  exact (X3_master_codes_stay_unique _ master_db H).
Defined.

(** ** The collections are the accepted requests *)

Lemma run_docs {D} (get : DB -> list D) (sel : request -> option D) :
  (forall r db, get (db_after (handle r) db)
                = (get db ++ step_body sel r db)%list) ->
  forall rs db, get (run rs db) = (get db ++ accepted_bodies sel rs db)%list.
Proof.
  intros Hstep rs. induction rs as [|r rs IH]; intro db; simpl.
  - rewrite app_nil_r. reflexivity.
  - rewrite IH, Hstep, <- app_assoc. reflexivity.
Qed.

Ltac step_docs :=
  intros r db; unfold step_body, accepted, db_after;
  destruct r as [d c|d c|d c|d c|d c|d c|d c]; simpl handle; endpoint_eq;
  repeat case_cond; simpl; rewrite ?app_nil_r; reflexivity.

Lemma step_barang r db :
  barang (db_after (handle r) db)
  = (barang db ++ step_body body_barang r db)%list.
Proof. revert r db. step_docs. Qed.

Lemma step_supplier r db :
  supplier (db_after (handle r) db)
  = (supplier db ++ step_body body_supplier r db)%list.
Proof. revert r db. step_docs. Qed.

Lemma step_customer r db :
  customer (db_after (handle r) db)
  = (customer db ++ step_body body_customer r db)%list.
Proof. revert r db. step_docs. Qed.

Lemma step_pembelian r db :
  pembelian (db_after (handle r) db)
  = (pembelian db ++ step_body body_pembelian r db)%list.
Proof. revert r db. step_docs. Qed.

Lemma step_barangmasuk r db :
  barangmasuk (db_after (handle r) db)
  = (barangmasuk db ++ step_body body_barang_masuk r db)%list.
Proof. revert r db. step_docs. Qed.

Lemma step_barngkeluar r db :
  barngkeluar (db_after (handle r) db)
  = (barngkeluar db ++ step_body body_barang_keluar r db)%list.
Proof. revert r db. step_docs. Qed.

Lemma step_penjualan r db :
  penjualan (db_after (handle r) db)
  = (penjualan db ++ step_body body_penjualan r db)%list.
Proof. revert r db. step_docs. Qed.

Lemma step_users r db : users (db_after (handle r) db) = users db.
Proof.
  unfold db_after.
  destruct r as [d c|d c|d c|d c|d c|d c|d c]; simpl handle; endpoint_eq;
    repeat case_cond; reflexivity.
Qed.

(** X4.  The master and transaction collections are append-only logs of
    the accepted requests: after any sequence of requests each of them is
    what it was, followed by the bodies of the accepted requests of its
    kind, in the order in which they came and as they were sent.  The
    [users] collection is not touched. *)
Theorem X4_collections_log_accepted_requests (rs : list request) (db : DB) :
  barang (run rs db)
  = (barang db ++ accepted_bodies body_barang rs db)%list
  /\ supplier (run rs db)
     = (supplier db ++ accepted_bodies body_supplier rs db)%list
  /\ customer (run rs db)
     = (customer db ++ accepted_bodies body_customer rs db)%list
  /\ pembelian (run rs db)
     = (pembelian db ++ accepted_bodies body_pembelian rs db)%list
  /\ barangmasuk (run rs db)
     = (barangmasuk db ++ accepted_bodies body_barang_masuk rs db)%list
  /\ barngkeluar (run rs db)
     = (barngkeluar db ++ accepted_bodies body_barang_keluar rs db)%list
  /\ penjualan (run rs db)
     = (penjualan db ++ accepted_bodies body_penjualan rs db)%list
  /\ users (run rs db) = users db.
Proof.
  repeat split.
  - apply run_docs, step_barang.
  - apply run_docs, step_supplier.
  - apply run_docs, step_customer.
  - apply run_docs, step_pembelian.
  - apply run_docs, step_barangmasuk.
  - apply run_docs, step_barngkeluar.
  - apply run_docs, step_penjualan.
  - revert db. induction rs as [|r rs IH]; intro db; simpl; [reflexivity|].
    rewrite IH. apply step_users.
Qed.

(** ** Ledger entries stay, and keep their first name and unit *)

Lemma upsert_inc_keeps_snapshot kode delta satuan nama l k s :
  entry_in l k = Some s ->
  exists s', entry_in (upsert_inc kode delta satuan nama l) k = Some s'
             /\ same_snapshot s s'.
Proof.
  intro He. rewrite entry_in_upsert_inc.
  destruct (kode =? k) eqn:Hk.
  - apply String.eqb_eq in Hk. subst k. rewrite He.
    eexists. split; [reflexivity|]. repeat split.
  - exists s. split; [exact He|]. repeat split.
Qed.

Lemma fold_upsert_keeps_snapshot {A} (k : A -> string) (q : A -> float)
    (sa n : A -> string) (items : list A) (l : list Stock.t) kode s :
  entry_in l kode = Some s ->
  exists s',
    entry_in (fold_left
                (fun st it => upsert_inc (k it) (q it) (sa it) (n it) st)
                items l) kode = Some s'
    /\ same_snapshot s s'.
Proof.
  revert l s. induction items as [|it items IH]; intros l s He; simpl.
  - exists s. split; [exact He|]. repeat split.
  - destruct (upsert_inc_keeps_snapshot (k it) (q it) (sa it) (n it) l kode s He)
      as [s1 [He1 [Hk1 [Hn1 Hs1]]]].
    destruct (IH _ _ He1) as [s2 [He2 [Hk2 [Hn2 Hs2]]]].
    exists s2. split; [exact He2|]. repeat split; congruence.
Qed.

Lemma handle_keeps_snapshot (r : request) (db : DB) kode s :
  entry_of db kode = Some s ->
  exists s', entry_of (db_after (handle r) db) kode = Some s'
             /\ same_snapshot s s'.
Proof.
  intro He. unfold db_after, entry_of in *.
  destruct r as [d c|d c|d c|d c|d c|d c|d c]; simpl handle; endpoint_eq;
    repeat case_cond; cbn [fst]; simpl;
    try (exists s; split; [exact He | repeat split]).
  - apply fold_upsert_keeps_snapshot. exact He.
  - apply upsert_inc_keeps_snapshot. exact He.
  - apply upsert_inc_keeps_snapshot. exact He.
  - apply fold_upsert_keeps_snapshot. exact He.
Qed.

(** X7.  No request removes a ledger entry or rewrites its name or unit:
    an item that has an entry still has one after any sequence of requests,
    with the item code, [nama_barang] and [satuan] it had, whatever names
    and units the later transactions carry. *)
Theorem X7_ledger_entry_keeps_name_and_unit
    (rs : list request) (db : DB) (kode : string) (s : Stock.t) :
  entry_of db kode = Some s ->
  exists s', entry_of (run rs db) kode = Some s' /\ same_snapshot s s'.
Proof.
  revert db s. induction rs as [|r rs IH]; intros db s He; simpl.
  - exists s. split; [exact He|]. repeat split.
  - destruct (handle_keeps_snapshot r db kode s He) as [s1 [He1 [Hk1 [Hn1 Hs1]]]].
    destruct (IH _ _ He1) as [s2 [He2 [Hk2 [Hn2 Hs2]]]].
    exists s2. split; [exact He2|]. repeat split; congruence.
Qed.

Lemma X7_ledger_entry_keeps_name_and_unit_witness :
  entry_of stocked_db "KODE-001" = Some tepung_5
  /\ exists s',
       entry_of (run [PostBarangMasuk
                        (BarangMasuk.mk "2024-02-01" "KODE-001" "Terigu"
                                        "Gram" (fl 500) None) staff]
                     stocked_db) "KODE-001" = Some s'
       /\ same_snapshot tepung_5 s'.
Proof.
  split; [reflexivity|].
  exact (X7_ledger_entry_keeps_name_and_unit _ stocked_db "KODE-001" tepung_5
           eq_refl).
Defined.

(** ** Every endpoint checks before it writes *)

(** X8.  Each of the seven writing endpoints is all or nothing: a request
    that is answered with an error leaves every collection of the database
    as it was. *)
Theorem X8_rejected_request_changes_nothing (r : request) (db : DB) :
  accepted (handle r) db = false -> db_after (handle r) db = db.
Proof. exact (rejected_unchanged r db). Qed.

Lemma X8_rejected_request_changes_nothing_witness :
  accepted (handle (PostBarangMasuk
                      (BarangMasuk.mk "2024-02-01" "KODE-404" "Ragi" "Gram"
                                      (fl 1) None) staff)) stocked_db = false
  /\ db_after (handle (PostBarangMasuk
                         (BarangMasuk.mk "2024-02-01" "KODE-404" "Ragi" "Gram"
                                         (fl 1) None) staff)) stocked_db
     = stocked_db.
Proof.
  split; [reflexivity|].
  apply X8_rejected_request_changes_nothing. reflexivity.
Defined.

(** ** Authentication *)

Lemma toy_dec_enc (s k : string) : toy_dec (toy_enc s k) = Some (s, k).
Proof.
  induction s as [|ch s IH]; simpl; [reflexivity|]. rewrite IH. reflexivity.
Qed.

Lemma toy_verify_hash (salt password : string) :
  pwd_verify toy_crypto password (pwd_hash toy_crypto salt password) = true.
Proof. simpl. rewrite toy_dec_enc. apply String.eqb_refl. Qed.

Lemma toy_decode_encode (p : Payload.t) :
  jwt_decode toy_crypto (jwt_encode toy_crypto p) = Some p.
Proof.
  destruct p as [[s|] [r|]]; simpl; rewrite ?toy_dec_enc; simpl;
    rewrite ?toy_dec_enc; reflexivity.
Qed.

Lemma toy_encode_nonempty (p : Payload.t) : jwt_encode toy_crypto p <> "".
Proof. destruct p as [[s|] r]; simpl; discriminate. Qed.

(** X9.  [get_current_user] only reads the database.  When it returns a
    user, the user is a document of the [users] collection whose email is
    the subject of the decoded token; every way in which it fails is a 401. *)
Theorem X9_token_resolves_to_stored_subject
    (c : Crypto) (token : option string) (db : DB) :
  fst (get_current_user c token db) = db
  /\ match snd (get_current_user c token db) with
     | inl e => status_code e = 401%Z
     | inr u =>
         In u (users db)
         /\ exists t p,
              token = Some t /\ jwt_decode c t = Some p
              /\ Payload.sub p = Some (Users.email u)
     end.
Proof.
  unfold get_current_user.
  destruct token as [[|ch t]|]; try (split; reflexivity).
  destruct (jwt_decode c (String ch t)) as [p|] eqn:Hd;
    [|split; reflexivity].
  destruct (Payload.sub p) as [email|] eqn:Hs; [|split; reflexivity].
  unfold bind, find_one. simpl.
  destruct (find _ (users db)) as [u|] eqn:Hf; simpl; [|split; reflexivity].
  split; [reflexivity|].
  apply find_some in Hf. destruct Hf as [Hin He].
  apply String.eqb_eq in He. split; [exact Hin|].
  exists (String ch t), p. rewrite He. repeat split; assumption.
Qed.

Lemma find_snoc_fresh {A} (p : A -> bool) (l : list A) (d : A) :
  existsb p l = false -> p d = true -> find p (l ++ [d]) = Some d.
Proof.
  intros Hex Hd. induction l as [|x l IH]; simpl in *.
  - rewrite Hd. reflexivity.
  - apply orb_false_iff in Hex. destruct Hex as [Hx Hl].
    rewrite Hx. exact (IH Hl).
Qed.

Lemma login_eq (c : Crypto) (req : LoginRequest.t) (db : DB) :
  login c req db
  = (db,
     match find (fun d => Users.email d =? LoginRequest.email req) (users db)
     with
     | Some u =>
         if pwd_verify c (LoginRequest.password req) (Users.password_hash u)
         then inr (Token.mk
                     (jwt_encode c
                        (Payload.mk (Some (LoginRequest.email req))
                                    (Some (Users.role u))))
                     "bearer")
         else inl (mkHTTPException 401 "Email atau password salah")
     | None => inl (mkHTTPException 401 "Email atau password salah")
     end).
Proof.
  unfold login, bind, find_one, verify_password, create_access_token. simpl.
  destruct (find _ (users db)) as [u|]; [|reflexivity].
  destruct (pwd_verify c _ _); reflexivity.
Qed.

(** X10.  [login] only reads the database.  It succeeds exactly when the
    first user with the email of the request has a password hash that
    verifies the password, and then issues a bearer token; it fails with the
    same 401 and the same message whether the email is unknown or the
    password is wrong. *)
Theorem X10_login_outcomes (c : Crypto) (req : LoginRequest.t) (db : DB) :
  fst (login c req db) = db
  /\ (accepted (login c req) db = true <->
      exists u,
        find (fun d => Users.email d =? LoginRequest.email req) (users db)
        = Some u
        /\ pwd_verify c (LoginRequest.password req) (Users.password_hash u)
           = true)
  /\ (forall e, error_of (login c req) db = Some e ->
        e = mkHTTPException 401 "Email atau password salah")
  /\ (forall tok, snd (login c req db) = inr tok ->
        Token.token_type tok = "bearer").
Proof.
  unfold accepted, error_of. rewrite login_eq. cbn [fst snd].
  split; [reflexivity|].
  destruct (find _ (users db)) as [u|].
  - destruct (pwd_verify c _ _) eqn:Hv; repeat split.
    + intros _. exists u. split; [reflexivity | exact Hv].
    + discriminate.
    + intros tok H. injection H as <-. reflexivity.
    + discriminate.
    + intros [u' [H1 H2]]. injection H1 as <-. congruence.
    + intros e H. injection H as <-. reflexivity.
    + discriminate.
  - repeat split.
    + discriminate.
    + intros [u' [H1 _]]. discriminate.
    + intros e H. injection H as <-. reflexivity.
    + discriminate.
Qed.

(** The token of a successful login resolves to the user who logged in. *)
Lemma login_token_resolves
    (c : Crypto) (req : LoginRequest.t) (db : DB) (tok : Token.t) :
  (forall p, jwt_decode c (jwt_encode c p) = Some p) ->
  (forall p, jwt_encode c p <> "") ->
  snd (login c req db) = inr tok ->
  exists u,
    find (fun d => Users.email d =? LoginRequest.email req) (users db)
    = Some u
    /\ pwd_verify c (LoginRequest.password req) (Users.password_hash u) = true
    /\ get_current_user c (Some (Token.access_token tok)) db = (db, inr u).
Proof.
  intros Hdec Hne Hlogin. rewrite login_eq in Hlogin. cbn [snd] in Hlogin.
  destruct (find _ (users db)) as [u|] eqn:Hf; [|discriminate].
  destruct (pwd_verify c _ _) eqn:Hv; [|discriminate].
  injection Hlogin as <-. exists u. split; [reflexivity|].
  split; [exact Hv|]. cbn [Token.access_token].
  unfold get_current_user.
  destruct (jwt_encode c _) as [|ch t] eqn:Ht; [exfalso; exact (Hne _ Ht)|].
  rewrite <- Ht, Hdec. cbn [Payload.sub].
  unfold bind, find_one. simpl. rewrite Hf. reflexivity.
Qed.

(** X11.  With a token library that decodes what it encodes and never
    encodes to the empty string, the token that [login] issues resolves
    through [get_current_user] to the user whose password was verified. *)
Theorem X11_login_token_resolves
    (c : Crypto) (req : LoginRequest.t) (db : DB) (tok : Token.t) :
  (forall p, jwt_decode c (jwt_encode c p) = Some p) ->
  (forall p, jwt_encode c p <> "") ->
  snd (login c req db) = inr tok ->
  exists u,
    find (fun d => Users.email d =? LoginRequest.email req) (users db)
    = Some u
    /\ pwd_verify c (LoginRequest.password req) (Users.password_hash u) = true
    /\ get_current_user c (Some (Token.access_token tok)) db = (db, inr u).
Proof. exact (login_token_resolves c req db tok). Qed.

Lemma X11_login_token_resolves_witness :
  exists tok,
    snd (login toy_crypto
           (LoginRequest.mk "baker@saebakery.com" "roti123") baker_db)
    = inr tok
    /\ exists u,
         get_current_user toy_crypto (Some (Token.access_token tok)) baker_db
         = (baker_db, inr u).
Proof.
  eexists. split; [reflexivity|].
  destruct (X11_login_token_resolves toy_crypto
              (LoginRequest.mk "baker@saebakery.com" "roti123")
              baker_db _
              toy_decode_encode toy_encode_nonempty eq_refl)
    as [u [_ [_ H]]].
  exists u. exact H.
Defined.

Lemma X10_login_outcomes_witness :
  accepted (login toy_crypto
              (LoginRequest.mk "baker@saebakery.com" "roti123"))
           baker_db = true
  /\ error_of (login toy_crypto
                 (LoginRequest.mk "baker@saebakery.com" "roti124"))
              baker_db
     = Some (mkHTTPException 401 "Email atau password salah").
Proof.
  split.
  - apply (proj1 (proj2 (X10_login_outcomes toy_crypto _ _))).
    eexists. split; reflexivity.
  - destruct (error_of (login toy_crypto
                          (LoginRequest.mk "baker@saebakery.com" "roti124"))
                       baker_db) as [e|] eqn:He;
      [|discriminate].
    rewrite (proj1 (proj2 (proj2 (X10_login_outcomes toy_crypto _ _))) e He).
    reflexivity.
Defined.

Lemma register_eq (c : Crypto) (salt : string) (req : RegisterRequest.t)
    (current : Users.t) (db : DB) :
  register c salt req current db
  = if Users.role current =? "admin" then
      if existsb (fun d => Users.email d =? RegisterRequest.email req)
                 (users db)
      then (db, inl (Http (mkHTTPException 400 "Email sudah terdaftar")))
      else if (RegisterRequest.role req =? "admin")
              || (RegisterRequest.role req =? "staff")
      then (put c_users
              (users db
               ++ [Users.mk (RegisterRequest.email req)
                            (pwd_hash c salt (RegisterRequest.password req))
                            (RegisterRequest.name req)
                            (RegisterRequest.role req) true]) db,
            inr "User berhasil dibuat")
      else (db, inl ValidationError)
    else (db, inl (Http (mkHTTPException 403 "Admin only"))).
Proof.
  unfold register, require_admin, find_one, new_Users, create_document,
    get_password_hash, raise, ret.
  rewrite find_existsb.
  destruct (Users.role current =? "admin"); simpl; [|reflexivity].
  destruct (find _ (users db)); [reflexivity|].
  destruct ((RegisterRequest.role req =? "admin")
            || (RegisterRequest.role req =? "staff")); reflexivity.
Qed.

(** X12.  [register] keeps the emails of the [users] collection pairwise
    different, and touches no other collection. *)
Theorem X12_register_keeps_emails_unique
    (c : Crypto) (salt : string) (req : RegisterRequest.t)
    (current : Users.t) (db : DB) :
  NoDup (map Users.email (users db)) ->
  NoDup (map Users.email (users (fst (register c salt req current db))))
  /\ put c_users (users db) (fst (register c salt req current db)) = db.
Proof.
  intro H. rewrite register_eq.
  assert (Hsame : put c_users (users db) db = db) by (destruct db; reflexivity).
  destruct (Users.role current =? "admin"); [|split; assumption].
  destruct (existsb _ (users db)) eqn:Hex; [split; assumption|].
  destruct (_ || _); [|split; assumption].
  cbn [fst]. split; [|exact Hsame].
  simpl users.
  apply (NoDup_codes_snoc Users.email (users db)
           (Users.mk (RegisterRequest.email req)
                     (pwd_hash c salt (RegisterRequest.password req))
                     (RegisterRequest.name req) (RegisterRequest.role req)
                     true)); assumption.
Qed.

Lemma X12_register_keeps_emails_unique_witness :
  NoDup (map Users.email (users master_db))
  /\ NoDup (map Users.email
              (users (fst (register toy_crypto "salt" register_baker admin
                             master_db))))
  /\ List.length (users (fst (register toy_crypto "salt" register_baker admin
                                master_db))) = 3%nat.
Proof.
  assert (H : NoDup (map Users.email (users master_db))).
  { simpl. repeat (constructor; [simpl; intuition discriminate|]).
    constructor. }
  split; [exact H|]. split; [|reflexivity].
  exact (proj1 (X12_register_keeps_emails_unique toy_crypto "salt"
                  register_baker admin master_db H)).
Defined.

(** X13.  With a password library that verifies what it hashed and a token
    library that decodes what it encodes, a user that [register] accepted
    can log in with the email and password of the registration, and the
    token resolves to a user with that email and the registered role. *)
Theorem X13_registered_user_can_log_in
    (c : Crypto) (salt : string) (req : RegisterRequest.t)
    (current : Users.t) (db db' : DB) (msg : string) :
  (forall s p, pwd_verify c p (pwd_hash c s p) = true) ->
  (forall p, jwt_decode c (jwt_encode c p) = Some p) ->
  (forall p, jwt_encode c p <> "") ->
  register c salt req current db = (db', inr msg) ->
  exists tok u,
    snd (login c (LoginRequest.mk (RegisterRequest.email req)
                                  (RegisterRequest.password req)) db')
    = inr tok
    /\ get_current_user c (Some (Token.access_token tok)) db' = (db', inr u)
    /\ Users.email u = RegisterRequest.email req
    /\ Users.role u = RegisterRequest.role req.
Proof.
  intros Hver Hdec Hne Hreg. rewrite register_eq in Hreg.
  destruct (Users.role current =? "admin"); [|discriminate].
  destruct (existsb _ (users db)) eqn:Hex; [discriminate|].
  destruct (_ || _); [|discriminate].
  injection Hreg as <- _.
  set (doc := Users.mk (RegisterRequest.email req)
                (pwd_hash c salt (RegisterRequest.password req))
                (RegisterRequest.name req) (RegisterRequest.role req) true).
  set (db' := put c_users (users db ++ [doc]) db).
  assert (Hfind : find (fun d => Users.email d =? RegisterRequest.email req)
                       (users db') = Some doc).
  { simpl users. apply find_snoc_fresh; [exact Hex|].
    apply String.eqb_refl. }
  set (lreq := LoginRequest.mk (RegisterRequest.email req)
                               (RegisterRequest.password req)).
  assert (Hlogin : snd (login c lreq db')
                   = inr (Token.mk
                            (jwt_encode c
                               (Payload.mk (Some (RegisterRequest.email req))
                                           (Some (RegisterRequest.role req))))
                            "bearer")).
  { rewrite login_eq. cbn [snd]. unfold lreq. cbn [LoginRequest.email
      LoginRequest.password]. rewrite Hfind. unfold doc at 1.
    cbn [Users.password_hash]. rewrite Hver. reflexivity. }
  destruct (login_token_resolves c lreq db' _ Hdec Hne Hlogin)
    as [u [Hu [_ Hres]]].
  eexists. exists u. split; [exact Hlogin|]. split; [exact Hres|].
  unfold lreq in Hu. cbn [LoginRequest.email] in Hu.
  rewrite Hfind in Hu. injection Hu as <-. split; reflexivity.
Qed.

Lemma X13_registered_user_can_log_in_witness :
  exists db' tok u,
    register toy_crypto "salt" register_baker admin master_db
    = (db', inr "User berhasil dibuat")
    /\ snd (login toy_crypto
              (LoginRequest.mk "baker@saebakery.com" "roti123") db')
       = inr tok
    /\ get_current_user toy_crypto (Some (Token.access_token tok)) db'
       = (db', inr u)
    /\ Users.role u = "staff".
Proof.
  eexists.
  destruct (X13_registered_user_can_log_in toy_crypto "salt" register_baker
              admin master_db _ _
              toy_verify_hash toy_decode_encode toy_encode_nonempty eq_refl)
    as [tok [u [Hlogin [Hres [_ Hrole]]]]].
  exists tok, u. split; [reflexivity|].
  split; [exact Hlogin|]. split; [exact Hres | exact Hrole].
Defined.

Lemma count_zero_existsb {A} (p : A -> bool) (l : list A) :
  Nat.eqb (List.length (filter p l)) 0 = negb (existsb p l).
Proof.
  induction l as [|x l IH]; simpl; [reflexivity|].
  destruct (p x); simpl; [reflexivity | exact IH].
Qed.

Lemma ensure_admin_eq (c : Crypto) (salt : string) (db : DB) :
  ensure_admin c salt db
  = if existsb (fun d => Users.role d =? "admin") (users db) then db
    else put c_users (users db ++ [seeded_admin c salt]) db.
Proof.
  unfold ensure_admin. rewrite count_zero_existsb.
  destruct (existsb _ (users db)); reflexivity.
Qed.

(** X14.  After the startup hook the [users] collection holds a user with
    role [admin]; the hook changes nothing when there already is one, so
    running it again changes nothing; and it never touches another
    collection. *)
Theorem X14_ensure_admin_once (c : Crypto) (salt salt' : string) (db : DB) :
  existsb (fun d => Users.role d =? "admin")
          (users (ensure_admin c salt db)) = true
  /\ (existsb (fun d => Users.role d =? "admin") (users db) = true ->
      ensure_admin c salt db = db)
  /\ ensure_admin c salt' (ensure_admin c salt db) = ensure_admin c salt db
  /\ put c_users (users db) (ensure_admin c salt db) = db.
Proof.
  assert (Hadmin : existsb (fun d => Users.role d =? "admin")
                           (users (ensure_admin c salt db)) = true).
  { rewrite ensure_admin_eq.
    destruct (existsb _ (users db)) eqn:Hex; [exact Hex|].
    simpl users. rewrite existsb_app. simpl. apply orb_true_r. }
  split; [exact Hadmin|]. split; [|split].
  - intro Hex. rewrite ensure_admin_eq, Hex. reflexivity.
  - rewrite (ensure_admin_eq c salt' (ensure_admin c salt db)), Hadmin.
    reflexivity.
  - rewrite ensure_admin_eq.
    destruct (existsb _ (users db)); destruct db; reflexivity.
Qed.

Lemma X14_ensure_admin_once_witness :
  existsb (fun d => Users.role d =? "admin") (users master_db) = true
  /\ ensure_admin toy_crypto "salt" master_db = master_db.
Proof.
  split; [reflexivity|].
  apply (proj1 (proj2 (X14_ensure_admin_once toy_crypto "salt" "salt"
                         master_db))).
  reflexivity.
Defined.

(** ** Listings *)

Lemma firstn_plus {A} (a b : nat) (l : list A) :
  firstn (a + b) l = (firstn a l ++ firstn b (skipn a l))%list.
Proof.
  revert l. induction a as [|a IH]; intro l; simpl; [reflexivity|].
  destruct l as [|x l]; simpl.
  - rewrite firstn_nil. reflexivity.
  - rewrite IH. reflexivity.
Qed.

Lemma skip_limit_all {D} (l : list D) : skip_limit 0 0 l = Some l.
Proof. reflexivity. Qed.

Lemma skip_limit_page {D} (k : nat) (size : Z) (l : list D) :
  (0 < size)%Z -> (Z.of_nat (S k) * size < 2 ^ 63)%Z ->
  skip_limit ((Z.of_nat (S k) - 1) * size)%Z size l
  = Some (firstn (Z.to_nat size) (skipn (k * Z.to_nat size) l)).
Proof.
  intros Hsize Hbound. unfold skip_limit.
  replace (Z.of_nat (S k) - 1)%Z with (Z.of_nat k) by lia.
  assert (Hk : (0 <= Z.of_nat k * size)%Z) by nia.
  assert (Hk' : (Z.of_nat k * size < 2 ^ 63)%Z) by nia.
  assert (Hs : (size < 2 ^ 63)%Z) by nia.
  destruct (Z.ltb_spec (Z.of_nat k * size) 0); [lia|].
  destruct (Z.ltb_spec size 0); [lia|].
  destruct (Z.leb_spec (2 ^ 63) (Z.of_nat k * size)); [lia|].
  destruct (Z.leb_spec (2 ^ 63) size); [lia|].
  destruct (Z.eqb_spec size 0); [lia|]. simpl.
  rewrite Z2Nat.inj_mul, Nat2Z.id by lia. reflexivity.
Qed.

Lemma walk_skip_limit {D} (size : Z) (l : list D) (n : nat) :
  (0 < size)%Z -> (Z.of_nat n * size < 2 ^ 63)%Z ->
  walk_pages (fun p => skip_limit ((p - 1) * size)%Z size l) n
  = Some (firstn (n * Z.to_nat size) l).
Proof.
  intros Hsize. induction n as [|k IH]; intro Hbound; [reflexivity|].
  cbn [walk_pages]. rewrite IH by nia.
  rewrite (skip_limit_page k size l Hsize Hbound).
  f_equal. replace (S k * Z.to_nat size)%nat
    with (k * Z.to_nat size + Z.to_nat size)%nat by lia.
  symmetry. apply firstn_plus.
Qed.

Lemma walk_pages_ext {D} (f g : Z -> option (list D)) (n : nat) :
  (forall p, f p = g p) -> walk_pages f n = walk_pages g n.
Proof.
  intro H. induction n as [|k IH]; [reflexivity|].
  cbn [walk_pages]. rewrite IH, H. reflexivity.
Qed.

(** X16.  Walking the pages of a listing yields the matching records in the
    order of the collection, each once: for a page size above 0, pages 1 to
    [n] of [list_barang], [list_supplier] and [list_customer] put end to end
    are the first [n * size] records of the unpaged listing (page 1 with
    size 0), hence all of them when there are no more than that. *)
Theorem X16_pages_partition_the_listing
    (re : Regex) (q : option string) (size : Z) (n : nat) (db : DB) :
  (0 < size)%Z -> (Z.of_nat n * size < 2 ^ 63)%Z ->
  (forall all, list_barang re q 1 0 db = Some all ->
     walk_pages (fun p => list_barang re q p size db) n
     = Some (firstn (n * Z.to_nat size) all)
     /\ ((List.length all <= n * Z.to_nat size)%nat ->
         walk_pages (fun p => list_barang re q p size db) n = Some all))
  /\ (forall all, list_supplier re q 1 0 db = Some all ->
        walk_pages (fun p => list_supplier re q p size db) n
        = Some (firstn (n * Z.to_nat size) all)
        /\ ((List.length all <= n * Z.to_nat size)%nat ->
            walk_pages (fun p => list_supplier re q p size db) n = Some all))
  /\ (forall all, list_customer re q 1 0 db = Some all ->
        walk_pages (fun p => list_customer re q p size db) n
        = Some (firstn (n * Z.to_nat size) all)
        /\ ((List.length all <= n * Z.to_nat size)%nat ->
            walk_pages (fun p => list_customer re q p size db) n = Some all)).
Proof.
  intros Hsize Hbound.
  split; [|split]; intros all Hall;
    [ unfold list_barang in * | unfold list_supplier in *
    | unfold list_customer in * ];
    (destruct (q_filter re q _ _) as [filt|]; [|discriminate]);
    simpl in Hall; injection Hall as <-;
    (split; [apply walk_skip_limit; assumption|]);
    intro Hlen; rewrite walk_skip_limit by assumption;
    rewrite firstn_all2 by exact Hlen; reflexivity.
Qed.

Lemma X16_pages_partition_the_listing_witness :
  list_barang toy_regex (Some "kode") 1 0 master_db = Some [tepung; gula]
  /\ walk_pages (fun p => list_barang toy_regex (Some "kode") p 1 master_db) 2
     = Some [tepung; gula].
Proof.
  split; [reflexivity|].
  apply (proj2 (proj1 (X16_pages_partition_the_listing
                         toy_regex (Some "kode") 1 2 master_db
                         eq_refl eq_refl)
                  [tepung; gula] eq_refl)).
  simpl. lia.
Defined.

(** ** Search *)







(** ** Reports *)

Lemma equals_if_given_same (v : string) : equals_if_given (Some v) v = true.
Proof.
  destruct v as [|a v]; [reflexivity|].
  unfold equals_if_given. apply String.eqb_refl.
Qed.

Lemma in_filter_snoc {A} (p : A -> bool) (l : list A) (x : A) :
  p x = true -> In x (filter p (l ++ [x])).
Proof.
  intro H. apply filter_In. split; [|exact H].
  apply in_or_app. right. left. reflexivity.
Qed.

(** X18.  A transaction that was accepted can be read back: the purchase is
    in the purchase report for its date and supplier, the stock-in and the
    stock-out are in their reports for their date, and the sale is in the
    sales report for its date and customer. *)
Theorem X18_accepted_transaction_is_reported :
  (forall data current db,
      accepted (create_pembelian data current) db = true ->
      In data (laporan_pembelian (Some (Pembelian.tanggal data))
                 (Some (Pembelian.kode_supplier data))
                 (db_after (create_pembelian data current) db)))
  /\ (forall re data current db,
        accepted (create_barang_masuk data current) db = true ->
        exists l,
          laporan_masuk re (Some (BarangMasuk.tanggal data)) None
            (db_after (create_barang_masuk data current) db) = Some l
          /\ In data l)
  /\ (forall re data current db,
        accepted (create_barang_keluar data current) db = true ->
        exists l,
          laporan_keluar re (Some (BarangKeluar.tanggal data)) None
            (db_after (create_barang_keluar data current) db) = Some l
          /\ In data l)
  /\ (forall data current db,
        accepted (create_penjualan data current) db = true ->
        In data (laporan_penjualan (Some (Penjualan.tanggal data))
                   (Some (Penjualan.kode_customer data))
                   (db_after (create_penjualan data current) db))).
Proof.
  split; [|split; [|split]].
  - intros data current db Hacc.
    pose proof (step_pembelian (PostPembelian data current) db) as H.
    unfold step_body in H. simpl handle in H. rewrite Hacc in H.
    unfold laporan_pembelian. rewrite H. apply in_filter_snoc.
    rewrite !equals_if_given_same. reflexivity.
  - intros re data current db Hacc.
    pose proof (step_barangmasuk (PostBarangMasuk data current) db) as H.
    unfold step_body in H. simpl handle in H. rewrite Hacc in H.
    unfold laporan_masuk. simpl regex_if_given.
    eexists. split; [reflexivity|]. rewrite H. apply in_filter_snoc.
    rewrite equals_if_given_same. reflexivity.
  - intros re data current db Hacc.
    pose proof (step_barngkeluar (PostBarangKeluar data current) db) as H.
    unfold step_body in H. simpl handle in H. rewrite Hacc in H.
    unfold laporan_keluar. simpl regex_if_given.
    eexists. split; [reflexivity|]. rewrite H. apply in_filter_snoc.
    rewrite equals_if_given_same. reflexivity.
  - intros data current db Hacc.
    pose proof (step_penjualan (PostPenjualan data current) db) as H.
    unfold step_body in H. simpl handle in H. rewrite Hacc in H.
    unfold laporan_penjualan. rewrite H. apply in_filter_snoc.
    rewrite !equals_if_given_same. reflexivity.
Qed.

Lemma X18_accepted_transaction_is_reported_witness :
  accepted (create_barang_keluar (keluar_tepung 3) staff) stocked_db = true
  /\ exists l,
       laporan_keluar toy_regex (Some "2024-01-06") None
         (db_after (create_barang_keluar (keluar_tepung 3) staff) stocked_db)
       = Some l
       /\ In (keluar_tepung 3) l.
Proof.
  split; [reflexivity|].
  exact (proj1 (proj2 (proj2 X18_accepted_transaction_is_reported))
           toy_regex (keluar_tepung 3) staff stocked_db eq_refl).
Defined.

Lemma entry_in_unique (l : list Stock.t) (s : Stock.t) :
  NoDup (map Stock.kode_barang l) -> In s l ->
  entry_in l (Stock.kode_barang s) = Some s.
Proof.
  unfold entry_in. induction l as [|x l IH]; simpl; intros Hnd Hin;
    [destruct Hin|].
  inversion Hnd as [|k ks Hx Hl]; subst.
  destruct Hin as [->|Hin].
  - rewrite String.eqb_refl. reflexivity.
  - destruct (Stock.kode_barang x =? Stock.kode_barang s) eqn:E.
    + exfalso. apply String.eqb_eq in E. apply Hx. rewrite E.
      apply in_map. exact Hin.
    + apply IH; assumption.
Qed.

(** X19.  The stock report is the ledger: it has one row per ledger
    document, every ledger entry of an item is a row, and when the item
    codes of the ledger are pairwise different the [stok_total] of a row is
    the [stok] that the sufficiency checks read for the item of the row. *)
Theorem X19_stock_report_is_the_ledger (db : DB) :
  List.length (laporan_stock db) = List.length (stock db)
  /\ (forall kode s,
        entry_of db kode = Some s ->
        In (StockRow.mk kode (Stock.nama_barang s) (Stock.stok s)
                        (Stock.satuan s))
           (laporan_stock db))
  /\ (NoDup (ledger_codes db) ->
      forall row, In row (laporan_stock db) ->
        StockRow.stok_total row = stok_of db (StockRow.kode_barang row)).
Proof.
  unfold laporan_stock. split; [apply length_map|]. split.
  - intros kode s He. unfold entry_of, entry_in in He.
    apply find_some in He. destruct He as [Hin Hk].
    apply String.eqb_eq in Hk. subst kode.
    apply in_map_iff. exists s. split; [reflexivity | exact Hin].
  - intros Hnd row Hin. apply in_map_iff in Hin.
    destruct Hin as [s [<- Hs]]. simpl.
    unfold stok_of, stok_in.
    rewrite (entry_in_unique _ _ Hnd Hs). reflexivity.
Qed.

Lemma X19_stock_report_is_the_ledger_witness :
  NoDup (ledger_codes stocked_db)
  /\ In (StockRow.mk "KODE-001" "Tepung" (fl 5) "Kg")
        (laporan_stock stocked_db)
  /\ StockRow.stok_total (StockRow.mk "KODE-001" "Tepung" (fl 5) "Kg")
     = stok_of stocked_db "KODE-001".
Proof.
  assert (Hnd : NoDup (ledger_codes stocked_db))
    by (repeat constructor; intros []).
  assert (Hin : In (StockRow.mk "KODE-001" "Tepung" (fl 5) "Kg")
                   (laporan_stock stocked_db)).
  { exact (proj1 (proj2 (X19_stock_report_is_the_ledger stocked_db))
             "KODE-001" tepung_5 eq_refl). }
  split; [exact Hnd|]. split; [exact Hin|].
  exact (proj2 (proj2 (X19_stock_report_is_the_ledger stocked_db)) Hnd _ Hin).
Defined.

(** ** Code generator: what the result depends on *)

Lemma last_sorted_same_elements (l l' : list string) :
  (forall v, In v l <-> In v l') -> last_sorted l = last_sorted l'.
Proof.
  intro Hsame.
  destruct (last_sorted l) as [m|] eqn:Hl;
    destruct (last_sorted l') as [m'|] eqn:Hl'.
  - destruct (last_sorted_greatest _ _ Hl) as [Hin Hmax].
    destruct (last_sorted_greatest _ _ Hl') as [Hin' Hmax'].
    f_equal. apply String.leb_antisym.
    + apply Hmax'. apply Hsame. exact Hin.
    + apply Hmax. apply Hsame. exact Hin'.
  - apply last_sorted_none in Hl'. subst l'.
    destruct (last_sorted_greatest _ _ Hl) as [Hin _].
    apply Hsame in Hin. destruct Hin.
  - apply last_sorted_none in Hl. subst l.
    destruct (last_sorted_greatest _ _ Hl') as [Hin _].
    apply Hsame in Hin. destruct Hin.
  - reflexivity.
Qed.

(** X20.  The generated code depends only on which values the field takes
    in the collection, not on the order of the documents or on how often a
    value occurs: two databases with the same set of values give the same
    code. *)
Theorem X20_next_code_depends_on_the_set_of_codes
    (prefix : string) (pad : Z) (field coll : option string) (db db' : DB) :
  (forall v,
      In v (field_strings db (Py.or_else coll (Py.lower prefix))
              (Py.or_else field ("kode_" ++ Py.or_else coll (Py.lower prefix))))
      <->
      In v (field_strings db' (Py.or_else coll (Py.lower prefix))
              (Py.or_else field ("kode_" ++ Py.or_else coll (Py.lower prefix))))) ->
  next_code prefix pad field coll db = next_code prefix pad field coll db'.
Proof.
  intro Hsame. unfold next_code, find_last_with_prefix.
  set (c := Py.or_else coll (Py.lower prefix)) in *.
  set (f := Py.or_else field ("kode_" ++ c)) in *.
  destruct (Py.literal prefix); [|reflexivity].
  rewrite (last_sorted_same_elements
             (filter (String.prefix prefix) (field_strings db c f))
             (filter (String.prefix prefix) (field_strings db' c f)));
    [reflexivity|].
  intro v. rewrite !filter_In, Hsame. reflexivity.
Qed.

Lemma X20_next_code_depends_on_the_set_of_codes_witness :
  next_code "KODE-" 3 (Some "kode_barang") (Some "barang") master_db
  = next_code "KODE-" 3 (Some "kode_barang") (Some "barang")
      (put c_barang [gula; tepung; gula] master_db).
Proof.
  apply X20_next_code_depends_on_the_set_of_codes.
  intro v. simpl. tauto.
Defined.

(** ** Code generator: numbers and their digits *)

Lemma int_fold_acc (l : list ascii) (acc : N) :
  fold_left int_step l acc
  = (acc * 10 ^ N.of_nat (List.length l) + fold_left int_step l 0)%N.
Proof.
  revert acc. induction l as [|c l IH]; intro acc.
  - simpl. lia.
  - cbn [fold_left List.length]. rewrite IH.
    rewrite (IH (int_step 0 c)). unfold int_step.
    rewrite Nat2N.inj_succ, N.pow_succ_r'. lia.
Qed.

Lemma int_cons (c : ascii) (s : string) :
  Py.int (String c s)
  = (Py.digit_value c * 10 ^ N.of_nat (String.length s) + Py.int s)%N.
Proof.
  unfold Py.int. cbn [list_ascii_of_string fold_left].
  change (fun acc c0 => (10 * acc + Py.digit_value c0)%N) with int_step.
  rewrite int_fold_acc.
  replace (List.length (list_ascii_of_string s)) with (String.length s).
  - f_equal; lia.
  - induction s as [|x s IH]; simpl; [reflexivity | rewrite IH; reflexivity].
Qed.




Lemma int_zeros (k : nat) (s : string) : Py.int (Py.zeros k ++ s) = Py.int s.
Proof.
  induction k as [|k IH]; [reflexivity|].
  cbn [Py.zeros append]. rewrite int_cons, IH. reflexivity.
Qed.

Lemma int_of_uint_acc (d : Decimal.uint) (acc : positive) :
  fold_left int_step (list_ascii_of_string (NilEmpty.string_of_uint d))
            (Npos acc)
  = Npos (Pos.of_uint_acc d acc).
Proof.
  revert acc. induction d; intro acc; cbn [NilEmpty.string_of_uint
    list_ascii_of_string fold_left Pos.of_uint_acc]; try reflexivity;
    (etransitivity; [|apply IHd]); f_equal; unfold int_step;
    match goal with
    | |- context [Py.digit_value ?c] =>
        let v := eval vm_compute in (Py.digit_value c) in
        change (Py.digit_value c) with v
    end; lia.
Qed.

Lemma int_of_uint (d : Decimal.uint) :
  fold_left int_step (list_ascii_of_string (NilEmpty.string_of_uint d)) 0%N
  = Pos.of_uint d.
Proof.
  induction d; cbn [NilEmpty.string_of_uint list_ascii_of_string fold_left
    Pos.of_uint]; try reflexivity; try exact IHd;
    (etransitivity; [|apply int_of_uint_acc]); reflexivity.
Qed.

(** [int(str(n)) == n] *)
Lemma int_str (n : N) : Py.int (Py.str n) = n.
Proof.
  unfold Py.int, Py.str, NilZero.string_of_uint.
  change (fun acc c => (10 * acc + Py.digit_value c)%N) with int_step.
  destruct (N.to_uint n) eqn:Hn;
    try (rewrite <- Hn, int_of_uint; apply DecimalN.Unsigned.of_to).
  exfalso. destruct n as [|p]; [discriminate|].
  exact (DecimalPos.Unsigned.to_uint_nonnil p Hn).
Qed.

(** ** Code generator: strings *)

Lemma prefix_app (p d : string) : String.prefix p (p ++ d) = true.
Proof.
  induction p as [|c p IH]; simpl; [apply prefix_empty|].
  destruct (ascii_dec c c) as [_|H]; [exact IH | exfalso; exact (H eq_refl)].
Qed.




Lemma length_append (a b : string) :
  String.length (a ++ b) = (String.length a + String.length b)%nat.
Proof.
  induction a as [|c a IH]; simpl; [reflexivity|]. rewrite IH. reflexivity.
Qed.





Lemma all_digits_uint (d : Decimal.uint) :
  all_digits (NilEmpty.string_of_uint d) = true.
Proof. induction d; simpl; try reflexivity; exact IHd. Qed.

Lemma all_digits_str (n : N) : all_digits (Py.str n) = true.
Proof.
  unfold Py.str, NilZero.string_of_uint.
  destruct (N.to_uint n) eqn:E; try reflexivity;
    rewrite <- E; apply all_digits_uint.
Qed.

Lemma all_digits_zfill (pad : Z) (s : string) :
  all_digits s = true -> all_digits (Py.zfill pad s) = true.
Proof.
  unfold Py.zfill. intro H.
  induction (Z.to_nat pad - String.length s)%nat as [|k IH]; simpl;
    [exact H | exact IH].
Qed.

Lemma length_zfill (pad : Z) (s : string) :
  String.length (Py.zfill pad s)
  = Nat.max (Z.to_nat pad) (String.length s).
Proof.
  unfold Py.zfill. rewrite length_append.
  assert (H : forall k, String.length (Py.zeros k) = k)
    by (induction k as [|k IH]; simpl; [reflexivity | rewrite IH; reflexivity]).
  rewrite H. lia.
Qed.

(** X21.  Whatever the collection holds, a generated code is the prefix
    followed by a number of at least 1 written in decimal digits and padded
    with zeros to at least [pad] characters, and the number can be read back
    from those digits. *)
Theorem X21_next_code_shape
    (prefix : string) (pad : Z) (field coll : option string) (db : DB)
    (code : string) :
  next_code prefix pad field coll db = Some code ->
  exists n,
    (1 <= n)%N
    /\ code = prefix ++ Py.zfill pad (Py.str n)
    /\ String.prefix prefix code = true
    /\ all_digits (Py.zfill pad (Py.str n)) = true
    /\ String.length (Py.zfill pad (Py.str n))
       = Nat.max (Z.to_nat pad) (String.length (Py.str n))
    /\ Py.int (Py.zfill pad (Py.str n)) = n.
Proof.
  unfold next_code. intro H.
  destruct (find_last_with_prefix prefix _) as [last|]; [|discriminate].
  injection H as <-. exists (next_num last). split; [|split; [|split; [|split; [|split]]]].
  - unfold next_num. destruct last as [v|]; [|lia].
    destruct (Py.re_search_digits_dollar v); lia.
  - reflexivity.
  - apply prefix_app.
  - apply all_digits_zfill, all_digits_str.
  - apply length_zfill.
  - unfold Py.zfill. rewrite int_zeros. apply int_str.
Qed.

Lemma X21_next_code_shape_witness :
  next_code "KODE-" 3 (Some "kode_barang") (Some "barang") master_db
  = Some "KODE-003"
  /\ exists n, (1 <= n)%N /\ "KODE-003" = "KODE-" ++ Py.zfill 3 (Py.str n)
               /\ Py.int (Py.zfill 3 (Py.str n)) = n.
Proof.
  split; [reflexivity|].
  destruct (X21_next_code_shape "KODE-" 3 (Some "kode_barang") (Some "barang")
              master_db "KODE-003" eq_refl)
    as [n [H1 [H2 [_ [_ [_ H3]]]]]].
  exists n. split; [exact H1|]. split; [exact H2 | exact H3].
Defined.




(** ** Code generator and master data together *)



(** ** Nothing recognises a repeated purchase *)

Lemma pembelian_keeps_master data current db :
  barang (db_after (create_pembelian data current) db) = barang db
  /\ supplier (db_after (create_pembelian data current) db) = supplier db.
Proof.
  pose proof (step_barang (PostPembelian data current) db) as Hb.
  pose proof (step_supplier (PostPembelian data current) db) as Hs.
  unfold step_body in Hb, Hs. simpl handle in Hb, Hs. simpl in Hb, Hs.
  destruct (accepted (create_pembelian data current) db);
    rewrite app_nil_r in Hb, Hs; split; assumption.
Qed.

(** X24.  No check recognises a purchase that was already recorded: a
    purchase that was accepted is accepted again when it is sent again, the
    purchase collection then holds it twice, and the ledger has received
    its quantities twice: for every item, the quantities of the lines on
    the item were added to its entry in the order of the lines, and then
    once more. *)
Theorem X24_repeated_purchase_counts_twice
    (data : Pembelian.t) (current current' : Users.t) (db : DB)
    (kode : string) :
  accepted (create_pembelian data current) db = true ->
  let db1 := db_after (create_pembelian data current) db in
  let db2 := db_after (create_pembelian data current') db1 in
  accepted (create_pembelian data current') db1 = true
  /\ pembelian db2 = (pembelian db ++ [data; data])%list
  /\ option_map Stock.stok (entry_of db2 kode)
     = add_deltas (option_map Stock.stok (entry_of db kode))
         (map PembelianItem.qty
            (filter (fun it => PembelianItem.kode_barang it =? kode)
                    (Pembelian.items data))
          ++ map PembelianItem.qty
               (filter (fun it => PembelianItem.kode_barang it =? kode)
                       (Pembelian.items data)))%list.
Proof.
  intros Hacc db1 db2.
  destruct (pembelian_keeps_master data current db) as [Hb Hs].
  assert (Hacc1 : accepted (create_pembelian data current') db1 = true).
  { rewrite create_pembelian_accepted in *.
    unfold supplier_exists, barang_exists in *. fold db1 in Hb, Hs.
    rewrite Hb, Hs. exact Hacc. }
  split; [exact Hacc1|]. split.
  - pose proof (step_pembelian (PostPembelian data current') db1) as H2.
    pose proof (step_pembelian (PostPembelian data current) db) as H1.
    unfold step_body in H1, H2. simpl handle in H1, H2.
    rewrite Hacc in H1. rewrite Hacc1 in H2. fold db1 in H1. fold db2 in H2.
    simpl in H1, H2. rewrite H2, H1, <- app_assoc. reflexivity.
  - pose proof (step_stok (PostPembelian data current') db1 kode) as H2.
    pose proof (step_stok (PostPembelian data current) db kode) as H1.
    simpl handle in H1, H2. rewrite Hacc in H1. rewrite Hacc1 in H2.
    fold db1 in H1. fold db2 in H2.
    rewrite H2, H1, add_deltas_app. reflexivity.
Qed.

Lemma X24_repeated_purchase_counts_twice_witness :
  accepted (create_pembelian beli_tepung_gula staff) master_db = true
  /\ pembelian (db_after (create_pembelian beli_tepung_gula staff)
                  (db_after (create_pembelian beli_tepung_gula staff)
                            master_db))
     = [beli_tepung_gula; beli_tepung_gula]
  /\ option_map Stock.stok
       (entry_of (db_after (create_pembelian beli_tepung_gula staff)
                    (db_after (create_pembelian beli_tepung_gula staff)
                              master_db)) "KODE-001")
     = add_deltas None [fl 10; fl 10].
Proof.
  split; [reflexivity|].
  exact (proj2 (X24_repeated_purchase_counts_twice
                  beli_tepung_gula staff staff master_db "KODE-001"
                  eq_refl)).
Defined.

(** ** A quantity that is not a number *)

Lemma is_nan_spec (x : float) : is_nan x = true <-> Prim2SF x = S754_nan.
Proof.
  unfold is_nan. rewrite FloatAxioms.eqb_spec. unfold SFeqb.
  pose proof (SFcompare_antisym (Prim2SF x) (Prim2SF x)) as H.
  destruct (Prim2SF x) as [s|s| |s m e] eqn:Hx.
  - destruct s; simpl; split; discriminate.
  - destruct s; simpl; split; discriminate.
  - simpl. split; reflexivity.
  - destruct (SFcompare (S754_finite s m e) (S754_finite s m e))
      as [[| |]|] eqn:Hc; simpl in *; split; try discriminate;
      destruct s; discriminate.
Qed.

Lemma ltb_nan_r (x q : float) : is_nan q = true -> (x <? q)%float = false.
Proof.
  intro H. apply is_nan_spec in H.
  rewrite FloatAxioms.ltb_spec, H. unfold SFltb.
  destruct (Prim2SF x); reflexivity.
Qed.

Lemma ltb_nan_l (x q : float) : is_nan x = true -> (x <? q)%float = false.
Proof.
  intro H. apply is_nan_spec in H.
  rewrite FloatAxioms.ltb_spec, H. reflexivity.
Qed.

Lemma opp_nan (q : float) : is_nan q = true -> is_nan (- q) = true.
Proof.
  intro H. apply is_nan_spec in H. apply is_nan_spec.
  rewrite FloatAxioms.opp_spec, H. reflexivity.
Qed.

Lemma add_nan_r (x q : float) : is_nan q = true -> is_nan (x + q) = true.
Proof.
  intro H. apply is_nan_spec in H. apply is_nan_spec.
  rewrite FloatAxioms.add_spec, H. unfold SF64add, SFadd.
  destruct (Prim2SF x); reflexivity.
Qed.

Lemma add_nan_l (x q : float) : is_nan x = true -> is_nan (x + q) = true.
Proof.
  intro H. apply is_nan_spec in H. apply is_nan_spec.
  rewrite FloatAxioms.add_spec, H. reflexivity.
Qed.

(** X25.  A quantity that is NaN passes the sufficiency check, since [<] is
    false on NaN: a stock-out of NaN of an item of the item master is
    accepted whatever the ledger holds, and leaves NaN as the ledger
    quantity of the item.  Against a ledger quantity that is NaN every
    quantity passes the check, and the quantity stays NaN: from then on no
    stock-out of the item is rejected for lack of stock. *)
Theorem X25_nan_quantity_passes_the_check :
  (forall data current db,
      barang_exists db (BarangKeluar.kode_barang data) = true ->
      is_nan (BarangKeluar.qty data) = true ->
      accepted (create_barang_keluar data current) db = true
      /\ is_nan (stok_of (db_after (create_barang_keluar data current) db)
                         (BarangKeluar.kode_barang data)) = true)
  /\
  (forall data current db,
      barang_exists db (BarangKeluar.kode_barang data) = true ->
      is_nan (stok_of db (BarangKeluar.kode_barang data)) = true ->
      accepted (create_barang_keluar data current) db = true
      /\ is_nan (stok_of (db_after (create_barang_keluar data current) db)
                         (BarangKeluar.kode_barang data)) = true).
Proof.
  split; intros data current db Hbr Hnan.
  - assert (Hins : insufficient (entry_of db (BarangKeluar.kode_barang data))
                                (BarangKeluar.qty data) = false).
    { destruct (entry_of db _) as [s|]; [|reflexivity].
      simpl. apply ltb_nan_r. exact Hnan. }
    assert (Hacc : accepted (create_barang_keluar data current) db = true).
    { unfold accepted. rewrite create_barang_keluar_eq, Hbr, Hins.
      reflexivity. }
    split; [exact Hacc|].
    pose proof (step_stok (PostBarangKeluar data current) db
                  (BarangKeluar.kode_barang data)) as Hstep.
    simpl handle in Hstep. rewrite Hacc in Hstep.
    simpl deltas in Hstep. rewrite String.eqb_refl in Hstep.
    rewrite stok_of_entry, Hstep.
    destruct (option_map Stock.stok (entry_of db _)); simpl.
    + apply add_nan_r, opp_nan. exact Hnan.
    + apply opp_nan. exact Hnan.
  - rewrite stok_of_entry in Hnan.
    destruct (entry_of db (BarangKeluar.kode_barang data)) as [s|] eqn:He;
      [|discriminate].
    simpl in Hnan.
    assert (Hacc : accepted (create_barang_keluar data current) db = true).
    { unfold accepted. rewrite create_barang_keluar_eq, Hbr, He.
      simpl insufficient. rewrite (ltb_nan_l _ _ Hnan). reflexivity. }
    split; [exact Hacc|].
    pose proof (step_stok (PostBarangKeluar data current) db
                  (BarangKeluar.kode_barang data)) as Hstep.
    simpl handle in Hstep. rewrite Hacc in Hstep.
    simpl deltas in Hstep. rewrite String.eqb_refl in Hstep.
    rewrite stok_of_entry, Hstep, He. simpl.
    apply add_nan_l. exact Hnan.
Qed.

Lemma X25_nan_quantity_passes_the_check_witness :
  accepted (create_barang_keluar keluar_nan staff) stocked_db = true
  /\ is_nan (stok_of (db_after (create_barang_keluar keluar_nan staff)
                               stocked_db) "KODE-001") = true.
Proof.
  exact (proj1 X25_nan_quantity_passes_the_check
           keluar_nan staff stocked_db eq_refl eq_refl).
Defined.
